(** * loto-site: the issuance pipeline of the browser client

    A shallow embedding of the JavaScript of
    - [frontend/js/auth.js]          (session manager),
    - [frontend/js/loto6-logic.js]   (loto6 "logic" page),
    - the loto7 "logic" page         (same layout as loto6-logic.js),
    - [frontend/js/loto7-fortune.js] (loto7 "fortune" page),
    followed by the properties of the specification that they decide.

    Conventions.
    - A JavaScript number is a [jsnum]: NaN, the two infinities, or a finite
      value, kept as a rational (every finite double is one).
    - A value decoded by [res.json()] is a [JSON]; an object is a finite map
      from property names to values. [undefined] is [None : option JSON].
    - Browser state (localStorage, location, the DOM nodes the pages write
      to, the page variables) is threaded explicitly through a state and
      exception monad [Js]; every effect is also appended to a trace.
    - The network is the field [fetch] of an environment [Env]; [await]
      runs the awaited call to its end, one handler at a time.
    - A conversion to a primitive ([String(v)], [Number(v)], a template
      literal) can raise a TypeError on a decoded value; every place
      where the pages convert a value of a payload is a place where the
      model can throw.
    - The arithmetic of [randInt] is that of the doubles: every sum and
      product is rounded to 53 significant bits.
    - Left out: the markup text of the cards and [console] output. *)

From Stdlib Require Import ZArith QArith Qround Lia.
From stdpp Require Import base gmap strings list sorting pretty.

Set Warnings "-register-all".
Local Open Scope Z_scope.

(* ================================================================== *)
(** * 1. JavaScript numbers *)
(* ================================================================== *)

Inductive jsnum : Type :=
  | NaN
  | PInf
  | NInf
  | Fin (q : Q).

Definition num_of_Z (z : Z) : jsnum := Fin (inject_Z z).

(** [Number.isFinite] *)
Definition isFinite (n : jsnum) : bool :=
  match n with
  | Fin _ => true
  | _ => false
  end.

(** [Math.trunc] on a finite number: rounding toward zero. *)
Definition trunc (q : Q) : Z := Z.quot (Qnum q) (Zpos (Qden q)).

(** Truthiness of a number: everything but 0 and NaN. *)
Definition num_truthy (n : jsnum) : bool :=
  match n with
  | NaN => false
  | Fin q => negb (Qeq_bool q 0)
  | _ => true
  end.

(** [clampInt(n, min, max)], identical in loto6-logic.js, the loto7 logic
    page and loto7-fortune.js:
<<
    if (!Number.isFinite(n)) return min;
    return Math.max(min, Math.min(max, Math.trunc(n)));
>>
    The bounds are the integer literals the callers pass. *)
Definition clampInt (n : jsnum) (min max : Z) : Z :=
  if negb (isFinite n) then min
  else match n with
       | Fin q => Z.max min (Z.min max (trunc q))
       | _ => min
       end.

(** Position of a number relative to a bound, in the order of the extended
    reals (NaN is unordered). *)
Definition num_gt (n : jsnum) (b : Z) : Prop :=
  match n with
  | PInf => True
  | Fin q => (inject_Z b < q)%Q
  | _ => False
  end.

Definition num_lt (n : jsnum) (b : Z) : Prop :=
  match n with
  | NInf => True
  | Fin q => (q < inject_Z b)%Q
  | _ => False
  end.

(* ================================================================== *)
(** * 2. JSON values *)
(* ================================================================== *)

Inductive JSON : Type :=
  | JNull
  | JBool (b : bool)
  | JNum (n : jsnum)
  | JStr (s : string)
  | JArr (l : list JSON)
  | JObj (m : gmap string JSON).

(** JavaScript truthiness; [None] is [undefined]. *)
Definition truthy (v : JSON) : bool :=
  match v with
  | JNull => false
  | JBool b => b
  | JNum n => num_truthy n
  | JStr s => negb (String.eqb s "")
  | JArr _ => true
  | JObj _ => true
  end.

Definition truthy_opt (v : option JSON) : bool :=
  match v with
  | Some v => truthy v
  | None => false
  end.

(** [a || b] *)
Definition js_or (a : option JSON) (b : JSON) : JSON :=
  match a with
  | Some v => if truthy v then v else b
  | None => b
  end.

(** [v.k] for a value that is not null, and [v?.k] for any value. The pages
    only read the fixed names [prediction], [predictions], [tickets],
    [numbers], [fixed_numbers], [draw], [round], [draw_date], [is_premium]:
    none of them is an own property of an array, a string, a number or a
    boolean, so the access yields [undefined] there. *)
Definition get_prop (v : JSON) (k : string) : option JSON :=
  match v with
  | JObj m => m !! k
  | _ => None
  end.

(** [o?.k] where [o] itself may be [undefined]. *)
Definition get_opt (o : option JSON) (k : string) : option JSON :=
  match o with
  | Some v => get_prop v k
  | None => None
  end.

(** [Array.isArray(v) ? v : []] *)
Definition array_or_empty (v : option JSON) : list JSON :=
  match v with
  | Some (JArr l) => l
  | _ => []
  end.

Definition isArray (v : option JSON) : bool :=
  match v with
  | Some (JArr _) => true
  | _ => false
  end.

(** [String(v)], [Number(v)], a template literal and the concatenation of
    a string first turn [v] into a primitive. For a decoded object the
    conversion calls the methods [toString] and [valueOf] it finds on the
    object: an own property [toString] hides the method of
    [Object.prototype] and, being a decoded value, is not callable; the
    [valueOf] of [Object.prototype] returns the object itself, and an own
    [valueOf] is not callable either. So the conversion raises a
    TypeError exactly when the object has an own property [toString]. An
    array is joined element by element ([null] giving the empty text),
    and its conversion fails when that of an element does. *)
Fixpoint unconvertible (v : JSON) : bool :=
  match v with
  | JObj m => bool_decide (is_Some (m !! "toString"))
  | JArr l => existsb unconvertible l
  | _ => false
  end.

(** The own enumerable properties copied by an object spread [{...v}]:
    the entries of an object, the indexed elements of an array, the indexed
    characters of a string, nothing for the other values. *)
Definition indexed {A} (f : A -> JSON) (l : list A) : gmap string JSON :=
  list_to_map (imap (fun i x => (pretty i, f x)) l).

Definition spread (v : JSON) : gmap string JSON :=
  match v with
  | JObj m => m
  | JArr l => indexed (fun x => x) l
  | JStr s => indexed (fun c => JStr (String c EmptyString)) (String.list_ascii_of_string s)
  | _ => ∅
  end.

(** [Array.prototype.slice(0, end)] for an integer [end]: a negative [end]
    counts from the end of the array. *)
Definition slice0 {A} (l : list A) (e : Z) : list A :=
  let len := Z.of_nat (length l) in
  let k := if e <? 0 then Z.max (len + e) 0 else Z.min e len in
  take (Z.to_nat k) l.

(* ================================================================== *)
(** * 3. The numeric ticket generator *)
(* ================================================================== *)

(** A JavaScript [Set] of integers, in insertion order: [add] ignores a
    value that is already a member. *)
Definition set_add (x : Z) (s : list Z) : list Z :=
  if decide (x ∈ s) then s else s ++ [x].

(** [new Set(array)] *)
Definition new_Set (l : list Z) : list Z :=
  foldl (fun s x => set_add x s) [] l.

(** ** The arithmetic of the doubles

    A JavaScript number is a double. Every finite double is an integer
    multiple of [2^-1074], and the integer has at most 53 significant
    bits; the result of a sum or a product is the double nearest to the
    exact result, the one with the even integer when two are equally
    near. [round53 x] is this rounding, for an exact result counted in
    multiples of [2^-1074] and, since the rounding keeps 53 bits at any
    scale, for an integer counted in ones. (Results of magnitude [2^1024]
    and more, which the format replaces by an infinity, are outside this
    model; the bounds here are far below.) *)
Definition round53 (x : Z) : Z :=
  let a := Z.abs x in
  let s := Z.log2 a - 52 in
  if s <=? 0 then x
  else
    let m := a / 2 ^ s in
    let rest := a mod 2 ^ s in
    let half := 2 ^ (s - 1) in
    let m' := if rest <? half then m
              else if half <? rest then m + 1
              else if Z.even m then m else m + 1 in
    Z.sgn x * (m' * 2 ^ s).

Definition DENOM : Z := 2 ^ 1074.

(** A rational that is a double: a multiple of [2^-1074] by an integer of
    at most 53 significant bits. *)
Definition is_double (r : Q) : bool :=
  let k := Qfloor (r * inject_Z DENOM) in
  Qeq_bool (inject_Z k) (r * inject_Z DENOM) && (round53 k =? k).

(** [randInt(min, max)] for the double [r] returned by [Math.random()]:
<<
    return Math.floor(Math.random() * (max - min + 1)) + min;
>>
    [min] and [max] are doubles with an integer value, as the integer
    literals the callers pass. The difference, the two sums and the
    product are rounded; [Math.floor] is exact. The product of [r], which
    is [k] times [2^-1074], and of the integer [n] is rounded as the
    integer [k * n] of multiples of [2^-1074]. *)
Definition randInt (r : Q) (min max : Z) : Z :=
  let n := round53 (round53 (max - min) + 1) in
  let k := Qfloor (r * inject_Z DENOM) in
  let p := round53 (k * n) in
  round53 (p / DENOM + min).

Record GenConfig : Type := {
  cfg_min : Z;
  cfg_max : Z;
  cfg_total : Z;
  cfg_fixedNumbers : option (list Z)
}.

(** The loop [while (set.size < total) set.add(randInt(min, max));].
    [rnd i] is the result of the [i]-th call of [Math.random()]; the loop
    is cut after [fuel] iterations. The result carries the number of
    draws consumed. *)
Fixpoint generate_loop (rnd : nat -> Q) (min max total : Z)
    (fuel : nat) (set : list Z) (i : nat) : option (list Z * nat) :=
  if Z.of_nat (length set) <? total then
    match fuel with
    | O => None
    | S fuel' =>
        generate_loop rnd min max total fuel'
          (set_add (randInt (rnd i) min max) set) (S i)
    end
  else Some (set, i).

(** [generateUniqueNumbersWithFixed({min, max, total, fixedNumbers})],
    identical in loto6-logic.js and the loto7 logic page:
<<
    const set = new Set(fixedNumbers || []);
    while (set.size < total) { set.add(randInt(min, max)); }
    return Array.from(set).sort((a, b) => a - b);
>>  *)
Definition generateUniqueNumbersWithFixed (rnd : nat -> Q) (fuel : nat)
    (c : GenConfig) : option (list Z * nat) :=
  match generate_loop rnd (cfg_min c) (cfg_max c) (cfg_total c) fuel
          (new_Set (default [] (cfg_fixedNumbers c))) 0%nat with
  | Some (set, draws) => Some (merge_sort Z.le set, draws)
  | None => None
  end.

(** A source of randomness in which every value of the range keeps coming
    back; a run of [Math.random()] has this property with probability 1. *)
Definition fair (rnd : nat -> Q) (min max : Z) : Prop :=
  forall (k : nat) (v : Z), min <= v <= max ->
    exists j : nat, (k <= j)%nat /\ randInt (rnd j) min max = v.

(** [Math.random()] returns a double of the interval [0, 1). *)
Definition unit_interval (rnd : nat -> Q) : Prop :=
  forall i : nat, is_double (rnd i) = true /\ (0 <= rnd i)%Q /\ (rnd i < 1)%Q.

(* ================================================================== *)
(** * 4. Browser state, effects and the network *)
(* ================================================================== *)

(** A thrown value. The pages only ever read [e.message]. *)
Inductive JsError : Type :=
  | Error (message : string)      (* [new Error(message)] thrown by the pages *)
  | TypeError (message : string)  (* raised by the engine, e.g. on [null.round] *)
  | HostError (message : string). (* a rejection of [fetch] or of [res.json()] *)

Definition message (e : JsError) : string :=
  match e with
  | Error m => m
  | TypeError m => m
  | HostError m => m
  end.

Inductive Outcome (A : Type) : Type :=
  | Return (a : A)
  | Throw (e : JsError).
Arguments Return {A} a.
Arguments Throw {A} e.

(** [new URL(base + path, location.origin)] with its search parameters. *)
Record Url : Type := {
  url_path : string;
  url_params : list (string * string)
}.

(** [url.searchParams.set(k, v)] *)
Fixpoint params_set (k v : string) (ps : list (string * string)) :
    list (string * string) :=
  match ps with
  | [] => [(k, v)]
  | (k', v') :: ps' =>
      if String.eqb k k'
      then (k, v) :: filter (fun p => negb (String.eqb k (fst p))) ps'
      else (k', v') :: params_set k v ps'
  end.

Definition searchParams_set (k v : string) (u : Url) : Url :=
  {| url_path := url_path u; url_params := params_set k v (url_params u) |}.

(** The [body] of a request: a string, or one of the objects [fetch]
    accepts (FormData, Blob, URLSearchParams, ...). *)
Inductive Body : Type :=
  | BodyString (s : string)
  | BodyObject.

Record RequestInit : Type := {
  method : option string;
  headers : option (gmap string string);
  body : option Body
}.

Record Response : Type := {
  status : Z;
  json : Outcome JSON   (* what [await res.json()] gives *)
}.

(** [res.ok] *)
Definition ok (r : Response) : bool := (200 <=? status r) && (status r <=? 299).

Inductive Event : Type :=
  | EvFetch (url : Url) (init : RequestInit)
  | EvRemoveItem (key : string)
  | EvSetItem (key value : string)
  | EvNavigate (href : string).

(** The markup assigned to [predictionCards.innerHTML], by what produced
    it; the text of the markup is a projection of the arguments. *)
Inductive Html : Type :=
  | HtmlEmpty
  | HtmlErrorCard (msg : string)
  | HtmlPremiumWall
  | HtmlRecordCards (records : list JSON)
  | HtmlTicketCards (data : JSON) (tickets : list JSON).

Record Dom : Type := {
  issueButton_disabled : bool;
  issueButton_textContent : string;
  predictionState_hidden : bool;
  predictionStateText_textContent : string;
  predictionCards_hidden : bool;
  predictionCards_innerHTML : Html;
  round_textContent : option string;    (* [None]: no element with id round *)
  drawDate_textContent : option string  (* [None]: no element with id drawDate *)
}.

Record World : Type := {
  localStorage : gmap string string;
  location_href : string;
  dom : Dom;
  round : jsnum;      (* [let round] of the logic pages *)
  drawDate : string;  (* [let drawDate] of the logic pages *)
  trace : list Event
}.

(** What the pages take from their surroundings. *)
Record Env : Type := {
  fetch : Url -> RequestInit -> Outcome Response;
  ENGINE_BASE : string;                 (* [window.LOTO_ENGINE_BASE || ""] *)
  string_to_number : string -> jsnum;   (* [Number(s)] on a string *)
  object_to_number : JSON -> jsnum;     (* [Number(v)] on an array or object
                                           whose conversion returns *)
  number_to_string : jsnum -> string;   (* [String(n)] on a number *)
  object_to_string : JSON -> string;    (* [String(v)] on an array or object
                                           whose conversion returns *)
  JSON_stringify : JSON -> string;
  type_error_message : string           (* text of the engine's TypeErrors *)
}.

(** The number and the text a value converts to, when the conversion
    returns. *)
Definition number_of (E : Env) (v : JSON) : jsnum :=
  match v with
  | JNull => Fin 0
  | JBool b => Fin (if b then 1 else 0)
  | JNum n => n
  | JStr s => string_to_number E s
  | _ => object_to_number E v
  end.

Definition text_of (E : Env) (v : JSON) : string :=
  match v with
  | JNull => "null"
  | JBool b => if b then "true" else "false"
  | JNum n => number_to_string E n
  | JStr s => s
  | _ => object_to_string E v
  end.

(** [Number(v)] and [String(v)]; [String(v).padStart(...)], a template
    literal [`${v}`] and [escapeHtml(v)] fail as [String(v)] does. *)
Definition Number (E : Env) (v : JSON) : Outcome jsnum :=
  if unconvertible v then Throw (TypeError (type_error_message E))
  else Return (number_of E v).

Definition String_of (E : Env) (v : JSON) : Outcome string :=
  if unconvertible v then Throw (TypeError (type_error_message E))
  else Return (text_of E v).

(** ** The state and exception monad *)

Definition Js (A : Type) : Type := World -> Outcome A * World.

Definition ret {A} (a : A) : Js A := fun w => (Return a, w).
Definition throw {A} (e : JsError) : Js A := fun w => (Throw e, w).
Definition bind {A B} (c : Js A) (k : A -> Js B) : Js B :=
  fun w =>
    match c w with
    | (Return a, w') => k a w'
    | (Throw e, w') => (Throw e, w')
    end.
Definition try_catch {A} (c : Js A) (h : JsError -> Js A) : Js A :=
  fun w =>
    match c w with
    | (Return a, w') => (Return a, w')
    | (Throw e, w') => h e w'
    end.
(** [await p] for an already settled outcome. *)
Definition await {A} (o : Outcome A) : Js A := fun w => (o, w).

Declare Scope js_scope.
Delimit Scope js_scope with js.
Notation "'let*' x ':=' c 'in' k" := (bind c (fun x => k))
  (at level 10, x name, c at level 100, k at level 200) : js_scope.
Notation "c ';;' k" := (bind c (fun _ => k))
  (at level 100, k at level 200, right associativity) : js_scope.
Local Open Scope js_scope.

Definition log (e : Event) : Js unit :=
  fun w => (Return tt,
    {| localStorage := localStorage w; location_href := location_href w;
       dom := dom w; round := round w; drawDate := drawDate w;
       trace := trace w ++ [e] |}).

Definition modify_storage (f : gmap string string -> gmap string string) : Js unit :=
  fun w => (Return tt,
    {| localStorage := f (localStorage w); location_href := location_href w;
       dom := dom w; round := round w; drawDate := drawDate w;
       trace := trace w |}).

Definition modify_dom (f : Dom -> Dom) : Js unit :=
  fun w => (Return tt,
    {| localStorage := localStorage w; location_href := location_href w;
       dom := f (dom w); round := round w; drawDate := drawDate w;
       trace := trace w |}).

Definition get_world : Js World := fun w => (Return w, w).

(** [localStorage.getItem / setItem / removeItem] *)
Definition getItem (k : string) : Js (option string) :=
  fun w => (Return (localStorage w !! k), w).
Definition setItem (k v : string) : Js unit :=
  log (EvSetItem k v) ;; modify_storage (fun s => <[k := v]> s).
Definition removeItem (k : string) : Js unit :=
  log (EvRemoveItem k) ;; modify_storage (fun s => delete k s).

(** [window.location.href = target] *)
Definition navigate (target : string) : Js unit :=
  log (EvNavigate target) ;;
  fun w => (Return tt,
    {| localStorage := localStorage w; location_href := target;
       dom := dom w; round := round w; drawDate := drawDate w;
       trace := trace w |}).

(** [await fetch(url, init)] *)
Definition do_fetch (E : Env) (u : Url) (init : RequestInit) : Js Response :=
  log (EvFetch u init) ;; await (fetch E u init).

(* ================================================================== *)
(** * 5. auth.js: the session manager *)
(* ================================================================== *)

Module LotoAuth.

Definition getToken : Js (option string) := getItem "access_token".
Definition setToken (token : string) : Js unit := setItem "access_token" token.
Definition removeToken : Js unit := removeItem "access_token".
Definition setUser (E : Env) (user : JSON) : Js unit :=
  setItem "user" (JSON_stringify E user).
Definition removeUser : Js unit := removeItem "user".

(** Truthiness of a string that may be [null] or [undefined]. *)
Definition str_truthy (s : option string) : bool :=
  match s with
  | Some s => negb (String.eqb s "")
  | None => false
  end.

(** [options.body && typeof options.body === "string"] *)
Definition string_body (b : option Body) : bool :=
  match b with
  | Some (BodyString s) => negb (String.eqb s "")
  | _ => false
  end.

(** The [headers] object built by lines 48-55 of auth.js. *)
Definition decorate (token : option string) (options : RequestInit) :
    gmap string string :=
  let headers0 := match headers options with Some h => h | None => ∅ end in
  let headers1 :=
    if str_truthy token
    then <["Authorization" := "Bearer " +:+ default "null" token]> headers0
    else headers0 in
  if negb (str_truthy (headers1 !! "Content-Type")) && string_body (body options)
  then <["Content-Type" := "application/json"]> headers1
  else headers1.

(** [{ ...options, headers }] *)
Definition outgoing (token : option string) (options : RequestInit) : RequestInit :=
  {| method := method options;
     headers := Some (decorate token options);
     body := body options |}.

Definition fetchWithAuth (E : Env) (url : Url) (options : RequestInit) :
    Js Response :=
  let* token := getToken in
  let* res := do_fetch E url (outgoing token options) in
  if status res =? 401 then
    removeToken ;;
    removeUser ;;
    navigate "login.html" ;;
    throw (Error "Unauthorized")
  else ret res.

Definition me_url (E : Env) : Url :=
  {| url_path := ENGINE_BASE E +:+ "/auth/me"; url_params := [] |}.

Definition requirePremium (E : Env) : Js bool :=
  let* token := getToken in
  if negb (str_truthy token) then
    navigate "login.html" ;;
    ret false
  else
    try_catch
      (let* token' := getToken in
       let* res := do_fetch E (me_url E)
                     {| method := None;
                        headers := Some {[ "Authorization" :=
                                             "Bearer " +:+ default "null" token' ]};
                        body := None |} in
       if status res =? 401 then
         removeToken ;;
         removeUser ;;
         navigate "login.html" ;;
         ret false
       else if negb (ok res) then
         navigate "login.html" ;;
         ret false
       else
         let* user := await (json res) in
         setUser E user ;;
         match user with
         | JNull => throw (TypeError (type_error_message E))
         | _ =>
             if negb (truthy_opt (get_prop user "is_premium")) then
               navigate "login.html?status=unpaid" ;;
               ret false
             else ret true
         end)
      (fun _ =>
         navigate "login.html" ;;
         ret false).

Definition logout : Js unit :=
  removeToken ;;
  removeUser ;;
  navigate "login.html".

End LotoAuth.

(* ================================================================== *)
(** * 6. What the two logic pages share *)
(* ================================================================== *)

Definition set_button (disabled : bool) (text : string) (d : Dom) : Dom :=
  {| issueButton_disabled := disabled;
     issueButton_textContent := text;
     predictionState_hidden := predictionState_hidden d;
     predictionStateText_textContent := predictionStateText_textContent d;
     predictionCards_hidden := predictionCards_hidden d;
     predictionCards_innerHTML := predictionCards_innerHTML d;
     round_textContent := round_textContent d;
     drawDate_textContent := drawDate_textContent d |}.

Definition set_button_text (text : string) (d : Dom) : Dom :=
  set_button (issueButton_disabled d) text d.

Definition set_state_hidden (h : bool) (d : Dom) : Dom :=
  {| issueButton_disabled := issueButton_disabled d;
     issueButton_textContent := issueButton_textContent d;
     predictionState_hidden := h;
     predictionStateText_textContent := predictionStateText_textContent d;
     predictionCards_hidden := predictionCards_hidden d;
     predictionCards_innerHTML := predictionCards_innerHTML d;
     round_textContent := round_textContent d;
     drawDate_textContent := drawDate_textContent d |}.

Definition set_state_text (t : string) (d : Dom) : Dom :=
  {| issueButton_disabled := issueButton_disabled d;
     issueButton_textContent := issueButton_textContent d;
     predictionState_hidden := predictionState_hidden d;
     predictionStateText_textContent := t;
     predictionCards_hidden := predictionCards_hidden d;
     predictionCards_innerHTML := predictionCards_innerHTML d;
     round_textContent := round_textContent d;
     drawDate_textContent := drawDate_textContent d |}.

Definition set_cards_hidden (h : bool) (d : Dom) : Dom :=
  {| issueButton_disabled := issueButton_disabled d;
     issueButton_textContent := issueButton_textContent d;
     predictionState_hidden := predictionState_hidden d;
     predictionStateText_textContent := predictionStateText_textContent d;
     predictionCards_hidden := h;
     predictionCards_innerHTML := predictionCards_innerHTML d;
     round_textContent := round_textContent d;
     drawDate_textContent := drawDate_textContent d |}.

Definition set_cards_html (h : Html) (d : Dom) : Dom :=
  {| issueButton_disabled := issueButton_disabled d;
     issueButton_textContent := issueButton_textContent d;
     predictionState_hidden := predictionState_hidden d;
     predictionStateText_textContent := predictionStateText_textContent d;
     predictionCards_hidden := predictionCards_hidden d;
     predictionCards_innerHTML := h;
     round_textContent := round_textContent d;
     drawDate_textContent := drawDate_textContent d |}.

(** [if (el) el.textContent = t] for the optional elements round and
    drawDate. *)
Definition set_round_text (t : string) (d : Dom) : Dom :=
  {| issueButton_disabled := issueButton_disabled d;
     issueButton_textContent := issueButton_textContent d;
     predictionState_hidden := predictionState_hidden d;
     predictionStateText_textContent := predictionStateText_textContent d;
     predictionCards_hidden := predictionCards_hidden d;
     predictionCards_innerHTML := predictionCards_innerHTML d;
     round_textContent := match round_textContent d with
                          | Some _ => Some t
                          | None => None
                          end;
     drawDate_textContent := drawDate_textContent d |}.

Definition set_drawDate_text (t : string) (d : Dom) : Dom :=
  {| issueButton_disabled := issueButton_disabled d;
     issueButton_textContent := issueButton_textContent d;
     predictionState_hidden := predictionState_hidden d;
     predictionStateText_textContent := predictionStateText_textContent d;
     predictionCards_hidden := predictionCards_hidden d;
     predictionCards_innerHTML := predictionCards_innerHTML d;
     round_textContent := round_textContent d;
     drawDate_textContent := match drawDate_textContent d with
                             | Some _ => Some t
                             | None => None
                             end |}.

Definition set_round (n : jsnum) : Js unit :=
  fun w => (Return tt,
    {| localStorage := localStorage w; location_href := location_href w;
       dom := dom w; round := n; drawDate := drawDate w; trace := trace w |}).

Definition set_drawDate (s : string) : Js unit :=
  fun w => (Return tt,
    {| localStorage := localStorage w; location_href := location_href w;
       dom := dom w; round := round w; drawDate := s; trace := trace w |}).

(** The texts the pages display. *)
Definition TEXT_ISSUE : string := "予想番号を発行する".
Definition TEXT_ISSUING : string := "発行中…".
Definition TEXT_REISSUE : string := "予想番号を再発行する".
Definition TEXT_RETRY_LATER : string :=
  "取得に失敗しました。時間をおいて再度お試しください。".
Definition TEXT_DRAW_FAILED : string :=
  "開催情報の取得に失敗しました。バックエンドが起動しているか確認してください。".
Definition loading_message (count : Z) : string :=
  "予想番号生成中…（" +:+ pretty count +:+ "口）".

Definition PREMIUM_REQUIRED : string := "PREMIUM_REQUIRED".

Definition setButtonLoading (isLoading : bool) : Js unit :=
  modify_dom (set_button isLoading (if isLoading then TEXT_ISSUING else TEXT_ISSUE)).

Definition showLoading (msg : string) : Js unit :=
  modify_dom (set_cards_html HtmlEmpty) ;;
  modify_dom (set_cards_hidden true) ;;
  modify_dom (set_state_hidden false) ;;
  modify_dom (set_state_text msg) ;;
  setButtonLoading true.

Definition showError (msg : string) : Js unit :=
  modify_dom (set_state_hidden true) ;;
  modify_dom (set_cards_hidden false) ;;
  modify_dom (set_cards_html (HtmlErrorCard msg)) ;;
  setButtonLoading false.

Definition showPremiumWall : Js unit :=
  modify_dom (set_state_hidden true) ;;
  modify_dom (set_cards_hidden false) ;;
  modify_dom (set_cards_html HtmlPremiumWall) ;;
  setButtonLoading false.

(** The [catch] clause of the three click handlers:
<<
    if (e.message === "PREMIUM_REQUIRED") { showPremiumWall(); }
    else { showError("..."); }
>>  *)
Definition is_premium_required (e : JsError) : bool :=
  String.eqb (message e) PREMIUM_REQUIRED.

Definition on_failure (e : JsError) : Js unit :=
  if is_premium_required e then showPremiumWall else showError TEXT_RETRY_LATER.

(** [clampInt(Number(issueSelect.value || 1), 1, 100)]; the argument of
    [Number] is a string or the number 1, and its conversion returns. *)
Definition requested_count (E : Env) (value : string) : Z :=
  clampInt (number_of E (js_or (Some (JStr value)) (JNum (Fin 1)))) 1 100.

(** ** The conversions inside a card of the logic pages

    The markup of a card converts values of the payload to text, and
    each conversion can raise a TypeError:
    - the balls, [nums.map((n) => ... String(n).padStart(2, "0") ...)]:
      [nums] must have the method [map], which of the decoded values only
      an array has, and every member is converted;
    - the head, [escapeHtml(j?.draw?.draw_date || "")] and, when
      [j?.draw?.round] is truthy, [escapeHtml(String(j.draw.round))];
    - the line of the fixed numbers, [String(n)] for every member of the
      set. *)
Definition convertible (v : JSON) : bool := negb (unconvertible v).

Definition balls_render (nums : JSON) : bool :=
  match nums with
  | JArr l => forallb convertible l
  | _ => false
  end.

Definition head_renders (j : JSON) : bool :=
  let draw := get_prop j "draw" in
  convertible (js_or (get_opt draw "draw_date") (JStr "")) &&
  match get_opt draw "round" with
  | Some r => if truthy r then convertible r else true
  | None => true
  end.

(** [v.k] where [v] may be null: the engine raises a TypeError. *)
Definition prop_strict (E : Env) (v : JSON) (k : string) : Js (option JSON) :=
  match v with
  | JNull => throw (TypeError (type_error_message E))
  | _ => ret (get_prop v k)
  end.

(** [a ?? b] *)
Definition nullish_or (a : option JSON) (b : JSON) : JSON :=
  match a with
  | None => b
  | Some JNull => b
  | Some v => v
  end.

Definition GET : RequestInit :=
  {| method := Some "GET"; headers := None; body := None |}.

(** The tail of [fetchPredictionsFromEngine] on the logic pages, after
    [const data = await res.json()]:
<<
    if (Array.isArray(data?.predictions)) return data.predictions;
    if (data?.prediction?.numbers) { return data; }
    throw new Error("Invalid response shape");
>>  *)
Definition normalize_logic (data : JSON) : Outcome JSON :=
  match get_prop data "predictions" with
  | Some (JArr l) => Return (JArr l)
  | _ =>
      if truthy_opt (get_opt (get_prop data "prediction") "numbers")
      then Return data
      else Throw (Error "Invalid response shape")
  end.

(** [fetchPredictionsFromEngine(count)] of loto6-logic.js and of the loto7
    logic page; the two differ in the constant [LOTO_TYPE] only. *)
Definition prediction_url (E : Env) (loto_type : string) (round : jsnum)
    (drawDate : string) (count : Z) : Url :=
  let u0 := {| url_path := ENGINE_BASE E +:+ "/engine/prediction"; url_params := [] |} in
  let u1 := searchParams_set "user_id" "user001" u0 in
  let u2 := searchParams_set "loto_type" loto_type u1 in
  let u3 := searchParams_set "model" "logic" u2 in
  let u4 := if num_truthy round
            then searchParams_set "round" (number_to_string E round) u3
            else u3 in
  let u5 := if negb (String.eqb drawDate "")
            then searchParams_set "draw_date" drawDate u4
            else u4 in
  searchParams_set "count" (pretty count) u5.

Definition fetchPredictionsFromEngine (E : Env) (loto_type : string) (count : Z) :
    Js JSON :=
  let* w := get_world in
  let* res := LotoAuth.fetchWithAuth E
                (prediction_url E loto_type (round w) (drawDate w) count) GET in
  if status res =? 403 then throw (Error PREMIUM_REQUIRED)
  else if negb (ok res) then throw (Error ("Engine error: " +:+ pretty (status res)))
  else
    let* data := await (json res) in
    await (normalize_logic data).

Definition draw_url (E : Env) (loto_type : string) : Url :=
  searchParams_set "loto_type" loto_type
    {| url_path := ENGINE_BASE E +:+ "/draw/latest"; url_params := [] |}.

(** Whether an event is a request to the prediction endpoint. *)
Definition is_prediction_request (E : Env) (e : Event) : bool :=
  match e with
  | EvFetch u _ => String.eqb (url_path u) (ENGINE_BASE E +:+ "/engine/prediction")
  | _ => false
  end.

(* ================================================================== *)
(** * 7. loto6-logic.js *)
(* ================================================================== *)

Module Loto6Logic.

Definition LOTO_TYPE : string := "loto6".

(** [fetchLatestDraw()], lines 185-195:
<<
  const res = await fetch(url.toString(), { method: "GET" });
  const data = await res.json();
  if (roundEl) roundEl.textContent = String(data.round ?? "-");
  if (drawDateEl) drawDateEl.textContent = String(data.draw_date ?? "-");
  return data;
>>  *)
Definition fetchLatestDraw (E : Env) : Js JSON :=
  let* res := do_fetch E (draw_url E LOTO_TYPE) GET in
  let* data := await (json res) in
  let* w := get_world in
  (match round_textContent (dom w) with
   | Some _ =>
       let* r := prop_strict E data "round" in
       let* text := await (String_of E (nullish_or r (JStr "-"))) in
       modify_dom (set_round_text text)
   | None => ret tt
   end) ;;
  (match drawDate_textContent (dom w) with
   | Some _ =>
       let* d := prop_strict E data "draw_date" in
       let* text := await (String_of E (nullish_or d (JStr "-"))) in
       modify_dom (set_drawDate_text text)
   | None => ret tt
   end) ;;
  ret data.

Definition fetchPredictionsFromEngine (E : Env) (count : Z) : Js JSON :=
  fetchPredictionsFromEngine E LOTO_TYPE count.

(** [fixedNums] of [showPredictions(data)]:
<<
  new Set(Array.isArray(pred.fixed_numbers) ? pred.fixed_numbers : [])
>>  *)
Definition fixedNums (data : JSON) : list JSON :=
  array_or_empty
    (get_prop (js_or (get_prop data "prediction") (JObj ∅)) "fixed_numbers").

(** Whether the body of the loop of [showPredictions(data)] builds the
    card of the ticket [nums] without a TypeError. *)
Definition card_renders (data : JSON) (nums : JSON) : bool :=
  balls_render nums && head_renders data && forallb convertible (fixedNums data).

(** The cards appended by the loop of [showPredictions(data)]: one per
    entry of [prediction.tickets]; the loop stops with a TypeError at the
    first card that cannot be built, the cards before it staying in the
    page. *)
Fixpoint append_cards (E : Env) (data : JSON) (shown todo : list JSON) : Js unit :=
  match todo with
  | [] => ret tt
  | nums :: rest =>
      if card_renders data nums then
        modify_dom (set_cards_html (HtmlTicketCards data (shown ++ [nums]))) ;;
        append_cards E data (shown ++ [nums]) rest
      else throw (TypeError (type_error_message E))
  end.

Definition showPredictions (E : Env) (data : JSON) : Js unit :=
  let pred := js_or (get_prop data "prediction") (JObj ∅) in
  let tickets := array_or_empty (get_prop pred "tickets") in
  modify_dom (set_cards_html HtmlEmpty) ;;
  append_cards E data [] tickets.

(** The click handler of [issueButton], lines 143-170; [value] is
    [issueSelect.value]. [USE_MOCK] is the constant [false], so the
    predictions always come from [fetchPredictionsFromEngine]. *)
Definition on_click (E : Env) (value : string) : Js unit :=
  let count := requested_count E value in
  try_catch
    (showLoading (loading_message count) ;;
     let* latest := fetchLatestDraw E in
     let* r := prop_strict E latest "round" in
     let* round' := await (Number E (js_or r (JNum (Fin 0)))) in
     set_round round' ;;
     let* d := prop_strict E latest "draw_date" in
     let* drawDate' := await (String_of E (js_or d (JStr ""))) in
     set_drawDate drawDate' ;;
     let* predictions := fetchPredictionsFromEngine E count in
     showPredictions E predictions ;;
     setButtonLoading false ;;
     modify_dom (set_state_hidden true) ;;
     modify_dom (set_cards_hidden false))
    on_failure.

End Loto6Logic.

(* ================================================================== *)
(** * 8. The loto7 logic page *)
(* ================================================================== *)

Module Loto7Logic.

Definition LOTO_TYPE : string := "loto7".

(** [fetchLatestDraw()], lines 57-74:
<<
  const res = await fetch(url.toString(), { method: "GET" });
  if (!res.ok) throw new Error(`draw/latest error: ${res.status}`);
  const d = await res.json();
  round = Number(d.round || 0);
  drawDate = String(d.draw_date || "");
  if (roundEl) roundEl.textContent = String(round || "-");
  if (drawEl) drawEl.textContent = drawDate || "-";
>>  *)
Definition fetchLatestDraw (E : Env) : Js unit :=
  let* res := do_fetch E (draw_url E LOTO_TYPE) GET in
  if negb (ok res) then
    throw (Error ("draw/latest error: " +:+ pretty (status res)))
  else
    let* d := await (json res) in
    let* r := prop_strict E d "round" in
    let* round' := await (Number E (js_or r (JNum (Fin 0)))) in
    set_round round' ;;
    let* dd := prop_strict E d "draw_date" in
    let* drawDate' := await (String_of E (js_or dd (JStr ""))) in
    set_drawDate drawDate' ;;
    modify_dom (set_round_text
                  (if num_truthy round' then number_to_string E round' else "-")) ;;
    modify_dom (set_drawDate_text
                  (if negb (String.eqb drawDate' "") then drawDate' else "-")).

(** The page-load sequence:
<<
  fetchLatestDraw().catch((e) => { console.error(e); showError("..."); });
>>  *)
Definition on_load (E : Env) : Js unit :=
  try_catch (fetchLatestDraw E) (fun _ => showError TEXT_DRAW_FAILED).

Definition fetchPredictionsFromEngine (E : Env) (count : Z) : Js JSON :=
  fetchPredictionsFromEngine E LOTO_TYPE count.

(** The variable [list] of [showPredictions(payload, count)], lines
    118-141. *)
Definition exploded (json pred : JSON) (fixed : list JSON) (nums : JSON) : JSON :=
  JObj (<["prediction" :=
            JObj (<["fixed_numbers" := JArr fixed]>
                    (<["numbers" := nums]> (spread pred)))]>
          (spread json)).

Definition showPredictions_list (payload : JSON) (count : Z) : list JSON :=
  match payload with
  | JArr l => l
  | _ =>
      let json := js_or (Some payload) (JObj ∅) in
      let pred := js_or (get_prop json "prediction") (JObj ∅) in
      let tickets := array_or_empty (get_prop pred "tickets") in
      let fixed := array_or_empty (get_prop pred "fixed_numbers") in
      let baseTickets :=
        if (length tickets =? 0)%nat
        then [js_or (get_prop pred "numbers") (JArr [])]
        else tickets in
      let slice := slice0 baseTickets count in
      map (exploded json pred fixed) slice
  end.

(** [renderPredictionCard(json, index)]:
<<
    const numbers = json?.prediction?.numbers || [];
    const fixedNums = new Set(json?.prediction?.fixed_numbers || []);
>>
    [new Set(...)] raises a TypeError on a value that is not iterable;
    of the decoded values an array and a string are. The members of the
    set are the elements of the array, or the characters of the string,
    which are strings. The card then converts the members of [numbers],
    the draw fields and the members of the set. *)
Definition iterable (v : JSON) : bool :=
  match v with
  | JArr _ => true
  | JStr _ => true
  | _ => false
  end.

Definition members_convert (fixed : JSON) : bool :=
  match fixed with
  | JArr l => forallb convertible l
  | _ => true
  end.

Definition renderable (record : JSON) : bool :=
  let p := get_prop record "prediction" in
  let numbers := js_or (get_opt p "numbers") (JArr []) in
  let fixed := js_or (get_opt p "fixed_numbers") (JArr []) in
  iterable fixed && balls_render numbers && head_renders record &&
  members_convert fixed.

Definition render_cards (records : list JSON) : Html :=
  match records with
  | [] => HtmlEmpty
  | _ => HtmlRecordCards records
  end.

Definition showPredictions (E : Env) (payload : JSON) (count : Z) : Js unit :=
  modify_dom (set_state_hidden true) ;;
  modify_dom (set_cards_hidden false) ;;
  let list := showPredictions_list payload count in
  (if forallb renderable list
   then modify_dom (set_cards_html (render_cards list))
   else throw (TypeError (type_error_message E))) ;;
  setButtonLoading false ;;
  modify_dom (set_button_text TEXT_REISSUE).

(** The click handler of [issueButton], lines 151-170. *)
Definition on_click (E : Env) (value : string) : Js unit :=
  let count := requested_count E value in
  try_catch
    (showLoading (loading_message count) ;;
     let* predictions := fetchPredictionsFromEngine E count in
     showPredictions E predictions count)
    on_failure.

End Loto7Logic.

(* ================================================================== *)
(** * 9. loto7-fortune.js *)
(* ================================================================== *)

Module Loto7Fortune.

Definition LOTO_TYPE : string := "loto7".
Definition MODEL : string := "fortune".

(** The check of [fetchFortuneOnce] on the decoded payload:
<<
  if (!Array.isArray(data?.prediction?.tickets)) {
    throw new Error("Invalid response: prediction.tickets is missing");
  }
  return data;
>>  *)
Definition normalize_fortune (data : JSON) : Outcome JSON :=
  if isArray (get_opt (get_prop data "prediction") "tickets")
  then Return data
  else Throw (Error "Invalid response: prediction.tickets is missing").

(** [fetchFortuneOnce({ birthDateStr, count, round, drawDate })];
    [drawDate] is [document.body.dataset.drawDate], a string or
    [undefined]. *)
Definition fortune_url (E : Env) (birthDateStr : string) (count : Z)
    (round : jsnum) (drawDate : option string) : Url :=
  let u0 := {| url_path := ENGINE_BASE E +:+ "/engine/prediction"; url_params := [] |} in
  let u1 := searchParams_set "user_id" "user001" u0 in
  let u2 := searchParams_set "loto_type" LOTO_TYPE u1 in
  let u3 := searchParams_set "model" MODEL u2 in
  let u4 := searchParams_set "birthdate" birthDateStr u3 in
  let u5 := searchParams_set "count" (pretty count) u4 in
  let u6 := searchParams_set "round" (number_to_string E round) u5 in
  searchParams_set "draw_date" (default "undefined" drawDate) u6.

Definition fetchFortuneOnce (E : Env) (birthDateStr : string) (count : Z)
    (round : jsnum) (drawDate : option string) : Js JSON :=
  let* res := LotoAuth.fetchWithAuth E
                (fortune_url E birthDateStr count round drawDate) GET in
  if status res =? 403 then throw (Error PREMIUM_REQUIRED)
  else if negb (ok res) then throw (Error ("Engine error: " +:+ pretty (status res)))
  else
    let* data := await (json res) in
    await (normalize_fortune data).

End Loto7Fortune.

(* ================================================================== *)
(** * 10. Observations used in the statements *)
(* ================================================================== *)

Definition result {A} (c : Js A) (w : World) : Outcome A := fst (c w).
Definition final {A} (c : Js A) (w : World) : World := snd (c w).

(** The events a computation appends to the trace. *)
Definition emitted {A} (c : Js A) (w : World) : list Event :=
  drop (length (trace w)) (trace (final c w)).

Definition is_storage_write (e : Event) : bool :=
  match e with
  | EvRemoveItem _ => true
  | EvSetItem _ _ => true
  | _ => false
  end.

Definition is_navigation (e : Event) : bool :=
  match e with
  | EvNavigate _ => true
  | _ => false
  end.

(** The headers the caller of [fetchWithAuth] supplied. *)
Definition supplied (options : RequestInit) (k : string) : option string :=
  match headers options with
  | Some h => h !! k
  | None => None
  end.

(** The three clauses of the request-decoration claim, as the
    specification words them: a bearer header exactly when a token is
    persisted; a JSON content type whenever there is a body and the caller
    gave no content type; every header of the caller kept as it was. *)
Definition bearer_iff_token (token : option string) (options : RequestInit) : Prop :=
  (exists t, token = Some t /\
             LotoAuth.decorate token options !! "Authorization" = Some ("Bearer " +:+ t))
  <-> is_Some token.

Definition content_type_whenever_body (token : option string)
    (options : RequestInit) : Prop :=
  is_Some (body options) -> supplied options "Content-Type" = None ->
  LotoAuth.decorate token options !! "Content-Type" = Some "application/json".

Definition caller_headers_preserved (token : option string)
    (options : RequestInit) : Prop :=
  forall k v, supplied options k = Some v ->
              LotoAuth.decorate token options !! k = Some v.

(** The request [requirePremium] sends for a token. *)
Definition me_request (tok : string) : RequestInit :=
  {| method := None;
     headers := Some {[ "Authorization" := "Bearer " +:+ tok ]};
     body := None |}.

(** A confirmed premium profile: a non-empty token is stored, the profile
    endpoint answers with an OK status and a decodable profile, and the
    [is_premium] field of the profile is truthy (for a boolean flag: is
    [true]). *)
Definition confirmed_premium (E : Env) (w : World) : Prop :=
  exists tok res user,
    localStorage w !! "access_token" = Some tok /\ tok <> "" /\
    fetch E (LotoAuth.me_url E) (me_request tok) = Return res /\
    ok res = true /\
    json res = Return user /\
    truthy_opt (get_prop user "is_premium") = true.

(** An environment with the given network and inert conversions, and an
    empty browser state, to run the model on. *)
Definition env_with (net : Url -> RequestInit -> Outcome Response) : Env :=
  {| fetch := net;
     ENGINE_BASE := "";
     string_to_number := fun _ => NaN;
     object_to_number := fun _ => NaN;
     number_to_string := fun _ => "0";
     object_to_string := fun _ => "[object Object]";
     JSON_stringify := fun _ => "{}";
     type_error_message := "TypeError" |}.

Definition blank_dom : Dom :=
  {| issueButton_disabled := false;
     issueButton_textContent := TEXT_ISSUE;
     predictionState_hidden := true;
     predictionStateText_textContent := "";
     predictionCards_hidden := true;
     predictionCards_innerHTML := HtmlEmpty;
     round_textContent := Some "-";
     drawDate_textContent := Some "-" |}.

Definition world_with (storage : gmap string string) : World :=
  {| localStorage := storage;
     location_href := "loto6-logic.html";
     dom := blank_dom;
     round := Fin 0;
     drawDate := "";
     trace := [] |}.

Definition respond (code : Z) (payload : JSON) : Outcome Response :=
  Return {| status := code; json := Return payload |}.

(** The three displays a click ends in. *)
Definition paywall_shown (w : World) : Prop :=
  predictionCards_innerHTML (dom w) = HtmlPremiumWall /\
  predictionCards_hidden (dom w) = false /\
  predictionState_hidden (dom w) = true /\
  issueButton_disabled (dom w) = false /\
  issueButton_textContent (dom w) = TEXT_ISSUE.

Definition error_shown (msg : string) (w : World) : Prop :=
  predictionCards_innerHTML (dom w) = HtmlErrorCard msg /\
  predictionCards_hidden (dom w) = false /\
  predictionState_hidden (dom w) = true /\
  issueButton_disabled (dom w) = false /\
  issueButton_textContent (dom w) = TEXT_ISSUE.

(** A draw whose [round] and [draw_date], if it has any, convert to a
    number and to a text. *)
Definition draw_converts (latest : JSON) : Prop :=
  unconvertible (js_or (get_prop latest "round") (JNum (Fin 0))) = false /\
  unconvertible (js_or (get_prop latest "draw_date") (JStr "")) = false.

(** The three fields by which the specification recognises a payload. *)
Definition has_predictions_array (data : JSON) : Prop :=
  isArray (get_prop data "predictions") = true.
Definition has_prediction_numbers (data : JSON) : Prop :=
  is_Some (get_opt (get_prop data "prediction") "numbers").
Definition has_prediction_tickets (data : JSON) : Prop :=
  is_Some (get_opt (get_prop data "prediction") "tickets").

Definition accepted (o : Outcome JSON) : Prop :=
  match o with
  | Return _ => True
  | Throw _ => False
  end.

(** Snapping to the nearest bound, as the specification words it: a
    value below the interval goes to its lower end, a value above it to
    its upper end. *)
Definition snaps_to_nearest_bound (n : jsnum) (lo hi c : Z) : Prop :=
  (num_lt n lo -> c = lo) /\ (num_gt n hi -> c = hi).

(** A payload is recognised, in the words of the specification, when it
    exhibits at least one of the three fields. *)
Definition recognised (data : JSON) : Prop :=
  has_predictions_array data \/ has_prediction_numbers data \/
  has_prediction_tickets data.

Definition ticket_of (l : list Z) : JSON := JArr (map (fun z => JNum (num_of_Z z)) l).

(** [{ "prediction": { "tickets": [[1,2,3]] } }] *)
Definition tickets_only : JSON :=
  JObj {[ "prediction" := JObj {[ "tickets" := JArr [ticket_of [1; 2; 3]] ]} ]}.

(** [{ "prediction": { "numbers": [1,2,3] } }] *)
Definition numbers_only : JSON :=
  JObj {[ "prediction" := JObj {[ "numbers" := ticket_of [1; 2; 3] ]} ]}.

(** [{ "prediction": { "tickets": [[1,2,3],[4,5,6]], "fixed_numbers": [1] },
       "meta": { "model": "logic" } }] *)
Definition two_tickets : gmap string JSON :=
  {[ "prediction" :=
       JObj {[ "tickets" := JArr [ticket_of [1; 2; 3]; ticket_of [4; 5; 6]];
               "fixed_numbers" := ticket_of [1] ]};
     "meta" := JObj {[ "model" := JStr "logic" ]} ]}.

(** [{ "prediction": { "numbers": [1,2,3], "tickets": [[1,2,3]] } }] *)
Definition no_fixed : gmap string JSON :=
  {[ "prediction" :=
       JObj {[ "numbers" := ticket_of [1; 2; 3];
               "tickets" := JArr [ticket_of [1; 2; 3]] ]} ]}.

(** The ticket invariant of the data model. *)
Definition in_range (min max : Z) (x : Z) : Prop := min <= x <= max.

Definition valid_ticket (c : GenConfig) (ticket : list Z) : Prop :=
  Z.of_nat (length ticket) = cfg_total c /\
  NoDup ticket /\
  Forall (in_range (cfg_min c) (cfg_max c)) ticket /\
  StronglySorted Z.lt ticket /\
  (forall x, x ∈ default [] (cfg_fixedNumbers c) -> x ∈ ticket).

(** The invariant of the loop of the generator. *)
Definition loop_inv (min max total : Z) (fixed set : list Z) : Prop :=
  NoDup set /\ Forall (in_range min max) set /\
  Z.of_nat (length set) <= total /\ (forall x, x ∈ fixed -> x ∈ set).

(** A run of [Math.random()] that walks through the 43 values of loto6:
    the [i]-th double is the multiple of [1/1024] just above
    [(i mod 43) / 43]; and the configuration of [mockFetchPredictions] in
    loto6-logic.js. *)
Definition round_robin (i : nat) : Q :=
  (Z.of_nat (i mod 43) * 1024 / 43 + 1) # 1024.

(** A run of [Math.random()] that only ever returns 0. *)
Definition stuck : nat -> Q := fun _ => 0%Q.

Definition loto6_config : GenConfig :=
  {| cfg_min := 1; cfg_max := 43; cfg_total := 6;
     cfg_fixedNumbers := Some [11; 22] |}.

(** [{ min: 2**53, max: 2**53 + 2, total: 3 }]: the two bounds are
    doubles, the integer between them is not. *)
Definition wide_config : GenConfig :=
  {| cfg_min := 2 ^ 53; cfg_max := 2 ^ 53 + 2; cfg_total := 3;
     cfg_fixedNumbers := None |}.

(** Networks to run the model on: one answer for every request, and a
    draw endpoint that fails with a JSON error body while the prediction
    endpoint works. *)
Definition always (code : Z) (payload : JSON) : Url -> RequestInit -> Outcome Response :=
  fun _ _ => respond code payload.

Definition error_body : gmap string JSON :=
  {[ "detail" := JStr "Not Found" ]}.

Definition draw_down : Url -> RequestInit -> Outcome Response :=
  fun u _ =>
    if String.eqb (url_path u) "/draw/latest"
    then respond 404 (JObj error_body)
    else respond 200 numbers_only.

Definition premium_profile : JSON := JObj {[ "is_premium" := JBool true ]}.

Definition logged_in : World :=
  world_with {[ "access_token" := "tok"; "user" := "{}" ]}.

(** The configurations of the claim on the generator, with bounds small
    enough for the sums of [randInt] to be exact. *)
Definition valid_config (c : GenConfig) : Prop :=
  let fixed := default [] (cfg_fixedNumbers c) in
  NoDup fixed /\
  Forall (in_range (cfg_min c) (cfg_max c)) fixed /\
  Z.of_nat (length fixed) <= cfg_total c /\
  cfg_total c <= cfg_max c - cfg_min c + 1 /\
  - 2 ^ 51 <= cfg_min c /\
  cfg_max c <= 2 ^ 51.

(* ================================================================== *)
(** * 10a. Further functions of the pages, and further observations *)
(* ================================================================== *)

Definition is_fetch (e : Event) : bool :=
  match e with
  | EvFetch _ _ => true
  | _ => false
  end.

(** Two worlds that differ in the page only: same storage, location,
    page variables and trace. *)
Definition page_only (w w' : World) : Prop :=
  localStorage w' = localStorage w /\
  location_href w' = location_href w /\
  round w' = round w /\
  drawDate w' = drawDate w /\
  trace w' = trace w.

(** The display every click ends in: cards visible, progress text hidden,
    button enabled. *)
Definition settled (w : World) : Prop :=
  issueButton_disabled (dom w) = false /\
  predictionState_hidden (dom w) = true /\
  predictionCards_hidden (dom w) = false.

(** The events of a 401 answer after the request itself. *)
Definition logout_events : list Event :=
  [EvRemoveItem "access_token"; EvRemoveItem "user"; EvNavigate "login.html"].

(** The tickets [showPredictions] of loto6-logic.js reads from its
    argument. *)
Definition loto6_tickets (payload : JSON) : list JSON :=
  array_or_empty (get_prop (js_or (get_prop payload "prediction") (JObj ∅)) "tickets").

(** ** auth.js: the cached profile

    [getUser()] and [isPremium()]; [parse] is [JSON.parse], which throws
    on a text that is not JSON and reads [null] (no stored entry) as the
    text ["null"]:
<<
    try { return JSON.parse(localStorage.getItem("user")); }
    catch { return null; }
>>
<<
    const user = getUser();
    return user && user.is_premium;
>>  *)
Definition getUser (parse : string -> Outcome JSON) : Js JSON :=
  let* item := getItem "user" in
  match parse (default "null" item) with
  | Return v => ret v
  | Throw _ => ret JNull
  end.

Definition isPremium (parse : string -> Outcome JSON) : Js (option JSON) :=
  let* user := getUser parse in
  if truthy user then ret (get_prop user "is_premium") else ret (Some user).

(** The events of one call of [requirePremium], path by path. *)
Definition requirePremium_events (E : Env) (w : World) : list Event :=
  match localStorage w !! "access_token" with
  | None => [EvNavigate "login.html"]
  | Some tok =>
      if String.eqb tok "" then [EvNavigate "login.html"]
      else
        EvFetch (LotoAuth.me_url E) (me_request tok) ::
        match fetch E (LotoAuth.me_url E) (me_request tok) with
        | Throw _ => [EvNavigate "login.html"]
        | Return res =>
            if status res =? 401 then logout_events
            else if negb (ok res) then [EvNavigate "login.html"]
            else
              match json res with
              | Throw _ => [EvNavigate "login.html"]
              | Return user =>
                  EvSetItem "user" (JSON_stringify E user) ::
                  match user with
                  | JNull => [EvNavigate "login.html"]
                  | _ =>
                      if truthy_opt (get_prop user "is_premium") then []
                      else [EvNavigate "login.html?status=unpaid"]
                  end
              end
        end
  end.

(** Whether the value a caller of [isPremium()] gets is truthy. *)
Definition entitled (o : Outcome (option JSON)) : bool :=
  match o with
  | Return v => truthy_opt v
  | Throw _ => false
  end.

(** A world without session: no token, a cached profile that reads as
    [null], a falsy [isPremium()], the login page as location. *)
Definition session_ended (parse : string -> Outcome JSON) (w : World) : Prop :=
  result LotoAuth.getToken w = Return None /\
  result (getUser parse) w = Return JNull /\
  entitled (result (isPremium parse) w) = false /\
  location_href w = "login.html".

(** ** [mockFetchPredictions(count)] of the two logic pages

    The two copies differ in the lottery type, the range, the ticket size
    and the fixed numbers. [now i] and [iso i] are the texts of
    [Date.now()] and of [new Date().toISOString()] in the [i]-th turn of
    the loop; the tickets are drawn one after the other from the same
    run of [Math.random()], the [i]-th one starting where the one before
    stopped. The wait of 700 ms has no other effect. *)
Definition loto7_config : GenConfig :=
  {| cfg_min := 1; cfg_max := 37; cfg_total := 7;
     cfg_fixedNumbers := Some [7; 17] |}.

Definition falsy_to (n : jsnum) (d : jsnum) : jsnum :=
  if num_truthy n then n else d.

Definition mock_record (loto_type : string) (fixed : list Z) (round : jsnum)
    (drawDate : string) (now iso : string) (i : nat) (nums : list Z) : JSON :=
  JObj {[
    "meta" := JObj {[
      "loto_type" := JStr loto_type;
      "model" := JStr "logic";
      "prediction_id" :=
        JStr ("mock_" +:+ loto_type +:+ "_logic_" +:+ now +:+ "_" +:+ pretty (S i));
      "engine_version" := JStr "engine-mock" ]};
    "draw" := JObj {[
      "round" := JNum (falsy_to round (Fin 0));
      "draw_date" := JStr drawDate;
      "weekday" := JStr "" ]};
    "prediction" := JObj {[
      "numbers" := ticket_of nums;
      "fixed_numbers" := ticket_of fixed;
      "number_source" := JObj {[ "fixed" := JStr "global_fixed_v1";
                                 "random" := JStr "uniform" ]} ]};
    "description" := JObj {[ "headline" := JStr ""; "main" := JStr "";
                             "one_word" := JStr "" ]};
    "system" := JObj {[
      "generated_at" := JStr iso;
      "regenerated" := JBool false;
      "data_source" := JStr "mock";
      "public" := JBool true ]}
  ]}.

Fixpoint mock_loop (rnd : nat -> Q) (fuel : nat) (loto_type : string)
    (c : GenConfig) (round : jsnum) (drawDate : string) (now iso : nat -> string)
    (todo i start : nat) : option (list JSON) :=
  match todo with
  | O => Some []
  | S todo' =>
      match generateUniqueNumbersWithFixed (fun k => rnd (start + k)%nat) fuel c with
      | None => None
      | Some (nums, draws) =>
          match mock_loop rnd fuel loto_type c round drawDate now iso
                  todo' (S i) (start + draws) with
          | None => None
          | Some rest =>
              Some (mock_record loto_type (default [] (cfg_fixedNumbers c))
                      round drawDate (now i) (iso i) i nums :: rest)
          end
      end
  end.

Definition mockFetchPredictions (rnd : nat -> Q) (fuel : nat) (loto_type : string)
    (c : GenConfig) (round : jsnum) (drawDate : string) (now iso : nat -> string)
    (count : Z) : option (list JSON) :=
  mock_loop rnd fuel loto_type c round drawDate now iso (Z.to_nat count) 0 0.

(** What the handlers and the cards read from a record. *)
Definition record_numbers (r : JSON) : option JSON :=
  get_opt (get_prop r "prediction") "numbers".

Definition mock_ticket (c : GenConfig) (r : JSON) : Prop :=
  exists nums,
    record_numbers r = Some (ticket_of nums) /\
    valid_ticket c nums /\
    get_opt (get_prop r "prediction") "fixed_numbers"
      = Some (ticket_of (default [] (cfg_fixedNumbers c))) /\
    get_opt (get_prop r "system") "data_source" = Some (JStr "mock") /\
    Loto7Logic.renderable r = true.

(** The configuration of the generator with other fixed numbers. *)
Definition with_fixed (c : GenConfig) (fixed : option (list Z)) : GenConfig :=
  {| cfg_min := cfg_min c; cfg_max := cfg_max c; cfg_total := cfg_total c;
     cfg_fixedNumbers := fixed |}.

(** ** [escapeHtml], identical on the three pages

    [s.replaceAll(c, r)] for a pattern of one character, and the five
    replacements in the order of the source: the ampersand first, then
    the two angle brackets, the double quote and the apostrophe, each by
    its entity. *)
Fixpoint replaceAll (c : Ascii.ascii) (r : string) (s : string) : string :=
  match s with
  | EmptyString => EmptyString
  | String a s' =>
      if Ascii.eqb a c then r +:+ replaceAll c r s' else String a (replaceAll c r s')
  end.

Definition AMP : Ascii.ascii := Ascii.ascii_of_nat 38.   (* the ampersand *)
Definition LT : Ascii.ascii := Ascii.ascii_of_nat 60.    (* less-than *)
Definition GT : Ascii.ascii := Ascii.ascii_of_nat 62.    (* greater-than *)
Definition QUOT : Ascii.ascii := Ascii.ascii_of_nat 34.  (* the double quote *)
Definition APOS : Ascii.ascii := Ascii.ascii_of_nat 39.  (* the apostrophe *)

Definition escapeHtml (s : string) : string :=
  replaceAll APOS "&#039;"
    (replaceAll QUOT "&quot;"
       (replaceAll GT "&gt;"
          (replaceAll LT "&lt;"
             (replaceAll AMP "&amp;" s)))).

(** What [escapeHtml] makes of one character. *)
Definition escape_char (a : Ascii.ascii) : string :=
  if Ascii.eqb a AMP then "&amp;"
  else if Ascii.eqb a LT then "&lt;"
  else if Ascii.eqb a GT then "&gt;"
  else if Ascii.eqb a QUOT then "&quot;"
  else if Ascii.eqb a APOS then "&#039;"
  else String a EmptyString.

Definition markup_char (a : Ascii.ascii) : bool :=
  Ascii.eqb a LT || Ascii.eqb a GT || Ascii.eqb a QUOT || Ascii.eqb a APOS.

Definition special_char (a : Ascii.ascii) : bool := Ascii.eqb a AMP || markup_char a.

Definition chars (s : string) : list Ascii.ascii := String.list_ascii_of_string s.

(** ** loto7-fortune.js: [dedupeLines] and the text of the fortune

    [trim] is [String.prototype.trim]. The set [seen] and the array
    [out] of the source are kept side by side:
<<
    for (const line of lines) {
      const key = String(line).trim();
      if (!key) continue;
      if (seen.has(key)) continue;
      seen.add(key);
      out.push(key);
    }
>>  *)
Fixpoint dedupe_loop (E : Env) (trim : string -> string) (lines : list JSON)
    (seen out : list string) : Outcome (list string) :=
  match lines with
  | [] => Return out
  | line :: rest =>
      match String_of E line with
      | Throw e => Throw e
      | Return text =>
          let key := trim text in
          if String.eqb key "" then dedupe_loop E trim rest seen out
          else if bool_decide (key ∈ seen) then dedupe_loop E trim rest seen out
          else dedupe_loop E trim rest (seen ++ [key]) (out ++ [key])
      end
  end.

Definition dedupeLines (E : Env) (trim : string -> string) (lines : list JSON) :
    Outcome (list string) :=
  dedupe_loop E trim lines [] [].

Definition NEWLINE : string := String (Ascii.ascii_of_nat 10) EmptyString.

Definition FORTUNE_FALLBACK : string :=
  "今日は穏やかな運気。焦らず丁寧にいきましょう。".

(** The text [renderFortune(json)] puts in the paragraph:
<<
    const d = json?.description || {};
    const lines = [d.stars, d.line1, d.line2].filter(Boolean);
    const text = dedupeLines(lines).join("\n");
    ... escapeHtml(text || "...")
>>  *)
Definition fortune_lines (json : JSON) : list JSON :=
  let d := js_or (get_prop json "description") (JObj ∅) in
  omap (fun v => match v with
                 | Some x => if truthy x then Some x else None
                 | None => None
                 end)
       [get_prop d "stars"; get_prop d "line1"; get_prop d "line2"].

Definition fortune_text (E : Env) (trim : string -> string) (json : JSON) :
    Outcome string :=
  match dedupeLines E trim (fortune_lines json) with
  | Throw e => Throw e
  | Return keys =>
      let text := String.concat NEWLINE keys in
      Return (escapeHtml (if String.eqb text "" then FORTUNE_FALLBACK else text))
  end.

(** The key [dedupeLines] computes for a line whose conversion returns. *)
Definition line_key (E : Env) (trim : string -> string) (line : JSON) : string :=
  trim (text_of E line).

(** ** loto7-fortune.js: the page and its click handler

    The page writes to its own nodes; its state is the browser state
    together with these nodes. *)
Inductive FortuneHtml : Type :=
  | FortuneEmpty
  | FortuneParagraph (escaped : string)
  | FortunePremiumWall.

Record FortuneDom : Type := {
  fortune_button_disabled : bool;
  fortune_button_textContent : string;
  fortuneState_hidden : bool;
  fortuneStateText_textContent : string;
  fortuneText_hidden : bool;
  fortuneText_innerHTML : FortuneHtml;
  fortune_cards : list JSON;     (* the tickets whose cards fill predictionCards *)
  fortuneCard_bg : option bool   (* [None]: no element with id fortuneCard *)
}.

Definition TEXT_BIRTHDATE : string := "生年月日をすべて選択してください。".
Definition TEXT_DIVINING : string := "占い中…".
Definition TEXT_AGAIN : string := "もう一度占う".
Definition divining_message (count : Z) : string :=
  "占い中…（" +:+ pretty count +:+ "口）".

(** [setButtonLoading(isLoading)]: the label changes only when loading. *)
Definition fortune_setButtonLoading (isLoading : bool) (d : FortuneDom) : FortuneDom :=
  {| fortune_button_disabled := isLoading;
     fortune_button_textContent :=
       if isLoading then TEXT_DIVINING else fortune_button_textContent d;
     fortuneState_hidden := fortuneState_hidden d;
     fortuneStateText_textContent := fortuneStateText_textContent d;
     fortuneText_hidden := fortuneText_hidden d;
     fortuneText_innerHTML := fortuneText_innerHTML d;
     fortune_cards := fortune_cards d;
     fortuneCard_bg := fortuneCard_bg d |}.

Definition fortune_set_button_text (t : string) (d : FortuneDom) : FortuneDom :=
  {| fortune_button_disabled := fortune_button_disabled d;
     fortune_button_textContent := t;
     fortuneState_hidden := fortuneState_hidden d;
     fortuneStateText_textContent := fortuneStateText_textContent d;
     fortuneText_hidden := fortuneText_hidden d;
     fortuneText_innerHTML := fortuneText_innerHTML d;
     fortune_cards := fortune_cards d;
     fortuneCard_bg := fortuneCard_bg d |}.

(** [showFortuneLoading(message)] and [showFortuneError(message)] have
    the same body. *)
Definition showFortuneMessage (msg : string) (d : FortuneDom) : FortuneDom :=
  {| fortune_button_disabled := fortune_button_disabled d;
     fortune_button_textContent := fortune_button_textContent d;
     fortuneState_hidden := false;
     fortuneStateText_textContent := msg;
     fortuneText_hidden := true;
     fortuneText_innerHTML := FortuneEmpty;
     fortune_cards := fortune_cards d;
     fortuneCard_bg := fortuneCard_bg d |}.

Definition showFortuneLoading := showFortuneMessage.
Definition showFortuneError := showFortuneMessage.

Definition fortune_show_text (h : FortuneHtml) (d : FortuneDom) : FortuneDom :=
  {| fortune_button_disabled := fortune_button_disabled d;
     fortune_button_textContent := fortune_button_textContent d;
     fortuneState_hidden := true;
     fortuneStateText_textContent := fortuneStateText_textContent d;
     fortuneText_hidden := false;
     fortuneText_innerHTML := h;
     fortune_cards := fortune_cards d;
     fortuneCard_bg := fortuneCard_bg d |}.

Definition fortune_showPremiumWall (d : FortuneDom) : FortuneDom :=
  fortune_setButtonLoading false (fortune_show_text FortunePremiumWall d).

Definition fortune_set_cards (tickets : list JSON) (d : FortuneDom) : FortuneDom :=
  {| fortune_button_disabled := fortune_button_disabled d;
     fortune_button_textContent := fortune_button_textContent d;
     fortuneState_hidden := fortuneState_hidden d;
     fortuneStateText_textContent := fortuneStateText_textContent d;
     fortuneText_hidden := fortuneText_hidden d;
     fortuneText_innerHTML := fortuneText_innerHTML d;
     fortune_cards := tickets;
     fortuneCard_bg := fortuneCard_bg d |}.

Definition clearPrediction (d : FortuneDom) : FortuneDom := fortune_set_cards [] d.

(** [renderFortune(json)]: the text is computed first, and a TypeError
    of [dedupeLines] leaves the page as it is; then the background class
    is added to the fortune card, if there is one, and the paragraph is
    written. *)
Definition renderFortune (E : Env) (trim : string -> string) (json : JSON)
    (d : FortuneDom) : Outcome FortuneDom :=
  let d1 :=
    {| fortune_button_disabled := fortune_button_disabled d;
       fortune_button_textContent := fortune_button_textContent d;
       fortuneState_hidden := fortuneState_hidden d;
       fortuneStateText_textContent := fortuneStateText_textContent d;
       fortuneText_hidden := fortuneText_hidden d;
       fortuneText_innerHTML := fortuneText_innerHTML d;
       fortune_cards := fortune_cards d;
       fortuneCard_bg := match fortuneCard_bg d with
                         | Some _ => Some true
                         | None => None
                         end |} in
  match fortune_text E trim json with
  | Throw e => Throw e
  | Return text => Return (fortune_show_text (FortuneParagraph text) d1)
  end.

(** [renderPredictionCardFromNumbers(numbers, index)]:
<<
    const balls = (numbers || [])
      .map((n) => ` ... ${String(n).padStart(2, "0")} ... `)
>>
    A ticket that is truthy and not an array has no [map]; every member
    of an array is converted. *)
Definition card_ok (nums : JSON) : bool :=
  match nums with
  | JArr l => forallb convertible l
  | v => negb (truthy v)
  end.

(** [String(m).padStart(2, "0")] *)
Definition padStart2 (s : string) : string :=
  match String.length s with
  | O => "00"
  | S O => "0" +:+ s
  | _ => s
  end.

Definition birthDate_of (y m d : string) : string :=
  y +:+ "-" +:+ padStart2 m +:+ "-" +:+ padStart2 d.

(** The [catch] clause of the handler. *)
Definition fortune_catch (e : JsError) (d : FortuneDom) : FortuneDom :=
  let d1 := fortune_setButtonLoading false d in
  if is_premium_required e then fortune_showPremiumWall d1
  else showFortuneError TEXT_RETRY_LATER d1.

(** The click handler of [issueButton], lines 35-78. [y], [m], [d] and
    [value] are the values of the four selects; [ds_round] and
    [ds_drawDate] are [document.body.dataset.round] and
    [document.body.dataset.drawDate], [None] when the attribute is
    absent. *)
Definition fortune_on_click (E : Env) (trim : string -> string)
    (y m d value : string) (ds_round ds_drawDate : option string)
    (p : World * FortuneDom) : World * FortuneDom :=
  let count := requested_count E value in
  if String.eqb y "" || String.eqb m "" || String.eqb d "" then
    (fst p, showFortuneError TEXT_BIRTHDATE (snd p))
  else
    let birthDate := birthDate_of y m d in
    let d1 := clearPrediction
                (showFortuneLoading (divining_message count)
                   (fortune_setButtonLoading true (snd p))) in
    let round := match ds_round with
                 | Some s => string_to_number E s
                 | None => NaN
                 end in
    match Loto7Fortune.fetchFortuneOnce E birthDate count round ds_drawDate (fst p) with
    | (Return json, w') =>
        match renderFortune E trim json d1 with
        | Throw e => (w', fortune_catch e d1)
        | Return d2 =>
            match js_or (get_opt (get_prop json "prediction") "tickets") (JArr []) with
            | JArr tickets =>
                if forallb card_ok tickets then
                  (w', fortune_set_button_text TEXT_AGAIN
                         (fortune_setButtonLoading false (fortune_set_cards tickets d2)))
                else (w', fortune_catch (TypeError (type_error_message E)) d2)
            | _ => (w', fortune_catch (TypeError (type_error_message E)) d2)
            end
        end
    | (Throw e, w') => (w', fortune_catch e d1)
    end.

(** [fetchLatestDraw(lotoType)] of loto7-fortune.js, lines 161-168. *)
Definition fortune_fetchLatestDraw (E : Env) (lotoType : string) : Js JSON :=
  let* res := do_fetch E (draw_url E lotoType) GET in
  if negb (ok res) then
    throw (Error ("draw/latest error: " +:+ pretty (status res)))
  else await (json res).

(** ** [initIssueSelect(selectEl, max)]

    A select element: its options (value and label) and its value. The
    logic pages leave a select that already has options alone; the
    fortune page always rebuilds it. Assigning a value that no option
    has leaves the select without a selection. *)
Record Select : Type := {
  sel_options : list (string * string);
  sel_value : string
}.

Definition issue_options (max : Z) : list (string * string) :=
  map (fun i => (pretty i, pretty i +:+ "口")) (seqZ 1 max).

Definition select_assign (v : string) (opts : list (string * string)) : Select :=
  {| sel_options := opts;
     sel_value := if existsb (fun o => String.eqb (fst o) v) opts then v else "" |}.

Definition initIssueSelect_logic (s : Select) (max : Z) : Select :=
  match sel_options s with
  | [] => select_assign "1" (issue_options max)
  | _ => s
  end.

Definition initIssueSelect_fortune (s : Select) (max : Z) : Select :=
  select_assign "1" (issue_options max).

Definition fortune_blank : FortuneDom :=
  {| fortune_button_disabled := false;
     fortune_button_textContent := "占う";
     fortuneState_hidden := true;
     fortuneStateText_textContent := "";
     fortuneText_hidden := true;
     fortuneText_innerHTML := FortuneEmpty;
     fortune_cards := [];
     fortuneCard_bg := Some false |}.

(** [initBirthSelects()] of loto7-fortune.js: each select gets a disabled
    placeholder with the empty value, selected, and then one option per
    year from 1930 to the current one, per month, per day. *)
Definition birth_options (label suffix : string) (first n : Z) : list (string * string) :=
  ("", label) :: map (fun i => (pretty i, pretty i +:+ suffix)) (seqZ first n).

Definition option_values (opts : list (string * string)) : list string :=
  map fst opts.

Definition birth_values (label suffix : string) (first n : Z) : list string :=
  option_values (birth_options label suffix first n).

Definition year_values (currentYear : Z) : list string :=
  birth_values "----年" "年" 1930 (currentYear - 1929).
Definition month_values : list string := birth_values "--月" "月" 1 12.
Definition day_values : list string := birth_values "--日" "日" 1 31.

(** A host [Number] that reads the decimal numerals from 1 to [max]. *)
Definition reads_numerals (E : Env) (max : Z) : Prop :=
  forall i : Z, 1 <= i <= max -> string_to_number E (pretty i) = Fin (inject_Z i).

Definition fresh_select : Select := {| sel_options := []; sel_value := "" |}.

(** ** Sample hosts, networks and answers to run the model on *)

(** The text of the profile with the premium flag set. *)
Definition premium_text : string :=
  "{" +:+ String QUOT ("is_premium" +:+ String QUOT ":true}").

(** A [JSON.parse] that reads the texts stored below and rejects the
    others. *)
Definition sample_parse (s : string) : Outcome JSON :=
  if String.eqb s "null" then Return JNull
  else if String.eqb s "{}" then Return (JObj ∅)
  else if String.eqb s premium_text then Return premium_profile
  else Throw (HostError "SyntaxError").

(** A [Number] that reads decimal numerals. *)
Definition digit_of (a : Ascii.ascii) : option Z :=
  let n := Z.of_nat (Ascii.nat_of_ascii a) in
  if (48 <=? n) && (n <=? 57) then Some (n - 48) else None.

Fixpoint decimal_go (s : string) (acc : Z) : option Z :=
  match s with
  | EmptyString => Some acc
  | String a s' =>
      match digit_of a with
      | Some d => decimal_go s' (10 * acc + d)
      | None => None
      end
  end.

Definition decimal (s : string) : jsnum :=
  match decimal_go s 0 with
  | Some n => Fin (inject_Z n)
  | None => NaN
  end.

Definition host_env (net : Url -> RequestInit -> Outcome Response) : Env :=
  {| fetch := net;
     ENGINE_BASE := "";
     string_to_number := decimal;
     object_to_number := fun _ => NaN;
     number_to_string := fun n =>
       match n with
       | Fin q => pretty (trunc q)
       | NaN => "NaN"
       | PInf => "Infinity"
       | NInf => "-Infinity"
       end;
     object_to_string := fun _ => "[object Object]";
     JSON_stringify := fun v =>
       if truthy_opt (get_prop v "is_premium") then premium_text else "{}";
     type_error_message := "TypeError" |}.

(** A [trim] for the space character. *)
Definition SPACE : Ascii.ascii := Ascii.ascii_of_nat 32.

Fixpoint trim_start (s : string) : string :=
  match s with
  | EmptyString => EmptyString
  | String a s' => if Ascii.eqb a SPACE then trim_start s' else s
  end.

Fixpoint trim_end (s : string) : string :=
  match s with
  | EmptyString => EmptyString
  | String a s' =>
      let t := trim_end s' in
      if Ascii.eqb a SPACE && String.eqb t "" then EmptyString else String a t
  end.

Definition sample_trim (s : string) : string := trim_end (trim_start s).

Definition offline : Url -> RequestInit -> Outcome Response :=
  fun _ _ => Throw (HostError "Failed to fetch").

(** [{ "round": 600, "draw_date": "2025-01-10" }] *)
Definition latest_draw : JSON :=
  JObj {[ "round" := JNum (num_of_Z 600); "draw_date" := JStr "2025-01-10" ]}.

(** [{ "prediction": { "numbers": [1,2,3,4,5,6],
                       "tickets": [[1,2,3,4,5,6],[7,8,9,10,11,12]],
                       "fixed_numbers": [1] } }] *)
Definition logic_answer : JSON :=
  JObj {[ "prediction" :=
       JObj {[ "numbers" := ticket_of [1; 2; 3; 4; 5; 6];
               "tickets" := JArr [ticket_of [1; 2; 3; 4; 5; 6];
                                   ticket_of [7; 8; 9; 10; 11; 12]];
               "fixed_numbers" := ticket_of [1] ]} ]}.

(** A network whose draw endpoint and prediction endpoint both work. *)
Definition draw_up : Url -> RequestInit -> Outcome Response :=
  fun u _ =>
    if String.eqb (url_path u) "/draw/latest"
    then respond 200 latest_draw
    else respond 200 logic_answer.

(** An answer of the fortune model with three tickets, and one with a
    ticket that is a string. *)
Definition fortune_tickets : list JSON :=
  [ticket_of [1; 2; 3; 4; 5; 6; 7]; ticket_of [8; 9; 10; 11; 12; 13; 14];
   ticket_of [15; 16; 17; 18; 19; 20; 21]].

Definition fortune_answer : JSON :=
  JObj {[ "description" :=
            JObj {[ "stars" := JStr "***"; "line1" := JStr " luck "; "line2" := JStr "luck" ]};
          "prediction" := JObj {[ "tickets" := JArr fortune_tickets ]} ]}.

Definition fortune_bad_answer : JSON :=
  JObj {[ "prediction" := JObj {[ "tickets" := JArr [JStr "1,2,3"] ]} ]}.

(** Configurations outside the valid ones. *)
Definition narrow_config : GenConfig :=
  {| cfg_min := 1; cfg_max := 3; cfg_total := 5; cfg_fixedNumbers := None |}.

Definition crowded_config : GenConfig :=
  {| cfg_min := 1; cfg_max := 43; cfg_total := 2; cfg_fixedNumbers := Some [22; 11; 5] |}.

(* ================================================================== *)
(** * 11. Properties of [clampInt] *)
(* ================================================================== *)

Section Clamp.

Lemma trunc_inject_Z (z : Z) : trunc (inject_Z z) = z.
Proof. unfold trunc; simpl. apply Z.quot_1_r. Qed.

Lemma trunc_nonneg_floor (q : Q) : (0 <= q)%Q -> trunc q = Qfloor q.
Proof.
  destruct q as [a b]. unfold Qle, trunc, Qfloor; simpl. intros H.
  apply Z.quot_div_nonneg; lia.
Qed.

Lemma trunc_below (q : Q) (b : Z) : 0 < b -> (q < inject_Z b)%Q -> trunc q < b.
Proof.
  intros Hb H. destruct (Qlt_le_dec q 0) as [Hneg | Hpos].
  - destruct q as [n d]. unfold Qlt in Hneg; simpl in Hneg. unfold trunc; simpl.
    assert (Z.quot n (Z.pos d) <= 0); [|lia].
    apply Z.quot_le_upper_bound; lia.
  - rewrite trunc_nonneg_floor by done.
    assert (Hle := Qfloor_le q).
    assert (Hlt : (inject_Z (Qfloor q) < inject_Z b)%Q) by (eapply Qle_lt_trans; eauto).
    by rewrite <- Zlt_Qlt in Hlt.
Qed.

Lemma trunc_above (q : Q) (b : Z) : 0 <= b -> (inject_Z b <= q)%Q -> b <= trunc q.
Proof.
  intros Hb H.
  assert (Hq : (0 <= q)%Q).
  { eapply Qle_trans; [|exact H]. change 0%Q with (inject_Z 0). by rewrite <- Zle_Qle. }
  rewrite trunc_nonneg_floor by done.
  rewrite <- (Qfloor_Z b). by apply Qfloor_resp_le.
Qed.

Lemma clampInt_range (n : jsnum) (lo hi : Z) :
  lo <= hi -> lo <= clampInt n lo hi <= hi.
Proof. intros H. unfold clampInt. destruct n; simpl; lia. Qed.

Lemma clampInt_fixed (z lo hi : Z) :
  lo <= z <= hi -> clampInt (num_of_Z z) lo hi = z.
Proof.
  intros H. unfold clampInt, num_of_Z; simpl. rewrite trunc_inject_Z. lia.
Qed.

(** C7, as amended. For every JavaScript number [n] (so for [Number(x)]
    of any input [x], numeric or not) [clampInt(n, 1, 100)] lies in
    [1,100] and clamping it again changes nothing; a finite in-range
    input is truncated toward zero; a finite out-of-range input snaps to
    the nearest bound; a non-finite input (NaN, +Infinity, -Infinity)
    gives the lower bound 1. The count a click requests is such a value. *)
Theorem C7_clampInt_law (E : Env) (value : string) (n : jsnum) :
  let c := clampInt n 1 100 in
  1 <= c <= 100 /\
  clampInt (num_of_Z c) 1 100 = c /\
  (forall q, n = Fin q -> (1 <= q)%Q -> (q <= 100)%Q ->
     c = trunc q /\ (inject_Z c <= q)%Q /\ (q < inject_Z (c + 1))%Q) /\
  (forall q, n = Fin q -> snaps_to_nearest_bound n 1 100 c) /\
  (isFinite n = false -> c = 1) /\
  1 <= requested_count E value <= 100.
Proof.
  intros c. assert (Hr : 1 <= c <= 100) by (apply clampInt_range; lia).
  split; [exact Hr|]. split; [by apply clampInt_fixed|].
  split; [|split; [|split]].
  - intros q -> H1 H100. subst c. unfold clampInt; simpl.
    assert (Hq : (0 <= q)%Q) by (eapply Qle_trans; [|exact H1]; done).
    assert (1 <= trunc q) by (apply trunc_above; [lia | done]).
    assert (trunc q < 101).
    { apply trunc_below; [lia|]. eapply Qle_lt_trans; [exact H100|]. done. }
    replace (Z.max 1 (Z.min 100 (trunc q))) with (trunc q) by lia.
    split; [done|]. rewrite trunc_nonneg_floor by done.
    split; [apply Qfloor_le | apply Qlt_floor].
  - intros q ->. subst c. unfold snaps_to_nearest_bound, clampInt; simpl. split.
    + intros Hlt. assert (trunc q < 1) by (apply trunc_below; [lia | done]). lia.
    + intros Hgt. assert (100 <= trunc q).
      { apply trunc_above; [lia|]. by apply Qlt_le_weak. }
      lia.
  - subst c. unfold clampInt. by intros ->.
  - unfold requested_count. apply clampInt_range; lia.
Qed.

(** The law at 3.5, at -2, at 1000 and at NaN. *)
Lemma C7_clampInt_law_witness :
  clampInt (Fin (7 # 2)) 1 100 = trunc (7 # 2) /\
  clampInt (Fin (-2 # 1)) 1 100 = 1 /\
  clampInt (Fin (1000 # 1)) 1 100 = 100 /\
  clampInt NaN 1 100 = 1.
Proof.
  pose (E0 := env_with (always 200 JNull)).
  split; [|split; [|split]].
  - destruct (C7_clampInt_law E0 "1" (Fin (7 # 2))) as (_ & _ & H & _).
    apply (H (7 # 2)); [reflexivity | discriminate | discriminate].
  - destruct (C7_clampInt_law E0 "1" (Fin (-2 # 1))) as (_ & _ & _ & H & _).
    apply (H (-2 # 1)); reflexivity.
  - destruct (C7_clampInt_law E0 "1" (Fin (1000 # 1))) as (_ & _ & _ & H & _).
    apply (H (1000 # 1)); reflexivity.
  - destruct (C7_clampInt_law E0 "1" NaN) as (_ & _ & _ & _ & H & _).
    apply H; reflexivity.
Defined.

(** C7 as stated fails at +Infinity, the value of [Number("Infinity")]:
    it is not finite and lies above the interval, whose nearest bound is
    100, yet [clampInt] returns 1. *)
Lemma C7_counterexample :
  isFinite PInf = false /\
  num_gt PInf 100 /\
  clampInt PInf 1 100 = 1 /\
  ~ snaps_to_nearest_bound PInf 1 100 (clampInt PInf 1 100).
Proof.
  split; [reflexivity|]. split; [exact I|]. split; [reflexivity|].
  intros [_ H]. specialize (H I). discriminate H.
Qed.

End Clamp.

(* ================================================================== *)
(** * 12. Properties of the session manager *)
(* ================================================================== *)

Ltac js_unfold :=
  unfold result, final, emitted, bind, ret, throw, await, try_catch, get_world,
    do_fetch, removeItem, setItem, getItem, navigate, log, modify_storage,
    modify_dom, set_round, set_drawDate in *.

Section Auth.

Variable E : Env.

(** One run of [fetchWithAuth], by what [fetch] answers. *)
Lemma fetchWithAuth_run (w : World) (url : Url) (options : RequestInit) :
  let req := LotoAuth.outgoing (localStorage w !! "access_token") options in
  LotoAuth.fetchWithAuth E url options w =
    match fetch E url req with
    | Return res =>
        if status res =? 401 then
          (Throw (Error "Unauthorized"),
           {| localStorage := delete "user" (delete "access_token" (localStorage w));
              location_href := "login.html";
              dom := dom w; round := round w; drawDate := drawDate w;
              trace := trace w ++ [EvFetch url req; EvRemoveItem "access_token";
                                   EvRemoveItem "user"; EvNavigate "login.html"] |})
        else
          (Return res,
           {| localStorage := localStorage w; location_href := location_href w;
              dom := dom w; round := round w; drawDate := drawDate w;
              trace := trace w ++ [EvFetch url req] |})
    | Throw e =>
        (Throw e,
         {| localStorage := localStorage w; location_href := location_href w;
            dom := dom w; round := round w; drawDate := drawDate w;
            trace := trace w ++ [EvFetch url req] |})
    end.
Proof.
  unfold LotoAuth.fetchWithAuth, LotoAuth.getToken, LotoAuth.removeToken,
    LotoAuth.removeUser. js_unfold. simpl.
  destruct (fetch E url _) as [res|e]; [|reflexivity].
  destruct (status res =? 401); [|reflexivity].
  simpl. rewrite <- !app_assoc. reflexivity.
Qed.

Lemma emitted_app {A} (c : Js A) (w : World) (evs : list Event) :
  trace (snd (c w)) = trace w ++ evs -> emitted c w = evs.
Proof. unfold emitted, final. intros ->. by rewrite drop_app_length. Qed.

(** C3. Whenever [fetch] resolves with status 401, [fetchWithAuth] throws
    [Error("Unauthorized")] instead of returning the response; after it
    the stored access token and the stored user profile are gone, every
    other stored entry is kept, the location is the login page, and the
    call has removed each of the two entries exactly once and navigated
    once. Nothing in this depends on the method or the body of the
    request. *)
Theorem C3_unauthorized_logs_out (w : World) (url : Url) (options : RequestInit)
    (res : Response) :
  let req := LotoAuth.outgoing (localStorage w !! "access_token") options in
  let w' := final (LotoAuth.fetchWithAuth E url options) w in
  fetch E url req = Return res ->
  status res = 401 ->
  result (LotoAuth.fetchWithAuth E url options) w = Throw (Error "Unauthorized") /\
  localStorage w' !! "access_token" = None /\
  localStorage w' !! "user" = None /\
  (forall k, k <> "access_token" -> k <> "user" ->
             localStorage w' !! k = localStorage w !! k) /\
  location_href w' = "login.html" /\
  emitted (LotoAuth.fetchWithAuth E url options) w =
    [EvFetch url req; EvRemoveItem "access_token"; EvRemoveItem "user";
     EvNavigate "login.html"].
Proof.
  intros req w' Hf Hs. subst w'.
  assert (Hrun := fetchWithAuth_run w url options). cbv zeta in Hrun.
  fold req in Hrun. rewrite Hf, Hs in Hrun. simpl in Hrun.
  unfold result, final. split; [by rewrite Hrun|].
  split; [rewrite Hrun; simpl; by rewrite lookup_delete_ne, lookup_delete_eq|].
  split; [rewrite Hrun; simpl; by rewrite lookup_delete_eq|].
  split; [intros k H1 H2; rewrite Hrun; simpl; by rewrite !lookup_delete_ne|].
  split; [by rewrite Hrun|].
  apply emitted_app. by rewrite Hrun.
Qed.

(** C10. Whatever the status of the response, 401 apart (so for 403 and
    for every other error status too), [fetchWithAuth] returns the
    response, leaves localStorage and the location as they were and
    emits nothing but the request; the same holds when [fetch] rejects.
    A call that writes to storage or navigates is a call that got a 401. *)
Theorem C10_only_401_touches_session (w : World) (url : Url) (options : RequestInit) :
  let req := LotoAuth.outgoing (localStorage w !! "access_token") options in
  let w' := final (LotoAuth.fetchWithAuth E url options) w in
  (forall res, fetch E url req = Return res -> status res <> 401 ->
     result (LotoAuth.fetchWithAuth E url options) w = Return res /\
     localStorage w' = localStorage w /\
     location_href w' = location_href w /\
     emitted (LotoAuth.fetchWithAuth E url options) w = [EvFetch url req]) /\
  (forall e, fetch E url req = Throw e ->
     result (LotoAuth.fetchWithAuth E url options) w = Throw e /\
     localStorage w' = localStorage w /\
     location_href w' = location_href w /\
     emitted (LotoAuth.fetchWithAuth E url options) w = [EvFetch url req]) /\
  ((exists ev, ev ∈ emitted (LotoAuth.fetchWithAuth E url options) w /\
               (is_storage_write ev || is_navigation ev) = true) ->
   exists res, fetch E url req = Return res /\ status res = 401).
Proof.
  intros req w'. subst w'.
  assert (Hrun := fetchWithAuth_run w url options). cbv zeta in Hrun.
  fold req in Hrun.
  split; [|split].
  - intros res Hf Hs. rewrite Hf in Hrun.
    apply Z.eqb_neq in Hs. rewrite Hs in Hrun.
    unfold result, final. repeat split; try (by rewrite Hrun).
    apply emitted_app. by rewrite Hrun.
  - intros e Hf. rewrite Hf in Hrun.
    unfold result, final. repeat split; try (by rewrite Hrun).
    apply emitted_app. by rewrite Hrun.
  - intros (ev & Hin & Hev).
    destruct (fetch E url req) as [res|e] eqn:Hf.
    + destruct (status res =? 401) eqn:Hs.
      * exists res. split; [done|]. by apply Z.eqb_eq.
      * rewrite (emitted_app _ _ [EvFetch url req]) in Hin by (by rewrite Hrun).
        apply list_elem_of_singleton in Hin as ->. discriminate Hev.
    + rewrite (emitted_app _ _ [EvFetch url req]) in Hin by (by rewrite Hrun).
      apply list_elem_of_singleton in Hin as ->. discriminate Hev.
Qed.

Lemma decorate_other (token : option string) (options : RequestInit) (k : string) :
  k <> "Authorization" -> k <> "Content-Type" ->
  LotoAuth.decorate token options !! k = supplied options k.
Proof.
  intros H1 H2. unfold LotoAuth.decorate, supplied.
  destruct (headers options) as [h|]; repeat case_match; by simplify_map_eq.
Qed.

Lemma decorate_authorization (token : option string) (options : RequestInit) :
  LotoAuth.decorate token options !! "Authorization" =
    if LotoAuth.str_truthy token
    then Some ("Bearer " +:+ default "null" token)
    else supplied options "Authorization".
Proof.
  unfold LotoAuth.decorate, supplied.
  destruct (headers options) as [h|]; repeat case_match; by simplify_map_eq.
Qed.

Lemma decorate_content_type (token : option string) (options : RequestInit) :
  LotoAuth.decorate token options !! "Content-Type" =
    if negb (LotoAuth.str_truthy (supplied options "Content-Type"))
       && LotoAuth.string_body (body options)
    then Some "application/json"
    else supplied options "Content-Type".
Proof.
  unfold LotoAuth.decorate.
  set (h0 := match headers options with Some h => h | None => ∅ end).
  assert (Hs : supplied options "Content-Type" = h0 !! "Content-Type").
  { unfold supplied, h0. by destruct (headers options). }
  rewrite Hs.
  set (h1 := if LotoAuth.str_truthy token then _ else h0).
  assert (H1 : h1 !! "Content-Type" = h0 !! "Content-Type").
  { unfold h1. destruct (LotoAuth.str_truthy token); [|done].
    by rewrite lookup_insert_ne. }
  rewrite H1. destruct (negb _ && _); [|done]. by rewrite lookup_insert_eq.
Qed.

(** C8, as amended. The request [fetchWithAuth] hands to [fetch] has the
    method and the body of the caller and these headers:
    - [Authorization] is ["Bearer " + token] when a non-empty token is
      stored at call time, replacing an [Authorization] header of the
      caller; otherwise it is what the caller supplied, if anything;
    - [Content-Type] is [application/json] when the body is a non-empty
      string and the caller supplied no (non-empty) [Content-Type];
      otherwise it is what the caller supplied, if anything;
    - every other header is exactly what the caller supplied. *)
Theorem C8_request_decoration (w : World) (url : Url) (options : RequestInit) :
  let token := localStorage w !! "access_token" in
  let req := LotoAuth.outgoing token options in
  let h := LotoAuth.decorate token options in
  (exists rest, emitted (LotoAuth.fetchWithAuth E url options) w = EvFetch url req :: rest) /\
  method req = method options /\
  body req = body options /\
  headers req = Some h /\
  (forall t, token = Some t -> t <> "" ->
     h !! "Authorization" = Some ("Bearer " +:+ t)) /\
  (LotoAuth.str_truthy token = false ->
     h !! "Authorization" = supplied options "Authorization") /\
  (LotoAuth.string_body (body options) = true ->
   LotoAuth.str_truthy (supplied options "Content-Type") = false ->
     h !! "Content-Type" = Some "application/json") /\
  (LotoAuth.string_body (body options) = false \/
   LotoAuth.str_truthy (supplied options "Content-Type") = true ->
     h !! "Content-Type" = supplied options "Content-Type") /\
  (forall k, k <> "Authorization" -> k <> "Content-Type" ->
     h !! k = supplied options k).
Proof.
  intros token req h.
  split.
  { assert (Hrun := fetchWithAuth_run w url options). cbv zeta in Hrun.
    fold token req in Hrun.
    destruct (fetch E url req) as [res|e].
    - destruct (status res =? 401).
      + eexists. apply emitted_app. rewrite Hrun. reflexivity.
      + exists []. apply emitted_app. by rewrite Hrun.
    - exists []. apply emitted_app. by rewrite Hrun. }
  do 3 (split; [reflexivity|]).
  subst h. split; [|split; [|split; [|split]]].
  - intros t Ht Hne. rewrite decorate_authorization, Ht. simpl.
    apply String.eqb_neq in Hne. by rewrite Hne.
  - intros Hf. by rewrite decorate_authorization, Hf.
  - intros Hb Hc. by rewrite decorate_content_type, Hb, Hc.
  - intros [Hb | Hc]; rewrite decorate_content_type.
    + rewrite Hb. by rewrite andb_false_r.
    + by rewrite Hc.
  - intros k. apply decorate_other.
Qed.

End Auth.

(** C8 as stated fails on each clause. With the token [tok] stored, a
    POST whose body is a FormData object and whose caller supplied
    [Authorization: Basic abc] leaves without a [Content-Type] and with
    the caller's [Authorization] replaced; and with the empty string
    stored as token, a request leaves without a bearer header. *)
Lemma C8_counterexample :
  let options := {| method := Some "POST";
                    headers := Some {[ "Authorization" := "Basic abc" ]};
                    body := Some BodyObject |} in
  ~ content_type_whenever_body (Some "tok") options /\
  ~ caller_headers_preserved (Some "tok") options /\
  ~ bearer_iff_token (Some "") GET.
Proof.
  intros options. split; [|split].
  - intros H. specialize (H (mk_is_Some _ _ eq_refl) eq_refl).
    vm_compute in H. discriminate H.
  - intros H. specialize (H "Authorization" "Basic abc" eq_refl).
    vm_compute in H. discriminate H.
  - intros [_ H]. destruct (H (mk_is_Some _ _ eq_refl)) as (t & Ht & Hh).
    vm_compute in Hh. discriminate Hh.
Qed.

Section Premium.

Variable E : Env.

Lemma str_truthy_spec (s : option string) :
  LotoAuth.str_truthy s = true <-> exists t, s = Some t /\ t <> "".
Proof.
  destruct s as [t|]; simpl.
  - rewrite negb_true_iff, String.eqb_neq. split.
    + intros H. by exists t.
    + by intros (t' & [= <-] & H).
  - split; [done|]. by intros (t' & [=] & _).
Qed.

(** One run of [requirePremium], path by path. *)
Lemma requirePremium_run (w : World) :
  let c := LotoAuth.requirePremium E in
  match localStorage w !! "access_token" with
  | None => result c w = Return false /\ location_href (final c w) = "login.html"
  | Some tok =>
      if String.eqb tok "" then
        result c w = Return false /\ location_href (final c w) = "login.html"
      else
        match fetch E (LotoAuth.me_url E) (me_request tok) with
        | Throw _ =>
            result c w = Return false /\ location_href (final c w) = "login.html"
        | Return res =>
            if status res =? 401 then
              result c w = Return false /\
              location_href (final c w) = "login.html" /\
              localStorage (final c w) !! "access_token" = None /\
              localStorage (final c w) !! "user" = None
            else if negb (ok res) then
              result c w = Return false /\ location_href (final c w) = "login.html"
            else
              match json res with
              | Throw _ =>
                  result c w = Return false /\
                  location_href (final c w) = "login.html"
              | Return user =>
                  localStorage (final c w) !! "user" = Some (JSON_stringify E user) /\
                  if truthy_opt (get_prop user "is_premium") then
                    result c w = Return true /\
                    location_href (final c w) = location_href w
                  else
                    result c w = Return false /\
                    location_href (final c w) =
                      match user with
                      | JNull => "login.html"
                      | _ => "login.html?status=unpaid"
                      end
              end
        end
  end.
Proof.
  intros c. subst c.
  unfold LotoAuth.requirePremium, LotoAuth.getToken, LotoAuth.removeToken,
    LotoAuth.removeUser, LotoAuth.setUser, me_request. js_unfold. simpl.
  destruct (localStorage w !! "access_token") as [tok|] eqn:Htok; simpl; [|done].
  destruct (String.eqb tok "") eqn:Hne; simpl; [done|].
  rewrite ?Htok; simpl.
  destruct (fetch E _ _) as [res|e]; simpl; [|done].
  destruct (status res =? 401) eqn:Hs; simpl.
  { repeat split; [by rewrite lookup_delete_ne, lookup_delete_eq|
                   by rewrite lookup_delete_eq]. }
  destruct (ok res); simpl; [|done].
  destruct (json res) as [user|e]; simpl; [|done].
  destruct user as [|b|n|s|l|m]; simpl;
    try destruct (truthy_opt _); simpl;
    by rewrite lookup_insert_eq.
Qed.

Lemma ok_not_401 (res : Response) : ok res = true -> (status res =? 401) = false.
Proof. unfold ok. intros H. apply andb_true_iff in H as [H1 H2]. lia. Qed.

Lemma requirePremium_total (w : World) :
  exists b, result (LotoAuth.requirePremium E) w = Return b.
Proof.
  assert (Hrun := requirePremium_run w). cbv zeta in Hrun.
  repeat case_match; destruct_and?; eauto.
Qed.

Lemma requirePremium_true_iff (w : World) :
  result (LotoAuth.requirePremium E) w = Return true <-> confirmed_premium E w.
Proof.
  assert (Hrun := requirePremium_run w). cbv zeta in Hrun. split.
  - intros Hr. unfold confirmed_premium.
    destruct (localStorage w !! "access_token") as [tok|] eqn:Htok;
      [|destruct Hrun; congruence].
    destruct (String.eqb tok "") eqn:Hne; [destruct Hrun; congruence|].
    apply String.eqb_neq in Hne.
    destruct (fetch E _ _) as [res|e] eqn:Hf; [|destruct Hrun; congruence].
    destruct (status res =? 401); [destruct Hrun; congruence|].
    destruct (ok res) eqn:Hok; simpl in Hrun; [|destruct Hrun; congruence].
    destruct (json res) as [user|e] eqn:Hj; [|destruct Hrun; congruence].
    destruct Hrun as [_ Hrun].
    destruct (truthy_opt _) eqn:Hp; [|destruct Hrun; congruence].
    by exists tok, res, user.
  - intros (tok & res & user & Htok & Hne & Hf & Hok & Hj & Hp).
    apply String.eqb_neq in Hne.
    rewrite Htok, Hne, Hf, (ok_not_401 _ Hok), Hok, Hj, Hp in Hrun. simpl in Hrun.
    by destruct Hrun as (_ & Hr & _).
Qed.

Lemma requirePremium_caches (w : World) (tok : string) (res : Response) (user : JSON) :
  localStorage w !! "access_token" = Some tok -> tok <> "" ->
  fetch E (LotoAuth.me_url E) (me_request tok) = Return res ->
  ok res = true -> json res = Return user ->
  localStorage (final (LotoAuth.requirePremium E) w) !! "user"
    = Some (JSON_stringify E user).
Proof.
  intros Htok Hne Hf Hok Hj.
  assert (Hrun := requirePremium_run w). cbv zeta in Hrun.
  apply String.eqb_neq in Hne.
  rewrite Htok, Hne, Hf, (ok_not_401 _ Hok), Hok, Hj in Hrun. simpl in Hrun.
  by destruct Hrun as [Hc _].
Qed.

(** C9. [requirePremium] always returns a boolean, and it returns [true]
    exactly on a confirmed premium profile: a token is present, the
    profile endpoint answers with an OK status, and the [is_premium] flag
    of the decoded profile is true. Every failure path returns [false]:
    no token, a rejected request, a 401 or any other status that is not
    OK, a body that does not decode, a profile that is not premium. The
    profile of an OK answer is stored before its flag is looked at, so
    it is cached whether or not it is premium. *)
Theorem C9_requirePremium (w : World) :
  let c := LotoAuth.requirePremium E in
  (exists b, result c w = Return b) /\
  (result c w = Return true <-> confirmed_premium E w) /\
  (LotoAuth.str_truthy (localStorage w !! "access_token") = false ->
     result c w = Return false) /\
  (forall tok, localStorage w !! "access_token" = Some tok -> tok <> "" ->
     (forall e, fetch E (LotoAuth.me_url E) (me_request tok) = Throw e ->
        result c w = Return false) /\
     (forall res, fetch E (LotoAuth.me_url E) (me_request tok) = Return res ->
        (status res = 401 -> result c w = Return false) /\
        (ok res = false -> result c w = Return false) /\
        (forall e, ok res = true -> json res = Throw e -> result c w = Return false) /\
        (forall user, ok res = true -> json res = Return user ->
           localStorage (final c w) !! "user" = Some (JSON_stringify E user) /\
           (truthy_opt (get_prop user "is_premium") = false ->
              result c w = Return false) /\
           (forall flag, get_prop user "is_premium" = Some (JBool flag) ->
              result c w = Return flag)))).
Proof.
  intros c.
  assert (Hiff := requirePremium_true_iff w). fold c in Hiff.
  assert (Hfalse : ~ confirmed_premium E w -> result c w = Return false).
  { intros Hn. destruct (requirePremium_total w) as [[|] Hb]; [|done].
    by apply Hiff in Hb. }
  split; [apply requirePremium_total|]. split; [exact Hiff|]. split.
  { intros Ht. apply Hfalse. intros (tok & _ & _ & Htok & Hne & _).
    rewrite Htok in Ht. simpl in Ht. apply String.eqb_neq in Hne.
    rewrite Hne in Ht. discriminate Ht. }
  intros tok Htok Hne. split.
  { intros e Hf. apply Hfalse. intros (t & r & _ & Ht & _ & Hf' & _).
    congruence. }
  intros res Hf.
  assert (Hsame : forall t r (u : JSON),
            localStorage w !! "access_token" = Some t ->
            fetch E (LotoAuth.me_url E) (me_request t) = Return r ->
            r = res) by (intros; congruence).
  split; [|split; [|split]].
  - intros H401. apply Hfalse. intros (t & r & u & Ht & _ & Hf' & Hok & _).
    rewrite (Hsame t r u Ht Hf') in Hok. apply ok_not_401 in Hok. lia.
  - intros Hnok. apply Hfalse. intros (t & r & u & Ht & _ & Hf' & Hok & _).
    rewrite (Hsame t r u Ht Hf') in Hok. congruence.
  - intros e Hok Hj. apply Hfalse. intros (t & r & u & Ht & _ & Hf' & _ & Hj' & _).
    rewrite (Hsame t r u Ht Hf') in Hj'. congruence.
  - intros user Hok Hj. split; [by eapply requirePremium_caches|]. split.
    + intros Hp. apply Hfalse.
      intros (t & r & u & Ht & _ & Hf' & _ & Hj' & Hp').
      rewrite (Hsame t r u Ht Hf') in Hj'. congruence.
    + intros [|] Hflag.
      * apply Hiff. exists tok, res, user. by rewrite Hflag.
      * apply Hfalse. intros (t & r & u & Ht & _ & Hf' & _ & Hj' & Hp').
        rewrite (Hsame t r u Ht Hf') in Hj'.
        assert (u = user) by congruence. subst u.
        rewrite Hflag in Hp'. discriminate Hp'.
Qed.

End Premium.

(* ================================================================== *)
(** * 13. Properties of the prediction client and of the click handlers *)
(* ================================================================== *)

Section Pages.

Variable E : Env.

Lemma prediction_url_path (lt : string) (r : jsnum) (d : string) (count : Z) :
  url_path (prediction_url E lt r d count) = ENGINE_BASE E +:+ "/engine/prediction".
Proof. unfold prediction_url. by repeat case_match. Qed.

(** One run of [fetchPredictionsFromEngine], by what [fetch] answers. *)
Lemma fetchPredictions_run (lt : string) (count : Z) (w : World) :
  let c := fetchPredictionsFromEngine E lt count in
  let url := prediction_url E lt (round w) (drawDate w) count in
  let req := LotoAuth.outgoing (localStorage w !! "access_token") GET in
  dom (final c w) = dom w /\
  round (final c w) = round w /\
  drawDate (final c w) = drawDate w /\
  (exists rest, trace (final c w) = trace w ++ EvFetch url req :: rest) /\
  result c w =
    match fetch E url req with
    | Throw e => Throw e
    | Return res =>
        if status res =? 401 then Throw (Error "Unauthorized")
        else if status res =? 403 then Throw (Error PREMIUM_REQUIRED)
        else if negb (ok res)
             then Throw (Error ("Engine error: " +:+ pretty (status res)))
             else match json res with
                  | Throw e => Throw e
                  | Return data => normalize_logic data
                  end
    end.
Proof.
  intros c url req. subst c.
  assert (Hrun := fetchWithAuth_run E w url GET). cbv zeta in Hrun. fold req in Hrun.
  unfold fetchPredictionsFromEngine, emitted, result, final, bind, get_world.
  cbn beta iota. fold url. rewrite Hrun.
  destruct (fetch E url req) as [res|e]; simpl.
  2:{ split_and!; try done. by exists []. }
  destruct (status res =? 401) eqn:H401; simpl.
  { split_and!; try done. by eexists. }
  destruct (status res =? 403); simpl.
  { split_and!; try done. by exists []. }
  destruct (ok res); simpl.
  2:{ split_and!; try done. by exists []. }
  unfold await, throw. destruct (json res) as [data|e]; simpl.
  2:{ split_and!; try done. by exists []. }
  split_and!; try done. by exists [].
Qed.

Lemma showPremiumWall_shown (w : World) : paywall_shown (final showPremiumWall w).
Proof. by repeat split. Qed.

Lemma showError_shown (msg : string) (w : World) :
  error_shown msg (final (showError msg) w).
Proof. by repeat split. Qed.

Lemma is_premium_required_spec (e : JsError) :
  is_premium_required e = true <-> message e = "PREMIUM_REQUIRED".
Proof. unfold is_premium_required, PREMIUM_REQUIRED. apply String.eqb_eq. Qed.

Lemma try_catch_throw {A} (c : Js A) (h : JsError -> Js A) (w : World) (e : JsError) :
  result c w = Throw e -> try_catch c h w = h e (final c w).
Proof. unfold result, final, try_catch. destruct (c w) as [[a|e'] w']; simpl; intros [= ->]; done. Qed.

Lemma try_catch_return {A} (c : Js A) (h : JsError -> Js A) (w : World) (a : A) :
  result c w = Return a -> try_catch c h w = (Return a, final c w).
Proof. unfold result, final, try_catch. destruct (c w) as [[a'|e] w']; simpl; intros [= ->]; done. Qed.

Lemma bind_throw {A B} (c : Js A) (k : A -> Js B) (w : World) (e : JsError) :
  result c w = Throw e ->
  result (bind c k) w = Throw e /\ final (bind c k) w = final c w.
Proof. unfold result, final, bind. destruct (c w) as [[a|e'] w']; simpl; intros [= ->]; done. Qed.

Lemma bind_return {A B} (c : Js A) (k : A -> Js B) (w : World) (a : A) :
  result c w = Return a -> bind c k w = k a (final c w).
Proof. unfold result, final, bind. destruct (c w) as [[a'|e] w']; simpl; intros [= ->]; done. Qed.

Lemma on_failure_trace (e : JsError) (w : World) :
  trace (final (on_failure e) w) = trace w.
Proof. unfold on_failure. by destruct (is_premium_required e). Qed.

Lemma append_cards_trace (data : JSON) (todo acc : list JSON) (w : World) :
  trace (final (Loto6Logic.append_cards E data acc todo) w) = trace w.
Proof.
  revert acc w. induction todo as [|nums rest IH]; intros acc w; [done|].
  simpl. destruct (Loto6Logic.card_renders data nums); [|done].
  unfold final, bind, modify_dom in *. simpl. by rewrite IH.
Qed.

(** The click handler of the loto7 logic page, once the request is out. *)
Lemma loto7_on_click_run (value : string) (w : World) :
  let count := requested_count E value in
  let c := fetchPredictionsFromEngine E Loto7Logic.LOTO_TYPE count in
  let w1 := final (showLoading (loading_message count)) w in
  Loto7Logic.on_click E value w =
    match result c w1 with
    | Throw e => on_failure e (final c w1)
    | Return predictions =>
        try_catch (Loto7Logic.showPredictions E predictions count) on_failure
          (final c w1)
    end.
Proof.
  intros count c w1. unfold Loto7Logic.on_click, Loto7Logic.fetchPredictionsFromEngine.
  fold count c. unfold try_catch at 1. unfold bind at 1.
  change (showLoading (loading_message count) w) with (Return tt, w1).
  cbn beta iota. unfold bind, result, final, try_catch.
  by destruct (c w1) as [[p|e] w2].
Qed.

Lemma Number_Return (v : JSON) (r : jsnum) :
  Number E v = Return r <-> unconvertible v = false /\ r = number_of E v.
Proof.
  unfold Number. destruct (unconvertible v); split; try done.
  - by intros [? _].
  - by intros [= <-].
  - by intros [_ ->].
Qed.

Lemma String_of_Return (v : JSON) (t : string) :
  String_of E v = Return t <-> unconvertible v = false /\ t = text_of E v.
Proof.
  unfold String_of. destruct (unconvertible v); split; try done.
  - by intros [? _].
  - by intros [= <-].
  - by intros [_ ->].
Qed.

Lemma falsy_convertible (v : JSON) : truthy v = false -> unconvertible v = false.
Proof. by destruct v. Qed.

(** [v ?? d] converts when [v || d'] does, the defaults being primitive. *)
Lemma nullish_convertible (o : option JSON) (d d' : JSON) :
  unconvertible (js_or o d') = false -> unconvertible d = false ->
  unconvertible (nullish_or o d) = false.
Proof.
  destruct o as [v|]; [|done]. unfold js_or, nullish_or.
  destruct (truthy v) eqn:Ht.
  - intros H _. by destruct v.
  - intros _ Hd. apply falsy_convertible in Ht. by destruct v.
Qed.

Lemma prop_strict_nonnull (v : JSON) (k : string) :
  v <> JNull -> prop_strict E v k = ret (get_prop v k).
Proof. by destruct v. Qed.

(** The click handler of loto6-logic.js, once [fetchLatestDraw] has
    returned a payload that is not null and whose draw fields convert. *)
Lemma loto6_on_click_run (value : string) (w : World) (dres : Response) (latest : JSON)
    (round' : jsnum) (drawDate' : string) :
  let count := requested_count E value in
  let c := fetchPredictionsFromEngine E Loto6Logic.LOTO_TYPE count in
  fetch E (draw_url E Loto6Logic.LOTO_TYPE) GET = Return dres ->
  json dres = Return latest ->
  latest <> JNull ->
  Number E (js_or (get_prop latest "round") (JNum (Fin 0))) = Return round' ->
  String_of E (js_or (get_prop latest "draw_date") (JStr "")) = Return drawDate' ->
  exists w3,
    localStorage w3 = localStorage w /\
    round w3 = round' /\
    drawDate w3 = drawDate' /\
    trace w3 = trace w ++ [EvFetch (draw_url E Loto6Logic.LOTO_TYPE) GET] /\
    result (Loto6Logic.fetchLatestDraw E)
      (final (showLoading (loading_message count)) w) = Return latest /\
    Loto6Logic.on_click E value w =
      match result c w3 with
      | Throw e => on_failure e (final c w3)
      | Return predictions =>
          try_catch
            (Loto6Logic.showPredictions E predictions ;;
             setButtonLoading false ;;
             modify_dom (set_state_hidden true) ;;
             modify_dom (set_cards_hidden false))
            on_failure (final c w3)
      end.
Proof.
  intros count c Hf Hj Hnull Hr Hd.
  assert (Hr1 : String_of E (nullish_or (get_prop latest "round") (JStr "-"))
                = Return (text_of E (nullish_or (get_prop latest "round") (JStr "-")))).
  { apply String_of_Return. split; [|done].
    apply Number_Return in Hr as [Hr _]. by eapply nullish_convertible. }
  assert (Hd1 : String_of E (nullish_or (get_prop latest "draw_date") (JStr "-"))
                = Return (text_of E (nullish_or (get_prop latest "draw_date") (JStr "-")))).
  { apply String_of_Return. split; [|done].
    apply String_of_Return in Hd as [Hd _]. by eapply nullish_convertible. }
  unfold Loto6Logic.on_click, Loto6Logic.fetchPredictionsFromEngine,
    Loto6Logic.fetchLatestDraw.
  fold count c.
  unfold showLoading, setButtonLoading. js_unfold.
  cbn -[c draw_url on_failure Loto6Logic.showPredictions GET prop_strict Number String_of
        nullish_or js_or get_prop].
  rewrite Hf.
  cbn -[c draw_url on_failure Loto6Logic.showPredictions GET prop_strict Number String_of
        nullish_or js_or get_prop].
  rewrite Hj.
  cbn -[c draw_url on_failure Loto6Logic.showPredictions GET prop_strict Number String_of
        nullish_or js_or get_prop].
  destruct (round_textContent (dom w)) as [rt|],
           (drawDate_textContent (dom w)) as [dt|];
    repeat (first [rewrite Hr1 | rewrite Hd1 | rewrite Hr | rewrite Hd
                  | rewrite (prop_strict_nonnull latest) by done; unfold ret];
            cbn -[c draw_url on_failure Loto6Logic.showPredictions GET prop_strict
                  Number String_of nullish_or js_or get_prop]);
    match goal with
    | |- context [c ?w0] =>
        exists w0; split_and!; try reflexivity;
        unfold result, final; destruct (c w0) as [[p|e] w4]; reflexivity
    end.
Qed.

Lemma fetchPredictions_403 (lt : string) (n : Z) (w : World) (r : jsnum) (d : string)
    (tok : option string) (res : Response) :
  round w = r -> drawDate w = d -> localStorage w !! "access_token" = tok ->
  fetch E (prediction_url E lt r d n) (LotoAuth.outgoing tok GET) = Return res ->
  status res = 403 ->
  result (fetchPredictionsFromEngine E lt n) w = Throw (Error PREMIUM_REQUIRED).
Proof.
  intros <- <- <- Hf Hs.
  destruct (fetchPredictions_run lt n w) as (_ & _ & _ & _ & Hr).
  by rewrite Hr, Hf, Hs.
Qed.

Lemma paywall_not_error (w : World) (msg : string) :
  paywall_shown w -> ~ error_shown msg w.
Proof. intros (H & _) (H' & _). congruence. Qed.

Lemma on_failure_premium (e : JsError) (w : World) :
  is_premium_required e = true ->
  paywall_shown (final (on_failure e) w).
Proof. intros H. unfold on_failure. rewrite H. apply showPremiumWall_shown. Qed.

Lemma on_failure_generic (e : JsError) (w : World) :
  is_premium_required e = false ->
  error_shown TEXT_RETRY_LATER (final (on_failure e) w).
Proof. intros H. unfold on_failure. rewrite H. apply showError_shown. Qed.

(** C4. A 403 from the prediction endpoint makes the prediction client
    (of the logic pages and of the fortune page) throw an error whose
    message is the sentinel ["PREMIUM_REQUIRED"]. The [catch] clause of
    the click handlers tests the message for equality with the sentinel,
    not for containing it; the errors the client builds for the other
    statuses and for an unrecognised payload do not pass the test. On the
    sentinel the handlers of both logic pages end in the paywall display
    with the button enabled again, and not in the error display. *)
Theorem C4_premium_required_routes_to_paywall (value : string) (w : World) :
  let count := requested_count E value in
  let tok := localStorage w !! "access_token" in
  (forall lt n res,
     fetch E (prediction_url E lt (round w) (drawDate w) n)
       (LotoAuth.outgoing tok GET) = Return res ->
     status res = 403 ->
     result (fetchPredictionsFromEngine E lt n) w = Throw (Error PREMIUM_REQUIRED)) /\
  (forall b n r d res,
     fetch E (Loto7Fortune.fortune_url E b n r d) (LotoAuth.outgoing tok GET)
       = Return res ->
     status res = 403 ->
     result (Loto7Fortune.fetchFortuneOnce E b n r d) w
       = Throw (Error PREMIUM_REQUIRED)) /\
  (forall e, is_premium_required e = true <-> message e = "PREMIUM_REQUIRED") /\
  (forall code : Z,
     is_premium_required (Error ("Engine error: " +:+ pretty code)) = false) /\
  is_premium_required (Error "Invalid response shape") = false /\
  is_premium_required (Error "Unauthorized") = false /\
  is_premium_required (Error "Error: PREMIUM_REQUIRED") = false /\
  (forall e w0, is_premium_required e = false ->
     error_shown TEXT_RETRY_LATER (final (on_failure e) w0)) /\
  (forall res,
     fetch E (prediction_url E Loto7Logic.LOTO_TYPE (round w) (drawDate w) count)
       (LotoAuth.outgoing tok GET) = Return res ->
     status res = 403 ->
     paywall_shown (final (Loto7Logic.on_click E value) w) /\
     forall msg, ~ error_shown msg (final (Loto7Logic.on_click E value) w)) /\
  (forall dres latest round' drawDate' res,
     fetch E (draw_url E Loto6Logic.LOTO_TYPE) GET = Return dres ->
     json dres = Return latest ->
     latest <> JNull ->
     Number E (js_or (get_prop latest "round") (JNum (Fin 0))) = Return round' ->
     String_of E (js_or (get_prop latest "draw_date") (JStr "")) = Return drawDate' ->
     fetch E (prediction_url E Loto6Logic.LOTO_TYPE round' drawDate' count)
       (LotoAuth.outgoing tok GET) = Return res ->
     status res = 403 ->
     paywall_shown (final (Loto6Logic.on_click E value) w) /\
     forall msg, ~ error_shown msg (final (Loto6Logic.on_click E value) w)).
Proof.
  intros count tok. split_and!.
  - intros lt n res Hf Hs. by eapply fetchPredictions_403.
  - intros b n r d res Hf Hs.
    assert (Hrun := fetchWithAuth_run E w (Loto7Fortune.fortune_url E b n r d) GET).
    cbv zeta in Hrun. fold tok in Hrun. rewrite Hf, Hs in Hrun. simpl in Hrun.
    unfold Loto7Fortune.fetchFortuneOnce, result, bind. rewrite Hrun. simpl.
    by rewrite Hs.
  - apply is_premium_required_spec.
  - done.
  - done.
  - done.
  - done.
  - intros e w0. apply on_failure_generic.
  - intros res Hf Hs.
    assert (paywall_shown (final (Loto7Logic.on_click E value) w)) as Hp.
    { unfold final at 1. rewrite loto7_on_click_run. fold count.
      erewrite fetchPredictions_403; [| reflexivity | reflexivity | reflexivity | exact Hf | exact Hs].
      by apply on_failure_premium. }
    split; [exact Hp|]. intros msg. by apply paywall_not_error.
  - intros dres latest round' drawDate' res Hd Hj Hn Hcr Hcd Hf Hs.
    assert (paywall_shown (final (Loto6Logic.on_click E value) w)) as Hp.
    { destruct (loto6_on_click_run value w dres latest round' drawDate' Hd Hj Hn Hcr Hcd)
        as (w3 & Hst & Hr & Hdd & _ & _ & Hrun).
      unfold final at 1. rewrite Hrun. fold count.
      erewrite fetchPredictions_403; [| exact Hr | exact Hdd | by rewrite Hst | exact Hf | exact Hs].
      by apply on_failure_premium. }
    split; [exact Hp|]. intros msg. by apply paywall_not_error.
Qed.

Lemma loto6_showPredictions_trace (predictions : JSON) (w : World) :
  trace (final (try_catch
                  (Loto6Logic.showPredictions E predictions ;;
                   setButtonLoading false ;;
                   modify_dom (set_state_hidden true) ;;
                   modify_dom (set_cards_hidden false))
                  on_failure) w) = trace w.
Proof.
  unfold Loto6Logic.showPredictions.
  set (tickets := array_or_empty _).
  assert (Ht := append_cards_trace predictions tickets []
                  (final (modify_dom (set_cards_html HtmlEmpty)) w)).
  unfold final, try_catch, bind, setButtonLoading, modify_dom in *. simpl in *.
  destruct (Loto6Logic.append_cards _ _ _ _ _) as [[[]|e] w']; simpl in *;
    [done|].
  rewrite <- Ht. exact (on_failure_trace e w').
Qed.

(** C6, on loto6-logic.js. Its [fetchLatestDraw] never looks at the
    status: when the draw endpoint answers with a status that is not 2xx
    and a body that decodes to an object (whose [round] and [draw_date],
    if it has any, convert to a number and a text, as those of an error
    body do), the function returns that object, and the click handler
    goes on to request predictions. (The same function of the loto7
    logic page and of loto7-fortune.js throws on [!res.ok]: see
    [loto7_fetchLatestDraw_checks_status].) *)
Theorem C6_loto6_draw_status_ignored (value : string) (w : World) (dres : Response)
    (m : gmap string JSON) :
  fetch E (draw_url E Loto6Logic.LOTO_TYPE) GET = Return dres ->
  ok dres = false ->
  json dres = Return (JObj m) ->
  draw_converts (JObj m) ->
  result (Loto6Logic.fetchLatestDraw E)
    (final (showLoading (loading_message (requested_count E value))) w)
    = Return (JObj m) /\
  exists ev, ev ∈ emitted (Loto6Logic.on_click E value) w /\
             is_prediction_request E ev = true.
Proof.
  intros Hf _ Hj [Hcr Hcd].
  destruct (loto6_on_click_run value w dres (JObj m) _ _ Hf Hj ltac:(done)
              (proj2 (Number_Return _ _) (conj Hcr eq_refl))
              (proj2 (String_of_Return _ _) (conj Hcd eq_refl)))
    as (w3 & _ & _ & _ & Ht & Hres & Hrun).
  split; [exact Hres|].
  set (c := fetchPredictionsFromEngine E Loto6Logic.LOTO_TYPE (requested_count E value)) in *.
  destruct (fetchPredictions_run Loto6Logic.LOTO_TYPE (requested_count E value) w3)
    as (_ & _ & _ & (rest & Hc) & _). fold c in Hc.
  eexists (EvFetch _ _). split.
  - unfold emitted, final. rewrite Hrun.
    assert (Htr : trace (match result c w3 with
                         | Return predictions =>
                             try_catch
                               (Loto6Logic.showPredictions E predictions ;;
                                setButtonLoading false ;;
                                modify_dom (set_state_hidden true) ;;
                                modify_dom (set_cards_hidden false))
                               on_failure (final c w3)
                         | Throw e => on_failure e (final c w3)
                         end).2 = trace (final c w3)).
    { destruct (result c w3).
      - apply loto6_showPredictions_trace.
      - apply on_failure_trace. }
    rewrite Htr, Hc, Ht, <- app_assoc, drop_app_length. simpl.
    apply list_elem_of_further, list_elem_of_here.
  - unfold is_prediction_request. rewrite prediction_url_path. apply String.eqb_refl.
Qed.

(** The sibling path: [fetchLatestDraw] of the loto7 logic page throws on
    a status that is not 2xx and on a rejected request, and the page then
    shows the fixed message without sending a prediction request. *)
Lemma loto7_fetchLatestDraw_checks_status (w : World) :
  (forall dres,
     fetch E (draw_url E Loto7Logic.LOTO_TYPE) GET = Return dres ->
     ok dres = false ->
     result (Loto7Logic.fetchLatestDraw E) w
       = Throw (Error ("draw/latest error: " +:+ pretty (status dres))) /\
     error_shown TEXT_DRAW_FAILED (final (Loto7Logic.on_load E) w) /\
     emitted (Loto7Logic.on_load E) w = [EvFetch (draw_url E Loto7Logic.LOTO_TYPE) GET]) /\
  (forall e,
     fetch E (draw_url E Loto7Logic.LOTO_TYPE) GET = Throw e ->
     result (Loto7Logic.fetchLatestDraw E) w = Throw e /\
     error_shown TEXT_DRAW_FAILED (final (Loto7Logic.on_load E) w) /\
     emitted (Loto7Logic.on_load E) w = [EvFetch (draw_url E Loto7Logic.LOTO_TYPE) GET]).
Proof.
  split.
  - intros dres Hf Hok.
    unfold Loto7Logic.on_load, Loto7Logic.fetchLatestDraw, showError, setButtonLoading.
    js_unfold. cbn -[draw_url GET]. rewrite Hf. cbn -[draw_url GET]. rewrite Hok.
    cbn -[draw_url GET]. split_and!; try done. by rewrite drop_app_length.
  - intros e Hf.
    unfold Loto7Logic.on_load, Loto7Logic.fetchLatestDraw, showError, setButtonLoading.
    js_unfold. cbn -[draw_url GET]. rewrite Hf. cbn -[draw_url GET].
    split_and!; try done. by rewrite drop_app_length.
Qed.

Lemma normalize_logic_accepted (data : JSON) :
  accepted (normalize_logic data) <->
  has_predictions_array data \/
  truthy_opt (get_opt (get_prop data "prediction") "numbers") = true.
Proof.
  unfold normalize_logic, has_predictions_array, isArray.
  destruct (get_prop data "predictions") as [[| | | |l|]|];
    try destruct (truthy_opt _); simpl; intuition congruence.
Qed.

Lemma normalize_fortune_accepted (data : JSON) :
  accepted (Loto7Fortune.normalize_fortune data) <->
  isArray (get_opt (get_prop data "prediction") "tickets") = true.
Proof.
  unfold Loto7Fortune.normalize_fortune.
  destruct (isArray _); simpl; intuition congruence.
Qed.

Lemma truthy_opt_is_Some (v : option JSON) : truthy_opt v = true -> is_Some v.
Proof. destruct v; [by eexists|done]. Qed.

Lemma isArray_is_Some (v : option JSON) : isArray v = true -> is_Some v.
Proof. destruct v; [by eexists|done]. Qed.

(** C5, as amended. A decoded payload that has no [predictions] array, no
    [prediction.numbers] and no [prediction.tickets] is rejected with an
    invalid-shape error by every page. The logic pages accept a payload
    exactly when [predictions] is an array or [prediction.numbers] is
    truthy; the fortune page accepts it exactly when [prediction.tickets]
    is an array. So a payload that is accepted exhibits one of the three
    fields, but not every payload that exhibits one is accepted. The
    clients apply these checks to the body of every 2xx answer. *)
Theorem C5_normalization (data : JSON) (w : World) :
  let tok := localStorage w !! "access_token" in
  (~ recognised data ->
     normalize_logic data = Throw (Error "Invalid response shape") /\
     Loto7Fortune.normalize_fortune data
       = Throw (Error "Invalid response: prediction.tickets is missing")) /\
  (accepted (normalize_logic data) <->
     has_predictions_array data \/
     truthy_opt (get_opt (get_prop data "prediction") "numbers") = true) /\
  (~ accepted (normalize_logic data) ->
     normalize_logic data = Throw (Error "Invalid response shape")) /\
  (accepted (Loto7Fortune.normalize_fortune data) <->
     isArray (get_opt (get_prop data "prediction") "tickets") = true) /\
  (~ accepted (Loto7Fortune.normalize_fortune data) ->
     Loto7Fortune.normalize_fortune data
       = Throw (Error "Invalid response: prediction.tickets is missing")) /\
  (accepted (normalize_logic data) -> recognised data) /\
  (accepted (Loto7Fortune.normalize_fortune data) -> recognised data) /\
  (forall lt n res,
     fetch E (prediction_url E lt (round w) (drawDate w) n)
       (LotoAuth.outgoing tok GET) = Return res ->
     ok res = true -> json res = Return data ->
     result (fetchPredictionsFromEngine E lt n) w = normalize_logic data) /\
  (forall b n r d res,
     fetch E (Loto7Fortune.fortune_url E b n r d) (LotoAuth.outgoing tok GET)
       = Return res ->
     ok res = true -> json res = Return data ->
     result (Loto7Fortune.fetchFortuneOnce E b n r d) w
       = Loto7Fortune.normalize_fortune data).
Proof.
  intros tok.
  assert (Hl : ~ accepted (normalize_logic data) ->
               normalize_logic data = Throw (Error "Invalid response shape")).
  { unfold normalize_logic.
    destruct (get_prop data "predictions") as [[| | | |l|]|];
      try destruct (truthy_opt _); simpl; tauto. }
  assert (Hf : ~ accepted (Loto7Fortune.normalize_fortune data) ->
               Loto7Fortune.normalize_fortune data
                 = Throw (Error "Invalid response: prediction.tickets is missing")).
  { unfold Loto7Fortune.normalize_fortune. destruct (isArray _); simpl; tauto. }
  assert (Hla : accepted (normalize_logic data) -> recognised data).
  { intros H. apply normalize_logic_accepted in H as [H|H].
    - by left.
    - right. left. by apply truthy_opt_is_Some. }
  assert (Hfa : accepted (Loto7Fortune.normalize_fortune data) -> recognised data).
  { intros H. apply normalize_fortune_accepted in H.
    right. right. by apply isArray_is_Some. }
  split_and!.
  - intros Hn. split; [apply Hl | apply Hf]; tauto.
  - apply normalize_logic_accepted.
  - exact Hl.
  - apply normalize_fortune_accepted.
  - exact Hf.
  - exact Hla.
  - exact Hfa.
  - intros lt n res Hfetch Hok Hj.
    destruct (fetchPredictions_run lt n w) as (_ & _ & _ & _ & Hr).
    fold tok in Hr. rewrite Hr, Hfetch, (ok_not_401 _ Hok), Hok, Hj. simpl.
    unfold ok in Hok. apply andb_true_iff in Hok as [H1 H2].
    replace (status res =? 403) with false by lia. done.
  - intros b n r d res Hfetch Hok Hj.
    assert (Hrun := fetchWithAuth_run E w (Loto7Fortune.fortune_url E b n r d) GET).
    cbv zeta in Hrun. fold tok in Hrun.
    rewrite Hfetch, (ok_not_401 _ Hok) in Hrun.
    unfold Loto7Fortune.fetchFortuneOnce, result, bind. rewrite Hrun.
    rewrite Hok. unfold ok in Hok. apply andb_true_iff in Hok as [H1 H2].
    replace (status res =? 403) with false by lia. simpl.
    unfold await. rewrite Hj. reflexivity.
Qed.

End Pages.

(** C5 as stated fails on every page: the logic pages reject a payload
    that has [prediction.tickets] but no [prediction.numbers], also when
    it arrives as the body of a 200 answer; the fortune page rejects one
    that has [prediction.numbers] but no [prediction.tickets]. *)
Lemma C5_counterexample :
  recognised tickets_only /\
  ~ accepted (normalize_logic tickets_only) /\
  result (Loto6Logic.fetchPredictionsFromEngine
            (env_with (fun _ _ => respond 200 tickets_only)) 1) (world_with ∅)
    = Throw (Error "Invalid response shape") /\
  result (Loto7Logic.fetchPredictionsFromEngine
            (env_with (fun _ _ => respond 200 tickets_only)) 1) (world_with ∅)
    = Throw (Error "Invalid response shape") /\
  recognised numbers_only /\
  ~ accepted (Loto7Fortune.normalize_fortune numbers_only).
Proof.
  split_and!.
  - right. right. by eexists.
  - by vm_compute.
  - by vm_compute.
  - by vm_compute.
  - right. left. by eexists.
  - by vm_compute.
Qed.

(* ================================================================== *)
(** * 14. Explosion of a single envelope into records *)
(* ================================================================== *)

Section Explode.

Lemma slice0_nonneg {A} (l : list A) (n : Z) :
  0 <= n -> slice0 l n = take (Z.to_nat n) l.
Proof.
  intros Hn. unfold slice0. replace (n <? 0) with false by lia.
  destruct (decide (n <= Z.of_nat (length l))) as [Hle|Hgt].
  - by rewrite Z.min_l.
  - rewrite Z.min_r by lia. rewrite Nat2Z.id.
    rewrite take_ge by done. by rewrite take_ge by lia.
Qed.

Lemma exploded_fields (json pred : JSON) (fixed : list JSON) (nums : JSON) :
  let r := Loto7Logic.exploded json pred fixed nums in
  exists p',
    get_prop r "prediction" = Some p' /\
    get_prop p' "numbers" = Some nums /\
    get_prop p' "fixed_numbers" = Some (JArr fixed) /\
    (forall k, k <> "numbers" -> k <> "fixed_numbers" ->
       get_prop p' k = spread pred !! k) /\
    (forall k, k <> "prediction" -> get_prop r k = spread json !! k).
Proof.
  eexists. unfold Loto7Logic.exploded. simpl. split_and!.
  - by rewrite lookup_insert_eq.
  - simpl. rewrite lookup_insert_ne by done. by rewrite lookup_insert_eq.
  - simpl. by rewrite lookup_insert_eq.
  - intros k H1 H2. simpl. by rewrite !lookup_insert_ne.
  - intros k H. by rewrite lookup_insert_ne.
Qed.

(** C1. For a single envelope (an object [m]) and a requested count
    [n >= 1], [showPredictions] of the loto7 logic page builds these
    records and, when the card of each can be built, writes one card per
    record into the page, enables the button and relabels it; when the
    card of one cannot be built it raises a TypeError and leaves the
    cards as they were. When [prediction.tickets] is a non-empty list
    there are [min(length(tickets), n)] records, the [i]-th built from
    the [i]-th ticket, so only the first [n] tickets are used. When
    [prediction.tickets] is absent or empty there is one record, built
    from [prediction.numbers]. Each record is a copy of the envelope in
    which [prediction] is a copy of the envelope's [prediction] with
    [numbers] replaced; [fixed_numbers] is the array of the envelope when
    it has one, and the empty array when the field is absent or is not an
    array. *)
Theorem C1_explode_envelope (E : Env) (m : gmap string JSON) (n : Z) (w : World) :
  let pred := js_or (m !! "prediction") (JObj ∅) in
  let tickets := array_or_empty (get_prop pred "tickets") in
  let base := if (length tickets =? 0)%nat
              then [js_or (get_prop pred "numbers") (JArr [])]
              else tickets in
  let records := Loto7Logic.showPredictions_list (JObj m) n in
  let c := Loto7Logic.showPredictions E (JObj m) n in
  1 <= n ->
  (forallb Loto7Logic.renderable records = true ->
     result c w = Return tt /\
     predictionCards_innerHTML (dom (final c w)) = HtmlRecordCards records /\
     predictionCards_hidden (dom (final c w)) = false /\
     issueButton_disabled (dom (final c w)) = false /\
     issueButton_textContent (dom (final c w)) = TEXT_REISSUE) /\
  (forallb Loto7Logic.renderable records = false ->
     result c w = Throw (TypeError (type_error_message E)) /\
     predictionCards_innerHTML (dom (final c w)) = predictionCards_innerHTML (dom w)) /\
  (tickets <> [] -> length records = Nat.min (length tickets) (Z.to_nat n)) /\
  (tickets = [] -> length records = 1%nat) /\
  (forall i nums, base !! i = Some nums -> (i < Z.to_nat n)%nat ->
     exists r, records !! i = Some r) /\
  (forall i r, records !! i = Some r ->
     exists nums p',
       base !! i = Some nums /\
       (i < Z.to_nat n)%nat /\
       get_prop r "prediction" = Some p' /\
       get_prop p' "numbers" = Some nums /\
       (forall f, get_prop pred "fixed_numbers" = Some (JArr f) ->
          get_prop p' "fixed_numbers" = Some (JArr f)) /\
       (isArray (get_prop pred "fixed_numbers") = false ->
          get_prop p' "fixed_numbers" = Some (JArr [])) /\
       (forall k, k <> "numbers" -> k <> "fixed_numbers" ->
          get_prop p' k = spread pred !! k) /\
       (forall k, k <> "prediction" -> get_prop r k = m !! k)).
Proof.
  intros pred tickets base records c Hn.
  set (fixed := array_or_empty (get_prop pred "fixed_numbers")).
  assert (Hrec : records = map (Loto7Logic.exploded (JObj m) pred fixed)
                             (take (Z.to_nat n) base)).
  { unfold records, Loto7Logic.showPredictions_list. simpl.
    fold pred. fold tickets. fold fixed. fold base.
    by rewrite slice0_nonneg by lia. }
  assert (Hbase : base <> []).
  { unfold base. destruct (length tickets =? 0)%nat eqn:Hl; [done|].
    apply Nat.eqb_neq in Hl. by destruct tickets. }
  assert (Hcards : Loto7Logic.render_cards records = HtmlRecordCards records).
  { rewrite Hrec. destruct base as [|b0 base']; [done|].
    destruct (Z.to_nat n) as [|k] eqn:Hk; [lia|]. done. }
  split_and!.
  - intros Hren. subst c. unfold Loto7Logic.showPredictions. fold records.
    unfold result, final, bind, modify_dom, setButtonLoading, throw.
    rewrite Hren, Hcards. by cbn.
  - intros Hren. subst c. unfold Loto7Logic.showPredictions. fold records.
    unfold result, final, bind, modify_dom, setButtonLoading, throw.
    rewrite Hren. by cbn.
  - intros Hne. rewrite Hrec, length_map, length_take. unfold base.
    destruct (length tickets =? 0)%nat eqn:Hl; [|lia].
    apply Nat.eqb_eq in Hl. by destruct tickets.
  - intros He. rewrite Hrec, length_map, length_take. unfold base.
    rewrite He. simpl. lia.
  - intros i nums Hb Hi. rewrite Hrec, list_lookup_fmap, lookup_take_lt by done.
    rewrite Hb. by eexists.
  - intros i r Hr. rewrite Hrec, list_lookup_fmap in Hr.
    destruct (take (Z.to_nat n) base !! i) as [nums|] eqn:Ht; [|done].
    injection Hr as <-.
    assert (Hi : (i < Z.to_nat n)%nat).
    { apply lookup_lt_Some in Ht. rewrite length_take in Ht. lia. }
    rewrite lookup_take_lt in Ht by done.
    destruct (exploded_fields (JObj m) pred fixed nums)
      as (p' & H1 & H2 & H3 & H4 & H5).
    exists nums, p'. split_and!; try done.
    + intros f Hf. rewrite H3. unfold fixed. by rewrite Hf.
    + intros Hf. rewrite H3. unfold fixed.
      by destruct (get_prop pred "fixed_numbers") as [[| | | |f|]|].
Qed.

End Explode.

(** The example of the specification: two tickets, [fixed_numbers = [1]],
    count 2. *)
Lemma C1_explode_envelope_witness :
  predictionCards_innerHTML
    (dom (final (Loto7Logic.showPredictions (env_with (always 200 JNull)) (JObj two_tickets) 2)
            (world_with ∅)))
    = HtmlRecordCards (Loto7Logic.showPredictions_list (JObj two_tickets) 2) /\
  length (Loto7Logic.showPredictions_list (JObj two_tickets) 2) = 2%nat.
Proof.
  assert (Hn : 1 <= 2) by lia.
  destruct (C1_explode_envelope (env_with (always 200 JNull)) two_tickets 2
              (world_with ∅) Hn) as (Hshow & _ & Hlen & _).
  split.
  - destruct (Hshow eq_refl) as (_ & H & _). exact H.
  - apply Hlen. discriminate.
Defined.

(** C1 as stated fails for an envelope without [fixed_numbers]: the
    record rendered has [prediction.fixed_numbers = []], a field the
    envelope does not have, so the field is not carried through
    unchanged. *)
Lemma C1_counterexample :
  let c := Loto7Logic.showPredictions (env_with (always 200 JNull)) (JObj no_fixed) 1 in
  exists r,
    predictionCards_innerHTML (dom (final c (world_with ∅))) = HtmlRecordCards [r] /\
    get_opt (no_fixed !! "prediction") "tickets" = Some (JArr [ticket_of [1; 2; 3]]) /\
    get_opt (no_fixed !! "prediction") "fixed_numbers" = None /\
    get_opt (get_prop r "prediction") "fixed_numbers" = Some (JArr []) /\
    get_opt (get_prop r "prediction") "fixed_numbers"
      <> get_opt (no_fixed !! "prediction") "fixed_numbers".
Proof.
  eexists. split_and!.
  - vm_compute. reflexivity.
  - vm_compute. reflexivity.
  - vm_compute. reflexivity.
  - vm_compute. reflexivity.
  - vm_compute. discriminate.
Qed.

Example explode_two_tickets :
  map (fun r => get_opt (get_prop r "prediction") "numbers")
    (Loto7Logic.showPredictions_list (JObj two_tickets) 2)
  = [Some (ticket_of [1; 2; 3]); Some (ticket_of [4; 5; 6])] /\
  map (fun r => get_opt (get_prop r "prediction") "fixed_numbers")
    (Loto7Logic.showPredictions_list (JObj two_tickets) 2)
  = [Some (ticket_of [1]); Some (ticket_of [1])] /\
  map (fun r => get_prop r "meta")
    (Loto7Logic.showPredictions_list (JObj two_tickets) 2)
  = [two_tickets !! "meta"; two_tickets !! "meta"] /\
  length (Loto7Logic.showPredictions_list (JObj two_tickets) 1) = 1%nat.
Proof. by vm_compute. Qed.

(* ================================================================== *)
(** * 15. The numeric ticket generator *)
(* ================================================================== *)

Lemma round53_small (x : Z) : Z.abs x < 2 ^ 53 -> round53 x = x.
Proof.
  intros H. unfold round53.
  destruct (Z.eq_dec (Z.abs x) 0) as [H0|H0].
  - rewrite H0. reflexivity.
  - assert (Z.log2 (Z.abs x) < 53) by (apply Z.log2_lt_pow2; lia).
    destruct (Z.leb_spec (Z.log2 (Z.abs x) - 52) 0); [done|lia].
Qed.

Lemma DENOM_split : DENOM = 2 ^ 1021 * 2 ^ 53.
Proof. unfold DENOM. rewrite <- Z.pow_add_r by lia. reflexivity. Qed.

(** The rounded value of a nonnegative number: between the two
    neighbours, and up only from the middle on. *)
Lemma round53_cases (x : Z) :
  0 <= x -> 0 < Z.log2 x - 52 ->
  let s := Z.log2 x - 52 in
  let m := x / 2 ^ s in
  (round53 x = m * 2 ^ s \/
   (round53 x = (m + 1) * 2 ^ s /\ 2 ^ (s - 1) <= x mod 2 ^ s)).
Proof.
  intros Hx Hs s m. unfold round53.
  rewrite Z.abs_eq by done. fold s.
  destruct (Z.leb_spec s 0); [lia|]. fold m.
  assert (0 < x) by (destruct (Z.eq_dec x 0) as [->|]; [simpl in Hs; lia|lia]).
  rewrite Z.sgn_pos by done. rewrite Z.mul_1_l.
  destruct (Z.ltb_spec (x mod 2 ^ s) (2 ^ (s - 1))); [by left|].
  destruct (Z.ltb_spec (2 ^ (s - 1)) (x mod 2 ^ s)); [by right|].
  destruct (Z.even m); [by left|by right].
Qed.

Lemma round53_product (k n : Z) :
  0 <= k <= DENOM - 2 ^ 1021 -> 1 <= n <= 2 ^ 53 ->
  0 <= round53 (k * n) < n * DENOM.
Proof.
  intros Hk Hn.
  assert (HT : 0 < 2 ^ 1021) by (apply Z.pow_pos_nonneg; lia).
  assert (HD := DENOM_split).
  set (T := 2 ^ 1021) in *. set (D := DENOM) in *.
  set (x := k * n).
  assert (Hx0 : 0 <= x) by (unfold x; nia).
  assert (HxD : x <= n * D - n * T) by (unfold x; nia).
  destruct (Z.le_gt_cases (Z.log2 x - 52) 0) as [Hs|Hs].
  { assert (round53 x = x) as ->.
    { unfold round53. rewrite Z.abs_eq by done.
      destruct (Z.leb_spec (Z.log2 x - 52) 0); [done|lia]. }
    nia. }
  assert (Hxpos : 0 < x).
  { destruct (Z.eq_dec x 0) as [E|]; [rewrite E in Hs; simpl in Hs; lia|lia]. }
  destruct (round53_cases x Hx0 Hs) as [Hr|[Hr Hup]]; cbv zeta in *.
  all: set (s := Z.log2 x - 52) in *.
  all: assert (HP : 0 < 2 ^ s) by (apply Z.pow_pos_nonneg; lia).
  all: assert (Hdm := Z.div_mod x (2 ^ s) ltac:(lia)).
  all: assert (Hmod := Z.mod_pos_bound x (2 ^ s) HP).
  all: assert (Hm0 : 0 <= x / 2 ^ s) by (apply Z.div_pos; lia).
  - rewrite Hr. split; [nia|]. nia.
  - rewrite Hr. split; [nia|].
    (* the logarithm *)
    destruct (Z.log2_spec x Hxpos) as [Hlo Hhi].
    assert (Hlog : Z.log2 x = s + 52) by (unfold s; lia).
    rewrite Hlog in Hlo. rewrite Z.pow_add_r in Hlo by lia.
    (* s <= 1074 *)
    assert (Hs74 : s <= 1074).
    { destruct (Z.le_gt_cases s 1074) as [|Hbig]; [done|exfalso].
      assert (2 ^ 1075 <= 2 ^ s) by (apply Z.pow_le_mono_r; lia).
      assert (2 ^ 1075 = D * 2) as Heq.
      { unfold D, DENOM. by vm_compute. }
      assert (0 < D) by (rewrite HD; nia).
      assert (x < n * D) by nia.
      assert (n * D <= 2 ^ 53 * D) by nia.
      assert (D * 2 * 2 ^ 52 <= x) by nia.
      assert (2 ^ 53 = 2 * 2 ^ 52) by reflexivity.
      nia. }
    set (P := 2 ^ s) in *.
    assert (HDP : D = P * 2 ^ (1074 - s)).
    { unfold D, DENOM, P. rewrite <- Z.pow_add_r by lia. f_equal. lia. }
    assert (HQ : 0 < 2 ^ (1074 - s)) by (apply Z.pow_pos_nonneg; lia).
    set (Qq := 2 ^ (1074 - s)) in *.
    assert (Hhalf : P = 2 * 2 ^ (s - 1)).
    { unfold P. rewrite <- (Z.pow_succ_r 2 (s - 1)) by lia. f_equal. lia. }
    set (H := 2 ^ (s - 1)) in *.
    set (m := x / P) in *.
    assert (Hlt : m < n * Qq).
    { apply (Z.mul_lt_mono_pos_l P); [done|]. nia. }
    assert (Hle : (m + 1) * P <= n * D) by nia.
    destruct (Z.eq_dec ((m + 1) * P) (n * D)) as [Heq|]; [exfalso|lia].
    assert (n * T <= H) by nia.
    assert (2 ^ 53 = 2 * 2 ^ 52) by reflexivity.
    assert (n * D = n * T * 2 ^ 53) by (rewrite HD; ring).
    nia.
Qed.

Lemma double_below_one (k : Z) :
  0 <= k < DENOM -> round53 k = k -> k <= DENOM - 2 ^ 1021.
Proof.
  intros Hk Hr.
  assert (HT : 0 < 2 ^ 1021) by (apply Z.pow_pos_nonneg; lia).
  assert (HD := DENOM_split).
  assert (H73 : 2 ^ 1073 = 2 ^ 1021 * 2 ^ 52).
  { rewrite <- Z.pow_add_r by lia. reflexivity. }
  assert (H53 : 2 ^ 53 = 2 * 2 ^ 52) by reflexivity.
  set (T := 2 ^ 1021) in *. set (D := DENOM) in *.
  destruct (Z.lt_ge_cases k (2 ^ 1073)) as [Hlow|Hhigh]; [nia|].
  assert (Hlog : Z.log2 k = 1073).
  { apply Z.log2_unique; [lia|]. split; [done|].
    replace (1073 + 1) with 1074 by lia. exact (proj2 Hk). }
  assert (Hs : 0 < Z.log2 k - 52) by lia.
  destruct (round53_cases k ltac:(lia) Hs) as [Hc|[Hc _]]; cbv zeta in *;
    rewrite Hlog in Hc; change (1073 - 52) with 1021 in Hc; fold T in Hc;
    rewrite Hr in Hc.
  - set (m := k / T) in *. assert (m < 2 ^ 53) by nia. nia.
  - set (m := k / T) in *. assert (m + 1 < 2 ^ 53) by nia. nia.
Qed.

(** The numerator of a double of the interval [0, 1). *)
Lemma double_numerator (r : Q) :
  is_double r = true -> (0 <= r)%Q -> (r < 1)%Q ->
  0 <= Qfloor (r * inject_Z DENOM) <= DENOM - 2 ^ 1021.
Proof.
  intros Hd H0 H1.
  set (k := Qfloor (r * inject_Z DENOM)).
  unfold is_double in Hd. fold k in Hd. apply andb_true_iff in Hd as [Hint Hrep].
  apply Qeq_bool_iff in Hint. apply Z.eqb_eq in Hrep.
  assert (HDpos : 0 < DENOM) by (unfold DENOM; apply Z.pow_pos_nonneg; lia).
  assert (Hk : 0 <= k < DENOM).
  { assert (0 <= inject_Z k)%Q as Ha.
    { rewrite Hint. apply Qmult_le_0_compat; [done|]. unfold Qle; simpl; lia. }
    assert (inject_Z k < inject_Z DENOM)%Q as Hb.
    { rewrite Hint. rewrite <- (Qmult_1_l (inject_Z DENOM)) at 2.
      apply Qmult_lt_compat_r; [|done]. unfold Qlt; simpl; lia. }
    change 0%Q with (inject_Z 0) in Ha.
    rewrite <- Zle_Qle in Ha. rewrite <- Zlt_Qlt in Hb. lia. }
  assert (Hk' := double_below_one k Hk Hrep). lia.
Qed.

Section Generator.

Variable rnd : nat -> Q.
Variables min max total : Z.

Lemma elem_of_set_add (x y : Z) (s : list Z) :
  y ∈ set_add x s <-> y = x \/ y ∈ s.
Proof.
  unfold set_add. destruct (decide (x ∈ s)) as [Hin|Hout].
  - split; [by right|]. by intros [->|H].
  - rewrite elem_of_app, list_elem_of_singleton. tauto.
Qed.

Lemma NoDup_set_add (x : Z) (s : list Z) : NoDup s -> NoDup (set_add x s).
Proof.
  intros H. unfold set_add. destruct (decide (x ∈ s)) as [Hin|Hout]; [done|].
  apply NoDup_app. split_and!; [done| |apply NoDup_singleton].
  intros y Hy Hx. apply list_elem_of_singleton in Hx as ->. done.
Qed.

Lemma length_set_add (x : Z) (s : list Z) :
  length (set_add x s) = if decide (x ∈ s) then length s else S (length s).
Proof.
  unfold set_add. destruct (decide (x ∈ s)); [done|].
  rewrite length_app. simpl. lia.
Qed.

Lemma foldl_set_add_NoDup (l acc : list Z) :
  NoDup (acc ++ l) -> foldl (fun s x => set_add x s) acc l = acc ++ l.
Proof.
  revert acc. induction l as [|x l IH]; intros acc H; simpl.
  - by rewrite app_nil_r.
  - assert (Hx : x ∉ acc).
    { apply NoDup_app in H as (_ & H & _). intros Hin. apply (H x Hin). left. }
    unfold set_add at 2. destruct (decide (x ∈ acc)); [done|].
    rewrite IH; rewrite <- app_assoc; done.
Qed.

Lemma new_Set_NoDup (l : list Z) : NoDup l -> new_Set l = l.
Proof. intros H. unfold new_Set. by rewrite foldl_set_add_NoDup. Qed.

Lemma randInt_range (r : Q) :
  is_double r = true -> (0 <= r)%Q -> (r < 1)%Q ->
  - 2 ^ 51 <= min -> min <= max -> max <= 2 ^ 51 ->
  in_range min max (randInt r min max).
Proof.
  intros Hd H0 H1 Hlo Hmm Hhi. unfold in_range, randInt.
  assert (H51 : 2 ^ 51 = 2251799813685248) by reflexivity.
  assert (H53 : 2 ^ 53 = 9007199254740992) by reflexivity.
  rewrite (round53_small (max - min)) by lia.
  rewrite (round53_small (max - min + 1)) by lia.
  assert (Hk := double_numerator r Hd H0 H1).
  set (k := Qfloor (r * inject_Z DENOM)) in *.
  assert (HDpos : 0 < DENOM) by (unfold DENOM; apply Z.pow_pos_nonneg; lia).
  destruct (round53_product k (max - min + 1) Hk ltac:(lia)) as [Hp0 Hp1].
  set (p := round53 (k * (max - min + 1))) in *.
  assert (0 <= p / DENOM < max - min + 1).
  { split; [apply Z.div_pos; lia|]. apply Z.div_lt_upper_bound; lia. }
  rewrite round53_small by lia. lia.
Qed.

Hypothesis Hunit : unit_interval rnd.
Hypothesis Hroom : total <= max - min + 1.
Hypothesis Hsafe : - 2 ^ 51 <= min /\ max <= 2 ^ 51.

Lemma loop_inv_step (fixed set : list Z) (i : nat) :
  loop_inv min max total fixed set -> Z.of_nat (length set) < total ->
  loop_inv min max total fixed (set_add (randInt (rnd i) min max) set).
Proof.
  intros (Hnd & Hr & Hlen & Hfix) Hlt. split_and!.
  - by apply NoDup_set_add.
  - apply Forall_forall. intros y Hy. apply elem_of_set_add in Hy as [->|Hy].
    + destruct (Hunit i) as (? & ? & ?). apply randInt_range; [done|done|done|lia|lia|lia].
    + by eapply Forall_forall in Hr.
  - rewrite length_set_add. destruct (decide _); lia.
  - intros x Hx. apply elem_of_set_add. right. by apply Hfix.
Qed.

Lemma generate_loop_sound (fixed : list Z) (fuel : nat) :
  forall (set : list Z) (i : nat) (set' : list Z) (i' : nat),
    loop_inv min max total fixed set ->
    generate_loop rnd min max total fuel set i = Some (set', i') ->
    loop_inv min max total fixed set' /\ Z.of_nat (length set') = total.
Proof.
  induction fuel as [|fuel IH]; intros set i set' i' Hinv Hrun; simpl in Hrun.
  - destruct (Z.of_nat (length set) <? total) eqn:Hlt; [done|].
    injection Hrun as <- <-. split; [done|]. destruct Hinv as (_ & _ & Hle & _). lia.
  - destruct (Z.of_nat (length set) <? total) eqn:Hlt.
    + eapply IH; [|exact Hrun]. apply loop_inv_step; [done|lia].
    + injection Hrun as <- <-. split; [done|]. destruct Hinv as (_ & _ & Hle & _). lia.
Qed.

Lemma generate_loop_full (fuel : nat) (set : list Z) (i : nat) :
  total <= Z.of_nat (length set) ->
  generate_loop rnd min max total fuel set i = Some (set, i).
Proof.
  intros H. destruct fuel; simpl; by replace (_ <? _) with false by lia.
Qed.

Lemma generate_loop_mono (fuel : nat) :
  forall (fuel' : nat) (set : list Z) (i : nat) (r : list Z * nat),
    (fuel <= fuel')%nat ->
    generate_loop rnd min max total fuel set i = Some r ->
    generate_loop rnd min max total fuel' set i = Some r.
Proof.
  induction fuel as [|fuel IH]; intros fuel' set i r Hle Hrun; simpl in Hrun.
  - destruct (Z.of_nat (length set) <? total) eqn:Hlt; [done|].
    injection Hrun as <-. apply generate_loop_full. lia.
  - destruct (Z.of_nat (length set) <? total) eqn:Hlt.
    + destruct fuel' as [|fuel']; [lia|]. simpl. rewrite Hlt.
      apply IH; [lia|done].
    + injection Hrun as <-. apply generate_loop_full. lia.
Qed.

(** A set that does not fill the range misses one of its values. *)
Lemma exists_fresh (set : list Z) :
  NoDup set -> Forall (in_range min max) set ->
  Z.of_nat (length set) < max - min + 1 ->
  exists v, in_range min max v /\ v ∉ set.
Proof.
  intros Hnd Hr Hlen.
  destruct (decide (Forall (fun v => v ∈ set) (seqZ min (max - min + 1))))
    as [Hall|Hnot].
  - exfalso.
    assert (Hsub : seqZ min (max - min + 1) ⊆+ set).
    { apply NoDup_submseteq; [apply NoDup_seqZ|].
      intros x Hx. by eapply Forall_forall in Hall. }
    apply submseteq_length in Hsub. rewrite length_seqZ in Hsub. lia.
  - apply not_Forall_Exists in Hnot; [|intros x; apply _].
    apply Exists_exists in Hnot as (v & Hv & Hout).
    exists v. split; [|done]. apply elem_of_seqZ in Hv. unfold in_range. lia.
Qed.

Hypothesis Hfair : fair rnd min max.

(** Termination: by the number of values still to be found, and, while
    waiting for a value that is not yet in the set, by the distance to
    its next occurrence in the random sequence. *)
Lemma generate_loop_terminates (fixed : list Z) (d : nat) :
  forall (set : list Z) (i : nat),
    loop_inv min max total fixed set ->
    (Z.to_nat (total - Z.of_nat (length set)) <= d)%nat ->
    exists fuel r, generate_loop rnd min max total fuel set i = Some r.
Proof.
  induction d as [|d IHd]; intros set i Hinv Hd.
  - exists 0%nat, (set, i). apply generate_loop_full. lia.
  - destruct (decide (total <= Z.of_nat (length set))) as [Hfull|Hlt].
    { exists 0%nat, (set, i). by apply generate_loop_full. }
    destruct Hinv as (Hnd & Hr & Hle & Hfix).
    destruct (exists_fresh set Hnd Hr) as (v & Hv & Hout); [lia|].
    destruct (Hfair i v Hv) as (j & Hij & Hj).
    assert (Hwait : forall k i0, j = (i0 + k)%nat ->
              exists fuel r, generate_loop rnd min max total fuel set i0 = Some r).
    { induction k as [|k IHk]; intros i0 Hk.
      - replace (i0 + 0)%nat with i0 in Hk by lia. subst j.
        destruct (IHd (set_add v set) (S i0)) as (fuel & r & Hrun).
        + rewrite <- Hj. apply loop_inv_step; [done|lia].
        + rewrite length_set_add. destruct (decide _); [done|]. lia.
        + exists (S fuel), r. simpl. replace (_ <? _) with true by lia.
          by rewrite Hj.
      - set (x := randInt (rnd i0) min max).
        destruct (decide (x ∈ set)) as [Hin|Hnew].
        + destruct (IHk (S i0)) as (fuel & r & Hrun); [lia|].
          exists (S fuel), r. simpl. replace (_ <? _) with true by lia.
          fold x. unfold set_add. by destruct (decide (x ∈ set)).
        + destruct (IHd (set_add x set) (S i0)) as (fuel & r & Hrun).
          * apply loop_inv_step; [done|lia].
          * rewrite length_set_add. destruct (decide _); [done|]. lia.
          * exists (S fuel), r. simpl. by replace (_ <? _) with true by lia. }
    apply (Hwait (j - i)%nat i). lia.
Qed.

End Generator.

Lemma StronglySorted_le_lt (l : list Z) :
  StronglySorted Z.le l -> NoDup l -> StronglySorted Z.lt l.
Proof.
  induction 1 as [|x l Hs IH Hall]; intros Hnd; [constructor|].
  apply NoDup_cons in Hnd as [Hx Hnd]. constructor; [by apply IH|].
  apply Forall_forall. intros y Hy.
  assert (x <= y) by (by eapply Forall_forall in Hall).
  assert (x <> y) by (by intros ->). lia.
Qed.

Lemma sorted_ticket (c : GenConfig) (set : list Z) :
  loop_inv (cfg_min c) (cfg_max c) (cfg_total c)
    (default [] (cfg_fixedNumbers c)) set ->
  Z.of_nat (length set) = cfg_total c ->
  valid_ticket c (merge_sort Z.le set).
Proof.
  intros (Hnd & Hr & _ & Hfix) Hlen.
  assert (Hp : merge_sort Z.le set ≡ₚ set) by apply merge_sort_Permutation.
  split_and!.
  - by rewrite Hp.
  - by rewrite Hp.
  - by rewrite Hp.
  - apply StronglySorted_le_lt; [|by rewrite Hp].
    apply StronglySorted_merge_sort; apply _.
  - intros x Hx. rewrite Hp. by apply Hfix.
Qed.

Lemma loop_inv_init (c : GenConfig) :
  valid_config c ->
  new_Set (default [] (cfg_fixedNumbers c)) = default [] (cfg_fixedNumbers c) /\
  loop_inv (cfg_min c) (cfg_max c) (cfg_total c)
    (default [] (cfg_fixedNumbers c)) (default [] (cfg_fixedNumbers c)).
Proof.
  intros (Hnd & Hr & Hlen & _). split; [by apply new_Set_NoDup|].
  by split_and!.
Qed.

(** C2. Take a configuration whose fixed numbers are distinct and within
    [min, max], with [len(fixedNumbers) <= total <= max - min + 1] and
    bounds of magnitude at most [2^51], and any run of [Math.random()]
    (doubles of [0,1)). Whenever [generateUniqueNumbersWithFixed]
    returns, it returns exactly [total] distinct integers within
    [min, max], in ascending order, among them every fixed number. It
    does return, after finitely many draws, when every value of the range
    keeps occurring in the random sequence; the loop has no other way
    out. When [len(fixedNumbers) = total] it returns the fixed numbers in
    ascending order and draws nothing. *)
Theorem C2_generator (rnd : nat -> Q) (c : GenConfig) :
  let fixed := default [] (cfg_fixedNumbers c) in
  valid_config c ->
  unit_interval rnd ->
  (forall fuel ticket draws,
     generateUniqueNumbersWithFixed rnd fuel c = Some (ticket, draws) ->
     valid_ticket c ticket) /\
  (fair rnd (cfg_min c) (cfg_max c) ->
   exists fuel ticket draws,
     (forall fuel', (fuel <= fuel')%nat ->
        generateUniqueNumbersWithFixed rnd fuel' c = Some (ticket, draws)) /\
     valid_ticket c ticket) /\
  (Z.of_nat (length fixed) = cfg_total c ->
   forall fuel,
     generateUniqueNumbersWithFixed rnd fuel c = Some (merge_sort Z.le fixed, 0%nat) /\
     merge_sort Z.le fixed ≡ₚ fixed /\
     StronglySorted Z.lt (merge_sort Z.le fixed)).
Proof.
  intros fixed Hvalid Hunit.
  destruct (loop_inv_init c Hvalid) as [Hset Hinv]. fold fixed in Hset, Hinv.
  assert (Hroom : cfg_total c <= cfg_max c - cfg_min c + 1) by apply Hvalid.
  assert (Hsafe : - 2 ^ 51 <= cfg_min c /\ cfg_max c <= 2 ^ 51) by apply Hvalid.
  assert (Hsound : forall fuel ticket draws,
            generateUniqueNumbersWithFixed rnd fuel c = Some (ticket, draws) ->
            valid_ticket c ticket).
  { intros fuel ticket draws. unfold generateUniqueNumbersWithFixed.
    fold fixed. rewrite Hset.
    destruct (generate_loop _ _ _ _ _ _ _) as [[set i]|] eqn:Hrun; [|done].
    intros [= <- <-].
    destruct (generate_loop_sound rnd _ _ _ Hunit Hroom Hsafe fixed fuel _ _ _ _ Hinv Hrun).
    by apply sorted_ticket. }
  split_and!.
  - exact Hsound.
  - intros Hfair.
    destruct (generate_loop_terminates rnd _ _ _ Hunit Hroom Hsafe Hfair fixed _ fixed 0%nat
                Hinv (le_n _)) as (fuel & [set i] & Hrun).
    exists fuel, (merge_sort Z.le set), i.
    assert (Hgen : forall fuel', (fuel <= fuel')%nat ->
              generateUniqueNumbersWithFixed rnd fuel' c
                = Some (merge_sort Z.le set, i)).
    { intros fuel' Hle. unfold generateUniqueNumbersWithFixed.
      fold fixed. rewrite Hset.
      by rewrite (generate_loop_mono rnd _ _ _ fuel fuel' _ _ _ Hle Hrun). }
    split; [exact Hgen|]. eapply Hsound. by apply (Hgen fuel).
  - intros Hlen fuel. split_and!.
    + unfold generateUniqueNumbersWithFixed. fold fixed. rewrite Hset.
      rewrite generate_loop_full by lia. done.
    + apply merge_sort_Permutation.
    + apply StronglySorted_le_lt.
      * apply StronglySorted_merge_sort; apply _.
      * rewrite merge_sort_Permutation. apply Hvalid.
Qed.

(* ================================================================== *)
(** * 16. The statements at concrete inputs *)
(* ================================================================== *)

Lemma round_robin_table (i : nat) :
  is_double (round_robin i) = true /\
  (0 <= round_robin i)%Q /\ (round_robin i < 1)%Q /\
  randInt (round_robin i) 1 43 = Z.of_nat (i mod 43) + 1.
Proof.
  assert (Hall : forallb (fun k : nat =>
                   is_double (round_robin k) && Qle_bool 0 (round_robin k) &&
                   negb (Qle_bool 1 (round_robin k)) &&
                   (randInt (round_robin k) 1 43 =? Z.of_nat k + 1))
                   (seq 0 43) = true) by (vm_compute; reflexivity).
  rewrite forallb_forall in Hall.
  assert (Hlt : (i mod 43 < 43)%nat) by (apply Nat.mod_upper_bound; lia).
  assert (Hin : In (i mod 43)%nat (seq 0 43)) by (apply in_seq; lia).
  apply Hall in Hin.
  assert (Hsame : round_robin (i mod 43) = round_robin i).
  { unfold round_robin. by rewrite Nat.Div0.mod_mod. }
  rewrite Hsame in Hin.
  apply andb_true_iff in Hin as [Hin H4]. apply andb_true_iff in Hin as [Hin H3].
  apply andb_true_iff in Hin as [H1 H2].
  split_and!.
  - exact H1.
  - by apply Qle_bool_iff.
  - apply Qnot_le_lt. intros Hle. apply Qle_bool_iff in Hle.
    rewrite Hle in H3. discriminate H3.
  - lia.
Qed.

Lemma round_robin_unit : unit_interval round_robin.
Proof. intros i. destruct (round_robin_table i) as (? & ? & ? & _). done. Qed.

Lemma round_robin_randInt (i : nat) :
  randInt (round_robin i) 1 43 = Z.of_nat (i mod 43) + 1.
Proof. apply round_robin_table. Qed.

Lemma round_robin_fair : fair round_robin 1 43.
Proof.
  intros k v Hv. exists (k * 43 + Z.to_nat (v - 1))%nat. split; [lia|].
  rewrite round_robin_randInt.
  rewrite Nat.add_comm, Nat.Div0.mod_add, Nat.mod_small by lia. lia.
Qed.

Lemma loto6_config_valid : valid_config loto6_config.
Proof.
  unfold valid_config, loto6_config, in_range. simpl. split_and!; [|
    repeat constructor; lia | lia | lia | lia | lia].
  apply NoDup_cons. split; [|apply NoDup_singleton].
  intros H. apply list_elem_of_singleton in H. lia.
Qed.

Lemma C2_generator_witness :
  exists fuel ticket draws,
    generateUniqueNumbersWithFixed round_robin fuel loto6_config
      = Some (ticket, draws) /\
    valid_ticket loto6_config ticket.
Proof.
  destruct (C2_generator round_robin loto6_config loto6_config_valid round_robin_unit)
    as (_ & H & _).
  destruct (H round_robin_fair) as (fuel & ticket & draws & Hgen & Hv).
  exists fuel, ticket, draws. split; [apply Hgen; lia | exact Hv].
Defined.

Example generate_loto6 :
  generateUniqueNumbersWithFixed round_robin 10 loto6_config
    = Some ([1; 2; 3; 4; 11; 22], 4%nat) /\
  generateUniqueNumbersWithFixed round_robin 3 loto6_config = None /\
  generateUniqueNumbersWithFixed round_robin 0
    {| cfg_min := 1; cfg_max := 43; cfg_total := 2; cfg_fixedNumbers := Some [22; 11] |}
    = Some ([11; 22], 0%nat).
Proof. by vm_compute. Qed.

(** The rounding at work. The double [0.4883720930232558] is
    [549858094039421 / 2^50]; its exact product with 43 lies below 21,
    the rounded product is 21, and [randInt(1, 43)] is 22. Above [2^53]
    the odd integers are not doubles, and a tie goes to the even
    neighbour. With an empty range, [randInt(5, 3)] on the double [0.5]
    is 4. *)
Example randInt_rounds :
  is_double (549858094039421 # 1125899906842624) = true /\
  Qfloor ((549858094039421 # 1125899906842624) * 43) = 20 /\
  randInt (549858094039421 # 1125899906842624) 1 43 = 22 /\
  round53 (2 ^ 53 + 1) = 2 ^ 53 /\
  round53 (2 ^ 53 + 3) = 2 ^ 53 + 4 /\
  randInt (1 # 2) 5 3 = 4.
Proof. by vm_compute. Qed.

(** A loop whose draws all fall in a list shorter than [total] never
    fills the set. *)
Lemma generate_loop_confined (rnd : nat -> Q) (min max total : Z) (allowed : list Z)
    (fuel : nat) :
  (forall i, randInt (rnd i) min max ∈ allowed) ->
  Z.of_nat (length allowed) < total ->
  forall (set : list Z) (i : nat),
    NoDup set -> (forall x, x ∈ set -> x ∈ allowed) ->
    generate_loop rnd min max total fuel set i = None.
Proof.
  intros Hin Hshort.
  induction fuel as [|fuel IH]; intros set i Hnd Hsub; simpl;
    assert (Hlen : (length set <= length allowed)%nat)
      by (apply submseteq_length, NoDup_submseteq; done);
    replace (Z.of_nat (length set) <? total) with true by lia; [done|].
  apply IH; [by apply NoDup_set_add|].
  intros y Hy. apply elem_of_set_add in Hy as [->|Hy]; [apply Hin|by apply Hsub].
Qed.

(** Between [2^53] and [2^53 + 2] the sum of [randInt] is rounded to one
    of the two bounds. *)
Lemma randInt_wide (r : Q) :
  is_double r = true -> (0 <= r)%Q -> (r < 1)%Q ->
  randInt r (2 ^ 53) (2 ^ 53 + 2) ∈ [2 ^ 53; 2 ^ 53 + 2].
Proof.
  intros Hd H0 H1. unfold randInt.
  assert (Hk := double_numerator r Hd H0 H1).
  set (k := Qfloor (r * inject_Z DENOM)) in *.
  replace (round53 (round53 (2 ^ 53 + 2 - 2 ^ 53) + 1)) with 3 by reflexivity.
  assert (HDpos : 0 < DENOM) by (unfold DENOM; apply Z.pow_pos_nonneg; lia).
  assert (H3 : 1 <= 3 <= 2 ^ 53) by (split; [lia|by vm_compute]).
  destruct (round53_product k 3 Hk H3) as [Hp0 Hp1].
  set (p := round53 (k * 3)) in *.
  assert (Hj : 0 <= p / DENOM < 3).
  { split; [apply Z.div_pos; lia|]. apply Z.div_lt_upper_bound; lia. }
  assert (Hcase : p / DENOM = 0 \/ p / DENOM = 1 \/ p / DENOM = 2) by lia.
  destruct Hcase as [-> | [-> | ->]].
  - replace (round53 (0 + 2 ^ 53)) with (2 ^ 53) by reflexivity.
    rewrite !elem_of_cons. auto.
  - replace (round53 (1 + 2 ^ 53)) with (2 ^ 53) by reflexivity.
    rewrite !elem_of_cons. auto.
  - replace (round53 (2 + 2 ^ 53)) with (2 ^ 53 + 2) by reflexivity.
    rewrite !elem_of_cons. auto.
Qed.

Lemma stuck_unit : unit_interval stuck.
Proof. intros i. split; [reflexivity|]. split; [done|reflexivity]. Qed.

(** C2 as stated fails twice. The loop has no cap: on a run of
    [Math.random()] that keeps returning 0 the configuration of the
    loto6 mock, which meets every condition of the claim, only ever draws
    the number 1, and the function does not return, however long it runs.
    And the sums are sums of doubles: between [2^53] and [2^53 + 2] lie
    three integers, so a [total] of 3 meets the conditions of the claim,
    but every draw is rounded to one of the two bounds, and the function
    does not return on any run of [Math.random()]. *)
Lemma C2_counterexample :
  (let c := loto6_config in
   let fixed := default [] (cfg_fixedNumbers c) in
   NoDup fixed /\
   Forall (in_range (cfg_min c) (cfg_max c)) fixed /\
   0 <= Z.of_nat (length fixed) <= cfg_total c /\
   cfg_max c - cfg_min c + 1 >= cfg_total c /\
   unit_interval stuck /\
   forall fuel, generateUniqueNumbersWithFixed stuck fuel c = None) /\
  (let c := wide_config in
   let fixed := default [] (cfg_fixedNumbers c) in
   NoDup fixed /\
   Forall (in_range (cfg_min c) (cfg_max c)) fixed /\
   0 <= Z.of_nat (length fixed) <= cfg_total c /\
   cfg_max c - cfg_min c + 1 >= cfg_total c /\
   forall rnd fuel, unit_interval rnd ->
     generateUniqueNumbersWithFixed rnd fuel c = None).
Proof.
  split.
  - cbn zeta. split_and!.
    + apply NoDup_cons. split; [|apply NoDup_singleton].
      rewrite list_elem_of_singleton. lia.
    + repeat constructor; simpl; lia.
    + simpl; lia.
    + simpl; lia.
    + simpl; lia.
    + exact stuck_unit.
    + intros fuel. unfold generateUniqueNumbersWithFixed.
      rewrite (generate_loop_confined stuck 1 43 6 [11; 22; 1]); [done| |simpl; lia| |].
      * intros i. replace (randInt (stuck i) 1 43) with 1 by reflexivity.
        rewrite !elem_of_cons. auto.
      * change (new_Set (default [] (cfg_fixedNumbers loto6_config))) with [11; 22].
        apply NoDup_cons. split; [|apply NoDup_singleton].
        rewrite list_elem_of_singleton. lia.
      * change (new_Set (default [] (cfg_fixedNumbers loto6_config))) with [11; 22].
        intros x. rewrite !elem_of_cons. tauto.
  - cbn zeta. split_and!.
    + apply NoDup_nil_2.
    + constructor.
    + simpl; lia.
    + simpl; lia.
    + simpl; lia.
    + intros rnd fuel Hunit. unfold generateUniqueNumbersWithFixed.
      rewrite (generate_loop_confined rnd (2 ^ 53) (2 ^ 53 + 2) 3 [2 ^ 53; 2 ^ 53 + 2]);
        [done| |simpl; lia| |].
      * intros i. destruct (Hunit i) as (? & ? & ?). by apply randInt_wide.
      * apply NoDup_nil_2.
      * intros x Hx. simpl in Hx. by apply elem_of_nil in Hx.
Qed.

Lemma C3_unauthorized_logs_out_witness :
  result (LotoAuth.fetchWithAuth (env_with (always 401 JNull))
            (LotoAuth.me_url (env_with (always 401 JNull))) GET) logged_in
    = Throw (Error "Unauthorized").
Proof.
  exact (proj1 (C3_unauthorized_logs_out (env_with (always 401 JNull)) logged_in
                  (LotoAuth.me_url (env_with (always 401 JNull))) GET
                  {| status := 401; json := Return JNull |} eq_refl eq_refl)).
Defined.

Lemma C10_only_401_touches_session_witness :
  localStorage (final (LotoAuth.fetchWithAuth (env_with (always 403 JNull))
                         (LotoAuth.me_url (env_with (always 403 JNull))) GET) logged_in)
    = localStorage logged_in.
Proof.
  destruct (C10_only_401_touches_session (env_with (always 403 JNull)) logged_in
              (LotoAuth.me_url (env_with (always 403 JNull))) GET) as (H & _ & _).
  assert (Hs : status {| status := 403; json := Return JNull |} <> 401) by discriminate.
  exact (proj1 (proj2 (H _ eq_refl Hs))).
Defined.

Lemma C8_request_decoration_witness :
  LotoAuth.decorate (Some "tok")
    {| method := Some "POST"; headers := None; body := Some (BodyString "{}") |}
    !! "Authorization" = Some "Bearer tok" /\
  LotoAuth.decorate (Some "tok")
    {| method := Some "POST"; headers := None; body := Some (BodyString "{}") |}
    !! "Content-Type" = Some "application/json".
Proof.
  destruct (C8_request_decoration (env_with (always 200 JNull)) logged_in
              (LotoAuth.me_url (env_with (always 200 JNull)))
              {| method := Some "POST"; headers := None;
                 body := Some (BodyString "{}") |})
    as (_ & _ & _ & _ & Ha & _ & Hc & _).
  assert (Hne : "tok" <> "") by discriminate.
  split; [exact (Ha "tok" eq_refl Hne) | exact (Hc eq_refl eq_refl)].
Defined.

Lemma C9_requirePremium_witness :
  result (LotoAuth.requirePremium (env_with (always 200 premium_profile))) logged_in
    = Return true /\
  result (LotoAuth.requirePremium (env_with (always 500 JNull))) logged_in
    = Return false.
Proof.
  assert (Hne : "tok" <> "") by discriminate.
  split.
  - destruct (C9_requirePremium (env_with (always 200 premium_profile)) logged_in)
      as (_ & Hiff & _).
    apply Hiff.
    exists "tok", {| status := 200; json := Return premium_profile |}, premium_profile.
    split_and!; try reflexivity. exact Hne.
  - destruct (C9_requirePremium (env_with (always 500 JNull)) logged_in)
      as (_ & _ & _ & H).
    destruct (H "tok" eq_refl Hne) as (_ & Hres).
    destruct (Hres {| status := 500; json := Return JNull |} eq_refl) as (_ & Hnok & _).
    exact (Hnok eq_refl).
Defined.

Lemma C4_premium_required_routes_to_paywall_witness :
  paywall_shown (final (Loto7Logic.on_click (env_with (always 403 JNull)) "3") logged_in) /\
  paywall_shown (final (Loto6Logic.on_click
                          (env_with (fun u _ =>
                             if String.eqb (url_path u) "/draw/latest"
                             then respond 200 (JObj ∅)
                             else respond 403 JNull)) "3") logged_in).
Proof.
  split.
  - destruct (C4_premium_required_routes_to_paywall (env_with (always 403 JNull))
                "3" logged_in) as (_ & _ & _ & _ & _ & _ & _ & _ & H & _).
    exact (proj1 (H {| status := 403; json := Return JNull |} eq_refl eq_refl)).
  - destruct (C4_premium_required_routes_to_paywall
                (env_with (fun u _ =>
                   if String.eqb (url_path u) "/draw/latest"
                   then respond 200 (JObj ∅)
                   else respond 403 JNull))
                "3" logged_in) as (_ & _ & _ & _ & _ & _ & _ & _ & _ & H).
    assert (Hn : JObj ∅ <> JNull) by discriminate.
    exact (proj1 (H {| status := 200; json := Return (JObj ∅) |} (JObj ∅) (Fin 0) ""
                    {| status := 403; json := Return JNull |}
                    eq_refl eq_refl Hn eq_refl eq_refl eq_refl eq_refl)).
Defined.

Lemma C5_normalization_witness :
  normalize_logic (JObj ∅) = Throw (Error "Invalid response shape") /\
  result (fetchPredictionsFromEngine (env_with (always 200 numbers_only)) "loto7" 2)
    logged_in = normalize_logic numbers_only.
Proof.
  split.
  - destruct (C5_normalization (env_with (always 200 numbers_only)) (JObj ∅) logged_in)
      as (H & _).
    apply H. unfold recognised, has_predictions_array, has_prediction_numbers,
      has_prediction_tickets. simpl.
    intros [H1 | [[x H2] | [x H3]]]; discriminate.
  - destruct (C5_normalization (env_with (always 200 numbers_only)) numbers_only
                logged_in) as (_ & _ & _ & _ & _ & _ & _ & H & _).
    exact (H "loto7" 2 {| status := 200; json := Return numbers_only |}
             eq_refl eq_refl eq_refl).
Defined.

Lemma C6_loto6_draw_status_ignored_witness :
  exists ev, ev ∈ emitted (Loto6Logic.on_click (env_with draw_down) "1") logged_in /\
             is_prediction_request (env_with draw_down) ev = true.
Proof.
  exact (proj2 (C6_loto6_draw_status_ignored (env_with draw_down) "1" logged_in
                  {| status := 404; json := Return (JObj error_body) |} error_body
                  eq_refl eq_refl eq_refl (conj eq_refl eq_refl))).
Defined.

(** The loto6 handler with the draw endpoint down: the answer of the draw
    endpoint is taken for a draw, and the predictions are requested and
    displayed. *)
Example loto6_click_with_draw_down :
  let w' := final (Loto6Logic.on_click (env_with draw_down) "1") logged_in in
  map (fun ev => match ev with EvFetch u _ => url_path u | _ => "" end) (trace w')
    = ["/draw/latest"; "/engine/prediction"] /\
  round w' = Fin 0 /\
  predictionCards_innerHTML (dom w') = HtmlEmpty /\
  issueButton_disabled (dom w') = false.
Proof. by vm_compute. Qed.

(* ================================================================== *)
(** * 17. The click handlers of the logic pages, path by path *)
(* ================================================================== *)

Section Handlers.

Variable E : Env.

Lemma page_only_refl (w : World) : page_only w w.
Proof. by repeat split. Qed.

Lemma page_only_trans (w1 w2 w3 : World) :
  page_only w1 w2 -> page_only w2 w3 -> page_only w1 w3.
Proof.
  intros (A1 & A2 & A3 & A4 & A5) (B1 & B2 & B3 & B4 & B5).
  repeat split; congruence.
Qed.

Lemma on_failure_run (e : JsError) (w : World) :
  result (on_failure e) w = Return tt /\
  page_only w (final (on_failure e) w) /\
  settled (final (on_failure e) w) /\
  predictionCards_innerHTML (dom (final (on_failure e) w)) =
    (if is_premium_required e then HtmlPremiumWall else HtmlErrorCard TEXT_RETRY_LATER) /\
  issueButton_textContent (dom (final (on_failure e) w)) = TEXT_ISSUE.
Proof. unfold on_failure. by destruct (is_premium_required e). Qed.

(** The world [fetchPredictionsFromEngine] leaves is the one
    [fetchWithAuth] leaves. *)
Lemma fetchPredictions_final (lt : string) (n : Z) (w : World) :
  final (fetchPredictionsFromEngine E lt n) w =
  final (LotoAuth.fetchWithAuth E (prediction_url E lt (round w) (drawDate w) n) GET) w.
Proof.
  unfold fetchPredictionsFromEngine, final, bind, get_world. cbn beta iota.
  destruct (LotoAuth.fetchWithAuth E _ GET w) as [[res|e] w']; [|done]. simpl.
  destruct (status res =? 403); [done|].
  destruct (negb (ok res)); [done|].
  unfold await. by destruct (json res) as [data|e]; [destruct (normalize_logic data)|].
Qed.

(** The events of one call of [fetchWithAuth]: the request, followed on a
    401 by the two removals and the navigation. *)
Lemma fetchWithAuth_events (w : World) (url : Url) (options : RequestInit) :
  let req := LotoAuth.outgoing (localStorage w !! "access_token") options in
  trace (final (LotoAuth.fetchWithAuth E url options) w) =
    trace w ++ EvFetch url req ::
      match fetch E url req with
      | Return res => if status res =? 401 then logout_events else []
      | Throw _ => []
      end.
Proof.
  intros req. unfold final. rewrite fetchWithAuth_run. fold req.
  destruct (fetch E url req) as [res|e]; [|done].
  by destruct (status res =? 401).
Qed.

Lemma showLoading_run (msg : string) (w : World) :
  result (showLoading msg) w = Return tt /\ page_only w (final (showLoading msg) w).
Proof. by repeat split. Qed.

(** [showPredictions] of the loto7 logic page under the [catch] clause
    of the handler. *)
Lemma loto7_showPredictions_run (payload : JSON) (count : Z) (w : World) :
  let c := try_catch (Loto7Logic.showPredictions E payload count) on_failure in
  let records := Loto7Logic.showPredictions_list payload count in
  result c w = Return tt /\
  page_only w (final c w) /\
  settled (final c w) /\
  (forallb Loto7Logic.renderable records = true ->
     predictionCards_innerHTML (dom (final c w)) = Loto7Logic.render_cards records /\
     issueButton_textContent (dom (final c w)) = TEXT_REISSUE) /\
  (forallb Loto7Logic.renderable records = false ->
     predictionCards_innerHTML (dom (final c w)) =
       (if is_premium_required (TypeError (type_error_message E))
        then HtmlPremiumWall else HtmlErrorCard TEXT_RETRY_LATER) /\
     issueButton_textContent (dom (final c w)) = TEXT_ISSUE).
Proof.
  intros c records. subst c.
  unfold Loto7Logic.showPredictions. fold records.
  unfold result, final, try_catch, bind, modify_dom, setButtonLoading, throw.
  cbn beta iota.
  destruct (forallb Loto7Logic.renderable records);
    cbn -[on_failure is_premium_required].
  - split_and!; try done; intros _; by split_and!.
  - unfold on_failure. destruct (is_premium_required _); cbn;
      split_and!; try done; intros _; by split_and!.
Qed.

(** The events of a click on the loto7 logic page: the request, followed
    on a 401 by the events of the logout. *)
Lemma loto7_click_trace (value : string) (w : World) :
  let url := prediction_url E Loto7Logic.LOTO_TYPE (round w) (drawDate w)
               (requested_count E value) in
  let req := LotoAuth.outgoing (localStorage w !! "access_token") GET in
  emitted (Loto7Logic.on_click E value) w =
    EvFetch url req ::
      match fetch E url req with
      | Return res => if status res =? 401 then logout_events else []
      | Throw _ => []
      end.
Proof.
  intros url req.
  set (count := requested_count E value) in *.
  set (w1 := final (showLoading (loading_message count)) w).
  set (p := fetchPredictionsFromEngine E Loto7Logic.LOTO_TYPE count).
  assert (Hrun := loto7_on_click_run E value w). cbv zeta in Hrun.
  fold count w1 p in Hrun.
  assert (Hw2 := fetchPredictions_final Loto7Logic.LOTO_TYPE count w1). fold p in Hw2.
  assert (Hev := fetchWithAuth_events w1 url GET). cbv zeta in Hev.
  change (round w1) with (round w) in Hw2. change (drawDate w1) with (drawDate w) in Hw2.
  fold url in Hw2. rewrite <- Hw2 in Hev.
  change (trace w1) with (trace w) in Hev.
  change (localStorage w1) with (localStorage w) in Hev. fold req in Hev.
  unfold emitted, result, final in *. rewrite Hrun.
  destruct (p w1) as [[payload|e] w2]; cbn [fst snd] in *.
  - destruct (loto7_showPredictions_run payload count w2) as (_ & (_ & _ & _ & _ & Ht) & _).
    unfold result, final in *. by rewrite Ht, Hev, drop_app_length.
  - destruct (on_failure_run e w2) as (_ & (_ & _ & _ & _ & Ht) & _).
    unfold result, final in *. by rewrite Ht, Hev, drop_app_length.
Qed.

Lemma loto7_click_requests (value : string) (w : World) :
  filter (fun ev => is_fetch ev = true) (emitted (Loto7Logic.on_click E value) w) =
    [EvFetch (prediction_url E Loto7Logic.LOTO_TYPE (round w) (drawDate w)
                (requested_count E value))
       (LotoAuth.outgoing (localStorage w !! "access_token") GET)].
Proof.
  rewrite loto7_click_trace.
  destruct (fetch E _ _) as [res|e]; [|done]. by destruct (status res =? 401).
Qed.

(** Every click on the loto7 logic page comes to an end with the button
    enabled, the progress text hidden and the cards visible, after
    exactly one request, the one to the prediction endpoint. *)
Theorem loto7_click_settles (value : string) (w : World) :
  let c := Loto7Logic.on_click E value in
  let url := prediction_url E Loto7Logic.LOTO_TYPE (round w) (drawDate w)
               (requested_count E value) in
  let req := LotoAuth.outgoing (localStorage w !! "access_token") GET in
  result c w = Return tt /\
  settled (final c w) /\
  filter (fun ev => is_fetch ev = true) (emitted c w) = [EvFetch url req] /\
  round (final c w) = round w /\
  drawDate (final c w) = drawDate w.
Proof.
  intros c url req. subst c url req.
  split_and!; [| |apply loto7_click_requests| |].
  all: set (count := requested_count E value) in *.
  all: set (w1 := final (showLoading (loading_message count)) w).
  all: set (p := fetchPredictionsFromEngine E Loto7Logic.LOTO_TYPE count).
  all: assert (Hrun := loto7_on_click_run E value w); cbv zeta in Hrun.
  all: fold count w1 p in Hrun.
  all: assert (Hrd : round (final p w1) = round w /\ drawDate (final p w1) = drawDate w)
         by (destruct (fetchPredictions_run E Loto7Logic.LOTO_TYPE count w1)
               as (_ & H1 & H2 & _); by fold p in H1, H2).
  all: unfold result, final in *; rewrite Hrun.
  all: destruct (p w1) as [[payload|e] w2]; cbn [fst snd] in *.
  all: try (destruct (loto7_showPredictions_run payload count w2)
              as (Hr & (_ & _ & Hr1 & Hr2 & _) & Hs & _));
       try (destruct (on_failure_run e w2) as (Hr & (_ & _ & Hr1 & Hr2 & _) & Hs & _));
       unfold result, final in *.
  all: first [exact Hr | exact Hs | rewrite Hr1; apply Hrd | rewrite Hr2; apply Hrd].
Qed.

(** The click of the loto7 logic page, by what the prediction client
    gives. *)
Lemma loto7_click_by_result (value : string) (w : World) :
  let count := requested_count E value in
  let p := fetchPredictionsFromEngine E Loto7Logic.LOTO_TYPE count in
  let w1 := final (showLoading (loading_message count)) w in
  let w2 := final (LotoAuth.fetchWithAuth E
                     (prediction_url E Loto7Logic.LOTO_TYPE (round w) (drawDate w) count)
                     GET) w1 in
  (forall e, result p w1 = Throw e ->
     final (Loto7Logic.on_click E value) w = final (on_failure e) w2) /\
  (forall payload, result p w1 = Return payload ->
     final (Loto7Logic.on_click E value) w =
     final (try_catch (Loto7Logic.showPredictions E payload count) on_failure) w2).
Proof.
  intros count p w1 w2.
  assert (Hrun := loto7_on_click_run E value w). cbv zeta in Hrun.
  fold count p w1 in Hrun.
  assert (Hw2 : final p w1 = w2) by apply fetchPredictions_final.
  split.
  - intros e He. unfold final at 1. by rewrite Hrun, He, Hw2.
  - intros payload Hp. unfold final at 1. by rewrite Hrun, Hp, Hw2.
Qed.

(** A 401 from the prediction endpoint during a click on the loto7 logic
    page: the session is cleared, the location is the login page, and the
    handler, which catches the [Unauthorized] error like any other, shows
    the generic error card. *)
Theorem loto7_click_unauthorized (value : string) (w : World) (res : Response) :
  let c := Loto7Logic.on_click E value in
  fetch E (prediction_url E Loto7Logic.LOTO_TYPE (round w) (drawDate w)
             (requested_count E value))
    (LotoAuth.outgoing (localStorage w !! "access_token") GET) = Return res ->
  status res = 401 ->
  error_shown TEXT_RETRY_LATER (final c w) /\
  localStorage (final c w) !! "access_token" = None /\
  localStorage (final c w) !! "user" = None /\
  location_href (final c w) = "login.html".
Proof.
  intros c Hf Hs. subst c.
  set (count := requested_count E value) in *.
  set (w1 := final (showLoading (loading_message count)) w).
  destruct (loto7_click_by_result value w) as [Hthrow _]. fold count w1 in Hthrow.
  destruct (fetchPredictions_run E Loto7Logic.LOTO_TYPE count w1) as (_ & _ & _ & _ & Hr).
  change (round w1) with (round w) in Hr. change (drawDate w1) with (drawDate w) in Hr.
  change (localStorage w1) with (localStorage w) in Hr.
  rewrite Hf, Hs in Hr. simpl in Hr.
  rewrite (Hthrow _ Hr).
  set (url := prediction_url _ _ _ _ _) in *.
  destruct (on_failure_run (Error "Unauthorized")
              (final (LotoAuth.fetchWithAuth E url GET) w1))
    as (_ & (Hst & Hloc & _) & _).
  split; [by apply on_failure_generic|].
  rewrite !Hst, Hloc. unfold final. rewrite fetchWithAuth_run.
  change (localStorage w1) with (localStorage w). rewrite Hf, Hs. simpl.
  by rewrite lookup_delete_ne, !lookup_delete_eq.
Qed.

(** The other failures of a click on the loto7 logic page: a status that
    is not 2xx (401 and 403 apart) and a 2xx answer whose payload is not
    recognised both end in the generic error card, with the session and
    the location untouched. *)
Theorem loto7_click_engine_failure (value : string) (w : World) (res : Response) :
  let c := Loto7Logic.on_click E value in
  fetch E (prediction_url E Loto7Logic.LOTO_TYPE (round w) (drawDate w)
             (requested_count E value))
    (LotoAuth.outgoing (localStorage w !! "access_token") GET) = Return res ->
  status res <> 401 -> status res <> 403 ->
  (ok res = false \/
   exists data, json res = Return data /\ ~ accepted (normalize_logic data)) ->
  error_shown TEXT_RETRY_LATER (final c w) /\
  localStorage (final c w) = localStorage w /\
  location_href (final c w) = location_href w.
Proof.
  intros c Hf H401 H403 Hbad. subst c.
  set (count := requested_count E value) in *.
  set (w1 := final (showLoading (loading_message count)) w).
  destruct (loto7_click_by_result value w) as [Hthrow _]. fold count w1 in Hthrow.
  destruct (fetchPredictions_run E Loto7Logic.LOTO_TYPE count w1) as (_ & _ & _ & _ & Hr).
  change (round w1) with (round w) in Hr. change (drawDate w1) with (drawDate w) in Hr.
  change (localStorage w1) with (localStorage w) in Hr.
  rewrite Hf in Hr.
  replace (status res =? 401) with false in Hr by lia.
  replace (status res =? 403) with false in Hr by lia.
  assert (He : exists e, result (fetchPredictionsFromEngine E Loto7Logic.LOTO_TYPE count) w1
                           = Throw e /\ is_premium_required e = false).
  { destruct Hbad as [Hok | (data & Hj & Hna)].
    - rewrite Hok in Hr. simpl in Hr. by eexists.
    - destruct (ok res); simpl in Hr; [|by eexists].
      rewrite Hj in Hr. unfold normalize_logic in *.
      destruct (get_prop data "predictions") as [[| | | |l|]|];
        try (by destruct Hna);
        (destruct (truthy_opt _); [by destruct Hna | by eexists]). }
  destruct He as (e & He & Hp).
  rewrite (Hthrow _ He).
  set (url := prediction_url _ _ _ _ _) in *.
  destruct (on_failure_run e (final (LotoAuth.fetchWithAuth E url GET) w1))
    as (_ & (Hst & Hloc & _) & _).
  split; [by apply on_failure_generic|].
  rewrite Hst, Hloc. unfold final. rewrite fetchWithAuth_run.
  change (localStorage w1) with (localStorage w). rewrite Hf.
  by replace (status res =? 401) with false by lia.
Qed.

(** A successful click on the loto7 logic page shows one card per record
    of [showPredictions_list] when every card can be built, relabels the
    button for another issue and leaves the session alone. When a card
    cannot be built (its numbers are not an array, its fixed numbers are
    not iterable, or a value in it does not convert to text), the click
    ends in the error card. When the answer is a [predictions] array, its
    records are shown as they are, all of them, whatever the count
    requested. *)
Theorem loto7_click_success (value : string) (w : World) (res : Response) (data : JSON) :
  let c := Loto7Logic.on_click E value in
  let count := requested_count E value in
  fetch E (prediction_url E Loto7Logic.LOTO_TYPE (round w) (drawDate w) count)
    (LotoAuth.outgoing (localStorage w !! "access_token") GET) = Return res ->
  ok res = true ->
  json res = Return data ->
  (forall payload, normalize_logic data = Return payload ->
     forallb Loto7Logic.renderable (Loto7Logic.showPredictions_list payload count) = true ->
     predictionCards_innerHTML (dom (final c w))
       = Loto7Logic.render_cards (Loto7Logic.showPredictions_list payload count) /\
     issueButton_textContent (dom (final c w)) = TEXT_REISSUE /\
     settled (final c w) /\
     localStorage (final c w) = localStorage w /\
     location_href (final c w) = location_href w) /\
  (forall payload, normalize_logic data = Return payload ->
     forallb Loto7Logic.renderable (Loto7Logic.showPredictions_list payload count) = false ->
     type_error_message E <> PREMIUM_REQUIRED ->
     error_shown TEXT_RETRY_LATER (final c w)) /\
  (forall records, get_prop data "predictions" = Some (JArr records) ->
     forallb Loto7Logic.renderable records = true ->
     predictionCards_innerHTML (dom (final c w)) = Loto7Logic.render_cards records).
Proof.
  intros c count Hf Hok Hj. subst c.
  set (w1 := final (showLoading (loading_message count)) w).
  set (url := prediction_url E Loto7Logic.LOTO_TYPE (round w) (drawDate w) count) in *.
  set (w2 := final (LotoAuth.fetchWithAuth E url GET) w1).
  assert (Hw2 : localStorage w2 = localStorage w /\ location_href w2 = location_href w).
  { unfold w2, final. rewrite fetchWithAuth_run.
    change (localStorage w1) with (localStorage w). fold url.
    by rewrite Hf, (ok_not_401 _ Hok). }
  assert (Hrun : forall payload, normalize_logic data = Return payload ->
     final (Loto7Logic.on_click E value) w =
     final (try_catch (Loto7Logic.showPredictions E payload count) on_failure) w2).
  { intros payload Hn.
    destruct (loto7_click_by_result value w) as [_ Hret]. fold count w1 url w2 in Hret.
    destruct (fetchPredictions_run E Loto7Logic.LOTO_TYPE count w1) as (_ & _ & _ & _ & Hr).
    change (round w1) with (round w) in Hr. change (drawDate w1) with (drawDate w) in Hr.
    change (localStorage w1) with (localStorage w) in Hr. fold url in Hr.
    rewrite Hf, (ok_not_401 _ Hok), Hok, Hj, Hn in Hr.
    assert (H403 : (status res =? 403) = false).
    { unfold ok in Hok. apply andb_true_iff in Hok as [? ?]. lia. }
    rewrite H403 in Hr. simpl in Hr.
    exact (Hret _ Hr). }
  assert (Hfirst : forall payload, normalize_logic data = Return payload ->
     forallb Loto7Logic.renderable (Loto7Logic.showPredictions_list payload count) = true ->
     predictionCards_innerHTML (dom (final (Loto7Logic.on_click E value) w))
       = Loto7Logic.render_cards (Loto7Logic.showPredictions_list payload count) /\
     issueButton_textContent (dom (final (Loto7Logic.on_click E value) w)) = TEXT_REISSUE /\
     settled (final (Loto7Logic.on_click E value) w) /\
     localStorage (final (Loto7Logic.on_click E value) w) = localStorage w /\
     location_href (final (Loto7Logic.on_click E value) w) = location_href w).
  { intros payload Hn Hren. rewrite (Hrun payload Hn).
    destruct (loto7_showPredictions_run payload count w2)
      as (_ & (Hst & Hloc & _) & Hset & Hyes & _).
    destruct (Hyes Hren) as [Hc Ht]. destruct Hw2 as [Hs2 Hl2].
    split_and!; try done.
    - by rewrite Hst.
    - by rewrite Hloc. }
  split; [exact Hfirst|]. split.
  - intros payload Hn Hren Hmsg. rewrite (Hrun payload Hn).
    destruct (loto7_showPredictions_run payload count w2)
      as (_ & _ & (Hb & Hsh & Hch) & _ & Hno).
    destruct (Hno Hren) as [Hc Ht].
    apply String.eqb_neq in Hmsg.
    unfold is_premium_required in Hc. cbn [message] in Hc. rewrite Hmsg in Hc.
    unfold error_shown. by split_and!.
  - intros records Hp Hren.
    apply (Hfirst (JArr records)); [|exact Hren].
    unfold normalize_logic. by rewrite Hp.
Qed.

End Handlers.

Section Loto6Handler.

Variable E : Env.

(** The click of loto6-logic.js when no draw is obtained: the request to
    the draw endpoint is rejected, its body does not decode, or it
    decodes to [null]. *)
Lemma loto6_click_no_draw (value : string) (w : World) (e : JsError) :
  fetch E (draw_url E Loto6Logic.LOTO_TYPE) GET = Throw e \/
  (exists dres, fetch E (draw_url E Loto6Logic.LOTO_TYPE) GET = Return dres /\
                (json dres = Throw e \/
                 json dres = Return JNull /\ e = TypeError (type_error_message E))) ->
  exists w0,
    Loto6Logic.on_click E value w = on_failure e w0 /\
    localStorage w0 = localStorage w /\
    location_href w0 = location_href w /\
    trace w0 = trace w ++ [EvFetch (draw_url E Loto6Logic.LOTO_TYPE) GET].
Proof.
  intros H.
  unfold Loto6Logic.on_click, Loto6Logic.fetchPredictionsFromEngine,
    Loto6Logic.fetchLatestDraw.
  unfold showLoading, setButtonLoading, prop_strict. js_unfold.
  cbn -[fetchPredictionsFromEngine draw_url on_failure Loto6Logic.showPredictions GET].
  destruct H as [Hf | (dres & Hf & [Hj | [Hj ->]])]; rewrite Hf;
    cbn -[fetchPredictionsFromEngine draw_url on_failure Loto6Logic.showPredictions GET].
  - by eexists.
  - rewrite Hj. by eexists.
  - rewrite Hj.
    cbn -[fetchPredictionsFromEngine draw_url on_failure Loto6Logic.showPredictions GET].
    destruct (round_textContent (dom w)) as [rt|],
             (drawDate_textContent (dom w)) as [dt|];
      cbn -[fetchPredictionsFromEngine draw_url on_failure Loto6Logic.showPredictions GET];
      by eexists.
Qed.

Lemma unconvertible_default (o : option JSON) (d d' : JSON) :
  unconvertible d = false -> unconvertible d' = false ->
  unconvertible (nullish_or o d) = unconvertible (js_or o d').
Proof.
  intros Hd Hd'. destruct o as [v|]; [|simpl; congruence].
  unfold nullish_or, js_or.
  destruct v; simpl; rewrite ?Hd, ?Hd'; try done; by repeat case_match.
Qed.

(** The click of loto6-logic.js when the draw has a [round] or a
    [draw_date] that does not convert: the TypeError is raised in
    [fetchLatestDraw] or in the handler, before any prediction request. *)
Lemma loto6_click_bad_draw (value : string) (w : World) (dres : Response) (latest : JSON) :
  fetch E (draw_url E Loto6Logic.LOTO_TYPE) GET = Return dres ->
  json dres = Return latest ->
  latest <> JNull ->
  ~ draw_converts latest ->
  exists w0,
    Loto6Logic.on_click E value w = on_failure (TypeError (type_error_message E)) w0 /\
    localStorage w0 = localStorage w /\
    location_href w0 = location_href w /\
    trace w0 = trace w ++ [EvFetch (draw_url E Loto6Logic.LOTO_TYPE) GET].
Proof.
  intros Hf Hj Hn Hbad.
  assert (Hr1 := unconvertible_default (get_prop latest "round") (JStr "-") (JNum (Fin 0))
                   eq_refl eq_refl).
  assert (Hd1 := unconvertible_default (get_prop latest "draw_date") (JStr "-") (JStr "")
                   eq_refl eq_refl).
  unfold draw_converts in Hbad.
  unfold Loto6Logic.on_click, Loto6Logic.fetchPredictionsFromEngine,
    Loto6Logic.fetchLatestDraw.
  unfold showLoading, setButtonLoading, Number, String_of. js_unfold.
  cbn -[fetchPredictionsFromEngine draw_url on_failure Loto6Logic.showPredictions GET
        prop_strict nullish_or js_or get_prop unconvertible].
  rewrite Hf.
  cbn -[fetchPredictionsFromEngine draw_url on_failure Loto6Logic.showPredictions GET
        prop_strict nullish_or js_or get_prop unconvertible].
  rewrite Hj.
  cbn -[fetchPredictionsFromEngine draw_url on_failure Loto6Logic.showPredictions GET
        prop_strict nullish_or js_or get_prop unconvertible].
  destruct (unconvertible (js_or (get_prop latest "round") (JNum (Fin 0)))) eqn:A,
           (unconvertible (js_or (get_prop latest "draw_date") (JStr ""))) eqn:B;
    [| | |exfalso; tauto];
    destruct (round_textContent (dom w)) as [rt|],
             (drawDate_textContent (dom w)) as [dt|];
    repeat (first [rewrite Hr1 | rewrite Hd1 | rewrite A | rewrite B
                  | rewrite (prop_strict_nonnull E latest) by done; unfold ret];
            cbn -[fetchPredictionsFromEngine draw_url on_failure
                  Loto6Logic.showPredictions GET prop_strict nullish_or js_or get_prop
                  unconvertible]);
    by eexists.
Qed.

(** The cards of [showPredictions(data)] on loto6-logic.js. *)
Lemma append_cards_step (data nums : JSON) (rest acc : list JSON) (w : World) :
  Loto6Logic.card_renders data nums = true ->
  Loto6Logic.append_cards E data acc (nums :: rest) w =
  Loto6Logic.append_cards E data (acc ++ [nums]) rest
    (final (modify_dom (set_cards_html (HtmlTicketCards data (acc ++ [nums])))) w).
Proof. intros H. simpl. by rewrite H. Qed.

Lemma append_cards_run (data : JSON) (todo acc : list JSON) (w : World) :
  forallb (Loto6Logic.card_renders data) todo = true ->
  result (Loto6Logic.append_cards E data acc todo) w = Return tt /\
  page_only w (final (Loto6Logic.append_cards E data acc todo) w) /\
  dom (final (Loto6Logic.append_cards E data acc todo) w) =
    match todo with
    | [] => dom w
    | _ => set_cards_html (HtmlTicketCards data (acc ++ todo)) (dom w)
    end.
Proof.
  revert acc w. induction todo as [|nums rest IH]; intros acc w Hall.
  - by split_and!.
  - simpl in Hall. apply andb_true_iff in Hall as [Hn Hrest].
    set (w1 := final (modify_dom (set_cards_html (HtmlTicketCards data (acc ++ [nums])))) w).
    destruct (IH (acc ++ [nums]) w1 Hrest) as (Hr & Hp & Hd).
    assert (Hstep := append_cards_step data nums rest acc w Hn). fold w1 in Hstep.
    unfold result, final in *. rewrite Hstep. split_and!; [done|done|].
    rewrite Hd. destruct rest; [done|]. simpl. by rewrite <- app_assoc.
Qed.

Lemma append_cards_page_only (data : JSON) (todo acc : list JSON) (w : World) :
  page_only w (final (Loto6Logic.append_cards E data acc todo) w).
Proof.
  revert acc w. induction todo as [|nums rest IH]; intros acc w;
    [apply page_only_refl|].
  destruct (Loto6Logic.card_renders data nums) eqn:Hn.
  - unfold final. rewrite (append_cards_step _ _ _ _ _ Hn).
    exact (IH (acc ++ [nums]) _).
  - unfold final. simpl. rewrite Hn. apply page_only_refl.
Qed.

(** The loop stops with a TypeError at the first card that cannot be
    built. *)
Lemma append_cards_fails (data : JSON) (todo acc : list JSON) (w : World) :
  forallb (Loto6Logic.card_renders data) todo = false ->
  result (Loto6Logic.append_cards E data acc todo) w
    = Throw (TypeError (type_error_message E)).
Proof.
  revert acc w. induction todo as [|nums rest IH]; intros acc w Hall; [done|].
  simpl in Hall. destruct (Loto6Logic.card_renders data nums) eqn:Hn.
  - unfold result. rewrite (append_cards_step _ _ _ _ _ Hn). by apply IH.
  - unfold result. simpl. by rewrite Hn.
Qed.

Lemma loto6_showPredictions_run (payload : JSON) (w : World) :
  let c := try_catch
             (Loto6Logic.showPredictions E payload ;;
              setButtonLoading false ;;
              modify_dom (set_state_hidden true) ;;
              modify_dom (set_cards_hidden false))
             on_failure in
  result c w = Return tt /\
  page_only w (final c w) /\
  settled (final c w) /\
  issueButton_textContent (dom (final c w)) = TEXT_ISSUE /\
  (forallb (Loto6Logic.card_renders payload) (loto6_tickets payload) = true ->
   predictionCards_innerHTML (dom (final c w)) =
     match loto6_tickets payload with
     | [] => HtmlEmpty
     | _ => HtmlTicketCards payload (loto6_tickets payload)
     end) /\
  (forallb (Loto6Logic.card_renders payload) (loto6_tickets payload) = false ->
   final c w = final (on_failure (TypeError (type_error_message E)))
                 (final (Loto6Logic.append_cards E payload [] (loto6_tickets payload))
                    (final (modify_dom (set_cards_html HtmlEmpty)) w))).
Proof.
  intros c. subst c. unfold Loto6Logic.showPredictions. fold (loto6_tickets payload).
  set (w0 := final (modify_dom (set_cards_html HtmlEmpty)) w).
  assert (Hp := append_cards_page_only payload (loto6_tickets payload) [] w0).
  assert (Hrun := append_cards_run payload (loto6_tickets payload) [] w0).
  assert (Hfail := append_cards_fails payload (loto6_tickets payload) [] w0).
  unfold result, final, try_catch, bind, setButtonLoading in *.
  change (modify_dom (set_cards_html HtmlEmpty) w) with (Return tt, w0).
  cbn beta iota.
  destruct (Loto6Logic.append_cards E payload [] (loto6_tickets payload) w0)
    as [[[]|e] w1]; cbn [fst snd] in *.
  - destruct Hp as (H1 & H2 & H3 & H4 & H5).
    split_and!; try done.
    + intros Hall. destruct (Hrun Hall) as (_ & _ & Hd). cbn.
      rewrite Hd. by destruct (loto6_tickets payload).
    + intros Hall. by specialize (Hfail Hall).
  - destruct (on_failure_run e w1) as (Hr & Hpo & Hs & _ & Ht).
    unfold result, final in *. split_and!; try done.
    + by eapply page_only_trans.
    + intros Hall. by destruct (Hrun Hall).
    + intros Hall. specialize (Hfail Hall). by injection Hfail as ->.
Qed.

Lemma emitted_filter {A} (c : Js A) (w : World) (evs : list Event) :
  trace (final c w) = trace w ++ evs ->
  filter (fun ev => is_fetch ev = true) (emitted c w)
    = filter (fun ev => is_fetch ev = true) evs.
Proof. intros H. unfold emitted. by rewrite H, drop_app_length. Qed.

Lemma filter_fetch_answer (url : Url) (req : RequestInit) :
  filter (fun ev => is_fetch ev = true)
    (match fetch E url req with
     | Return res => if status res =? 401 then logout_events else []
     | Throw _ => []
     end) = [].
Proof. destruct (fetch E url req) as [res|e]; [|done]. by destruct (status res =? 401). Qed.

(** A click on loto6-logic.js that obtains no draw (the request to the
    draw endpoint is rejected, or its body does not decode, or decodes to
    [null]) sends no prediction request, leaves the session alone, and
    ends in the display the [catch] clause chooses for the error. *)
Theorem loto6_click_without_draw (value : string) (w : World) (e : JsError) :
  let c := Loto6Logic.on_click E value in
  fetch E (draw_url E Loto6Logic.LOTO_TYPE) GET = Throw e \/
  (exists dres, fetch E (draw_url E Loto6Logic.LOTO_TYPE) GET = Return dres /\
                (json dres = Throw e \/
                 json dres = Return JNull /\ e = TypeError (type_error_message E))) ->
  emitted c w = [EvFetch (draw_url E Loto6Logic.LOTO_TYPE) GET] /\
  localStorage (final c w) = localStorage w /\
  location_href (final c w) = location_href w /\
  settled (final c w) /\
  (is_premium_required e = false -> error_shown TEXT_RETRY_LATER (final c w)).
Proof.
  intros c H. subst c.
  destruct (loto6_click_no_draw value w e H) as (w0 & Hrun & Hst & Hloc & Htr).
  destruct (on_failure_run e w0) as (_ & (H1 & H2 & _ & _ & H5) & Hs & _).
  unfold emitted, final in *. rewrite Hrun. split_and!.
  - by rewrite H5, Htr, drop_app_length.
  - congruence.
  - congruence.
  - done.
  - intros Hp. by apply on_failure_generic.
Qed.

(** Every click on loto6-logic.js comes to an end with the button
    enabled, the progress text hidden and the cards visible. It sends the
    draw request first and after it at most one more request, to the
    prediction endpoint. *)
Theorem loto6_click_settles (value : string) (w : World) :
  let c := Loto6Logic.on_click E value in
  result c w = Return tt /\
  settled (final c w) /\
  exists rest,
    filter (fun ev => is_fetch ev = true) (emitted c w)
      = EvFetch (draw_url E Loto6Logic.LOTO_TYPE) GET :: rest /\
    (rest = [] \/
     exists u r, rest = [EvFetch u r] /\ is_prediction_request E (EvFetch u r) = true).
Proof.
  intros c. subst c.
  assert (Hearly : forall e,
    (fetch E (draw_url E Loto6Logic.LOTO_TYPE) GET = Throw e \/
     (exists dres, fetch E (draw_url E Loto6Logic.LOTO_TYPE) GET = Return dres /\
                (json dres = Throw e \/
                 json dres = Return JNull /\ e = TypeError (type_error_message E)))) ->
    result (Loto6Logic.on_click E value) w = Return tt /\
    settled (final (Loto6Logic.on_click E value) w) /\
    exists rest,
      filter (fun ev => is_fetch ev = true) (emitted (Loto6Logic.on_click E value) w)
        = EvFetch (draw_url E Loto6Logic.LOTO_TYPE) GET :: rest /\
      (rest = [] \/
       exists u r, rest = [EvFetch u r] /\ is_prediction_request E (EvFetch u r) = true)).
  { intros e H.
    destruct (loto6_click_no_draw value w e H) as (w0 & Hrun & _ & _ & Htr).
    destruct (on_failure_run e w0) as (Hr & (_ & _ & _ & _ & H5) & Hs & _).
    unfold emitted, result, final in *. rewrite Hrun. split_and!; try done.
    exists []. split; [|by left]. by rewrite H5, Htr, drop_app_length. }
  assert (Hbad : forall dres latest,
    fetch E (draw_url E Loto6Logic.LOTO_TYPE) GET = Return dres ->
    json dres = Return latest -> latest <> JNull -> ~ draw_converts latest ->
    result (Loto6Logic.on_click E value) w = Return tt /\
    settled (final (Loto6Logic.on_click E value) w) /\
    exists rest,
      filter (fun ev => is_fetch ev = true) (emitted (Loto6Logic.on_click E value) w)
        = EvFetch (draw_url E Loto6Logic.LOTO_TYPE) GET :: rest /\
      (rest = [] \/
       exists u r, rest = [EvFetch u r] /\ is_prediction_request E (EvFetch u r) = true)).
  { intros dres latest Hf Hj Hnn Hnc.
    destruct (loto6_click_bad_draw value w dres latest Hf Hj Hnn Hnc)
      as (w0 & Hrun & _ & _ & Htr).
    destruct (on_failure_run (TypeError (type_error_message E)) w0)
      as (Hr & (_ & _ & _ & _ & H5) & Hs & _).
    unfold emitted, result, final in *. rewrite Hrun. split_and!; try done.
    exists []. split; [|by left]. by rewrite H5, Htr, drop_app_length. }
  destruct (fetch E (draw_url E Loto6Logic.LOTO_TYPE) GET) as [dres|e] eqn:Hf;
    [|apply (Hearly e); by left].
  destruct (json dres) as [latest|e] eqn:Hj;
    [|apply (Hearly e); right; exists dres; split; [done|by left]].
  assert (Hcase : latest = JNull \/ latest <> JNull)
    by (destruct latest; [by left | by right..]).
  destruct Hcase as [-> | Hnn].
  { apply (Hearly (TypeError (type_error_message E))).
    right. exists dres. split; [done|]. by right. }
  assert (Hdec : draw_converts latest \/ ~ draw_converts latest).
  { unfold draw_converts.
    destruct (unconvertible (js_or (get_prop latest "round") (JNum (Fin 0))));
      destruct (unconvertible (js_or (get_prop latest "draw_date") (JStr "")));
      intuition congruence. }
  destruct Hdec as [[Hcr Hcd]|Hnc]; [|by eapply Hbad].
  destruct (loto6_on_click_run E value w dres latest _ _ Hf Hj Hnn
              (proj2 (Number_Return E _ _) (conj Hcr eq_refl))
              (proj2 (String_of_Return E _ _) (conj Hcd eq_refl)))
    as (w3 & _ & _ & _ & Ht3 & _ & Hrun).
  set (p := fetchPredictionsFromEngine E Loto6Logic.LOTO_TYPE (requested_count E value)) in *.
  assert (Hw := fetchPredictions_final E Loto6Logic.LOTO_TYPE (requested_count E value) w3).
  fold p in Hw.
  set (url := prediction_url E Loto6Logic.LOTO_TYPE (round w3) (drawDate w3)
                (requested_count E value)) in *.
  assert (Hev := fetchWithAuth_events E w3 url GET). cbv zeta in Hev.
  rewrite <- Hw in Hev.
  set (req := LotoAuth.outgoing (localStorage w3 !! "access_token") GET) in *.
  assert (Hmid : forall w', page_only (final p w3) w' ->
    exists rest,
      filter (fun ev => is_fetch ev = true) (drop (length (trace w)) (trace w'))
        = EvFetch (draw_url E Loto6Logic.LOTO_TYPE) GET :: rest /\
      (rest = [] \/
       exists u r, rest = [EvFetch u r] /\ is_prediction_request E (EvFetch u r) = true)).
  { intros w' (_ & _ & _ & _ & Ht). exists [EvFetch url req]. split.
    - rewrite Ht, Hev, Ht3, <- app_assoc, drop_app_length. simpl.
      rewrite filter_cons_True by done. rewrite filter_cons_True by done.
      by rewrite filter_fetch_answer.
    - right. exists url, req. split; [done|].
      unfold is_prediction_request, url. rewrite prediction_url_path.
      apply String.eqb_refl. }
  unfold emitted, result, final in *. rewrite Hrun.
  destruct (p w3) as [[payload|e] w4]; cbn [fst snd] in *.
  - destruct (loto6_showPredictions_run payload w4) as (Hr & Hp & Hs & _).
    unfold result, final in *. split_and!; try done. by apply Hmid.
  - destruct (on_failure_run e w4) as (Hr & Hp & Hs & _).
    unfold result, final in *. split_and!; try done. by apply Hmid.
Qed.

(** What a successful click on loto6-logic.js displays: one card per
    entry of [prediction.tickets] of the accepted payload, and nothing
    else, when every card can be built; when one cannot (a ticket that
    is not an array, or a value in it, in the draw or among the fixed
    numbers that does not convert to text), the error card. An answer
    accepted for its [predictions] array, or for its [prediction.numbers]
    alone, displays no card at all; the button is enabled again under
    its first label. *)
Theorem loto6_click_display (value : string) (w : World) (dres res : Response)
    (latest data : JSON) (round' : jsnum) (drawDate' : string) :
  let c := Loto6Logic.on_click E value in
  fetch E (draw_url E Loto6Logic.LOTO_TYPE) GET = Return dres ->
  json dres = Return latest ->
  latest <> JNull ->
  Number E (js_or (get_prop latest "round") (JNum (Fin 0))) = Return round' ->
  String_of E (js_or (get_prop latest "draw_date") (JStr "")) = Return drawDate' ->
  fetch E (prediction_url E Loto6Logic.LOTO_TYPE round' drawDate'
             (requested_count E value))
    (LotoAuth.outgoing (localStorage w !! "access_token") GET) = Return res ->
  ok res = true ->
  json res = Return data ->
  (forall payload, normalize_logic data = Return payload ->
     forallb (Loto6Logic.card_renders payload) (loto6_tickets payload) = true ->
     predictionCards_innerHTML (dom (final c w)) =
       match loto6_tickets payload with
       | [] => HtmlEmpty
       | _ => HtmlTicketCards payload (loto6_tickets payload)
       end /\
     issueButton_textContent (dom (final c w)) = TEXT_ISSUE /\
     settled (final c w)) /\
  (forall payload, normalize_logic data = Return payload ->
     forallb (Loto6Logic.card_renders payload) (loto6_tickets payload) = false ->
     type_error_message E <> PREMIUM_REQUIRED ->
     error_shown TEXT_RETRY_LATER (final c w)) /\
  (forall records, get_prop data "predictions" = Some (JArr records) ->
     predictionCards_innerHTML (dom (final c w)) = HtmlEmpty) /\
  (accepted (normalize_logic data) ->
   isArray (get_prop data "predictions") = false ->
   isArray (get_opt (get_prop data "prediction") "tickets") = false ->
     predictionCards_innerHTML (dom (final c w)) = HtmlEmpty).
Proof.
  intros c Hd Hj Hn Hcr Hcd Hf Hok Hjd. subst c.
  assert (Hrun0 : forall payload, normalize_logic data = Return payload ->
     exists w4,
       final (Loto6Logic.on_click E value) w =
       final (try_catch
                (Loto6Logic.showPredictions E payload ;;
                 setButtonLoading false ;;
                 modify_dom (set_state_hidden true) ;;
                 modify_dom (set_cards_hidden false))
                on_failure) w4).
  { intros payload Hnorm.
    destruct (loto6_on_click_run E value w dres latest round' drawDate' Hd Hj Hn Hcr Hcd)
      as (w3 & Hst & Hr3 & Hd3 & _ & _ & Hrun).
    set (p := fetchPredictionsFromEngine E Loto6Logic.LOTO_TYPE (requested_count E value)) in *.
    destruct (fetchPredictions_run E Loto6Logic.LOTO_TYPE (requested_count E value) w3)
      as (_ & _ & _ & _ & Hr). fold p in Hr.
    rewrite Hr3, Hd3, Hst, Hf, (ok_not_401 _ Hok), Hok, Hjd, Hnorm in Hr.
    assert (H403 : (status res =? 403) = false).
    { unfold ok in Hok. apply andb_true_iff in Hok as [? ?]. lia. }
    rewrite H403 in Hr. simpl in Hr.
    exists (final p w3). unfold final at 1. by rewrite Hrun, Hr. }
  assert (Hfirst : forall payload, normalize_logic data = Return payload ->
     forallb (Loto6Logic.card_renders payload) (loto6_tickets payload) = true ->
     predictionCards_innerHTML (dom (final (Loto6Logic.on_click E value) w)) =
       match loto6_tickets payload with
       | [] => HtmlEmpty
       | _ => HtmlTicketCards payload (loto6_tickets payload)
       end /\
     issueButton_textContent (dom (final (Loto6Logic.on_click E value) w)) = TEXT_ISSUE /\
     settled (final (Loto6Logic.on_click E value) w)).
  { intros payload Hnorm Hall.
    destruct (Hrun0 payload Hnorm) as (w4 & ->).
    destruct (loto6_showPredictions_run payload w4) as (_ & _ & Hs & Ht & Hc & _).
    split_and!; [by apply Hc | exact Ht | exact Hs]. }
  split; [exact Hfirst|]. split; [|split].
  - intros payload Hnorm Hall Hmsg.
    destruct (Hrun0 payload Hnorm) as (w4 & ->).
    destruct (loto6_showPredictions_run payload w4) as (_ & _ & _ & _ & _ & Hc).
    rewrite (Hc Hall). apply on_failure_generic.
    unfold is_premium_required. simpl. by apply String.eqb_neq.
  - intros records Hp.
    destruct (Hfirst (JArr records)) as (Hc & _).
    + unfold normalize_logic. by rewrite Hp.
    + done.
    + exact Hc.
  - intros Hacc Hnp Hnt.
    assert (Hnorm : normalize_logic data = Return data).
    { unfold normalize_logic in *.
      destruct (get_prop data "predictions") as [[| | | |l|]|]; try discriminate Hnp;
        by destruct (truthy_opt _). }
    assert (Ht : loto6_tickets data = []).
    { unfold loto6_tickets.
      apply normalize_logic_accepted in Hacc as [Ha | Ha];
        [unfold has_predictions_array in Ha; congruence|].
      destruct (get_prop data "prediction") as [pred|]; [|done].
      assert (truthy pred = true).
      { destruct pred; try done. }
      unfold js_or. rewrite H. simpl in Hnt.
      by destruct (get_prop pred "tickets") as [[| | | |l|]|]. }
    destruct (Hfirst data Hnorm) as (Hc & _); [by rewrite Ht|].
    by rewrite Ht in Hc.
Qed.

End Loto6Handler.

(* ================================================================== *)
(** * 18. The cached profile and the redirects of the session manager *)
(* ================================================================== *)

Section Profile.

Variable E : Env.
Variable parse : string -> Outcome JSON.

Lemma requirePremium_trace (w : World) :
  trace (final (LotoAuth.requirePremium E) w) = trace w ++ requirePremium_events E w.
Proof.
  unfold requirePremium_events, LotoAuth.requirePremium, LotoAuth.getToken,
    LotoAuth.removeToken, LotoAuth.removeUser, LotoAuth.setUser, me_request,
    logout_events.
  js_unfold. simpl.
  destruct (localStorage w !! "access_token") as [tok|] eqn:Htok; simpl; [|done].
  destruct (String.eqb tok "") eqn:Hne; simpl; [done|].
  rewrite ?Htok; simpl.
  destruct (fetch E _ _) as [res|e]; simpl; [|by rewrite <- app_assoc].
  destruct (status res =? 401) eqn:Hs; simpl.
  { by rewrite <- !app_assoc. }
  destruct (ok res); simpl; [|by rewrite <- !app_assoc].
  destruct (json res) as [user|e]; simpl; [|by rewrite <- !app_assoc].
  destruct user as [|b|n|s|l|m]; simpl;
    try destruct (truthy_opt _); simpl;
    by rewrite <- ?app_assoc.
Qed.

Lemma requirePremium_emitted (w : World) :
  emitted (LotoAuth.requirePremium E) w = requirePremium_events E w.
Proof. unfold emitted. by rewrite requirePremium_trace, drop_app_length. Qed.

Ltac not_in_events :=
  let v := fresh "v" in
  let Hin := fresh "Hin" in
  intros v Hin;
  repeat (apply elem_of_cons in Hin as [Hin | Hin]; [discriminate Hin|]);
  by apply elem_of_nil in Hin.

Ltac redirects_leaf Hne :=
  split_and!;
  [ split; [intros [=] | intros [=]]; done
  | intros [=]; (by left) || (by right)
  | simpl; rewrite ?Hne; simpl; intros [=]
  | let t := fresh "t" in intros t [= <-] _; reflexivity
  | not_in_events ].

(** [requirePremium] redirects exactly when it returns [false]: a call
    that returns [true] navigates nowhere, a call that returns [false]
    navigates once, to the login page or to its unpaid variant. Without
    a token it sends no request; otherwise it sends one. It never writes
    the token. *)
Theorem requirePremium_redirects (w : World) :
  let c := LotoAuth.requirePremium E in
  let navigations := List.filter is_navigation (emitted c w) in
  (result c w = Return true <-> navigations = []) /\
  (result c w = Return false ->
     navigations = [EvNavigate "login.html"] \/
     navigations = [EvNavigate "login.html?status=unpaid"]) /\
  (LotoAuth.str_truthy (localStorage w !! "access_token") = false ->
     emitted c w = [EvNavigate "login.html"]) /\
  (forall tok, localStorage w !! "access_token" = Some tok -> tok <> "" ->
     List.filter is_fetch (emitted c w)
       = [EvFetch (LotoAuth.me_url E) (me_request tok)]) /\
  (forall v, EvSetItem "access_token" v ∉ emitted c w).
Proof.
  intros c navigations. subst c navigations.
  rewrite requirePremium_emitted.
  assert (Hrun := requirePremium_run E w). cbv zeta in Hrun.
  unfold requirePremium_events, logout_events in *.
  destruct (localStorage w !! "access_token") as [tok|] eqn:Htok.
  2:{ destruct Hrun as [-> _]. split_and!; try done.
      - by left.
      - not_in_events. }
  destruct (String.eqb tok "") eqn:Hne.
  { destruct Hrun as [-> _]. split_and!; try done.
    - by left.
    - intros t [= <-] Ht. by apply String.eqb_eq in Hne.
    - not_in_events. }
  destruct (fetch E _ _) as [res|e].
  2:{ destruct Hrun as [-> _]. cbn [List.filter is_navigation is_fetch].
      redirects_leaf Hne. }
  destruct (status res =? 401).
  { destruct Hrun as [-> _]. cbn [List.filter is_navigation is_fetch].
    redirects_leaf Hne. }
  destruct (ok res); simpl in Hrun.
  2:{ destruct Hrun as [-> _]. cbn [List.filter is_navigation is_fetch negb].
      redirects_leaf Hne. }
  destruct (json res) as [user|e].
  2:{ destruct Hrun as [-> _]. cbn [List.filter is_navigation is_fetch negb].
      redirects_leaf Hne. }
  destruct Hrun as [_ Hrun].
  destruct (truthy_opt (get_prop user "is_premium")) eqn:Hp.
  - destruct Hrun as [-> _].
    assert (user <> JNull) by (by intros ->).
    destruct user; try done; cbn [List.filter is_navigation is_fetch negb];
      redirects_leaf Hne.
  - destruct Hrun as [-> _].
    destruct user; cbn [List.filter is_navigation is_fetch negb];
      redirects_leaf Hne.
Qed.

Lemma getUser_run (w : World) :
  final (getUser parse) w = w /\
  result (getUser parse) w =
    Return (match parse (default "null" (localStorage w !! "user")) with
            | Return v => v
            | Throw _ => JNull
            end).
Proof.
  unfold getUser, result, final, bind, getItem, ret. simpl.
  by destruct (parse _).
Qed.

Lemma isPremium_run (w : World) :
  entitled (result (isPremium parse) w) =
    match parse (default "null" (localStorage w !! "user")) with
    | Return user => truthy_opt (get_prop user "is_premium")
    | Throw _ => false
    end.
Proof.
  destruct (getUser_run w) as [Hf Hr].
  unfold isPremium, result, final, bind in *.
  destruct (getUser parse w) as [o w']. simpl in *. subst w'. rewrite Hr.
  destruct (parse _) as [user|e]; [|done].
  destruct (truthy user) eqn:Ht; simpl.
  - done.
  - rewrite Ht. by destruct user.
Qed.

(** The stored profile survives [setUser] then [getUser] whenever its
    text parses back to it; a stored text that does not parse reads as
    [null] instead of raising; and reading changes nothing. *)
Theorem profile_round_trip (w : World) (user : JSON) :
  (parse (JSON_stringify E user) = Return user ->
     result (getUser parse) (final (LotoAuth.setUser E user) w) = Return user) /\
  (forall text e, localStorage w !! "user" = Some text -> parse text = Throw e ->
     result (getUser parse) w = Return JNull /\
     entitled (result (isPremium parse) w) = false) /\
  final (getUser parse) w = w /\
  final (isPremium parse) w = w.
Proof.
  split_and!.
  - intros Hp. destruct (getUser_run (final (LotoAuth.setUser E user) w)) as [_ Hr].
    rewrite Hr. unfold LotoAuth.setUser. js_unfold. simpl.
    rewrite lookup_insert_eq. simpl. by rewrite Hp.
  - intros text e Ht Hp. split.
    + destruct (getUser_run w) as [_ Hr]. rewrite Hr, Ht. simpl. by rewrite Hp.
    + rewrite isPremium_run, Ht. simpl. by rewrite Hp.
  - apply getUser_run.
  - destruct (getUser_run w) as [Hf _].
    unfold isPremium, final, bind in *.
    destruct (getUser parse w) as [[u|e] w']; simpl in *; [|done].
    by destruct (truthy u).
Qed.

(** The session ends the same way by [logout] and by a 401 answer to
    [fetchWithAuth]: no token is left, the cached profile reads as
    [null], [isPremium()] is falsy, and the location is the login page. *)
Theorem session_end (w : World) (url : Url) (options : RequestInit) :
  parse "null" = Return JNull ->
  session_ended parse (final LotoAuth.logout w) /\
  (forall res,
     fetch E url (LotoAuth.outgoing (localStorage w !! "access_token") options)
       = Return res ->
     status res = 401 ->
     session_ended parse (final (LotoAuth.fetchWithAuth E url options) w)).
Proof.
  intros Hnull.
  assert (Hend : forall w',
    localStorage w' !! "access_token" = None ->
    localStorage w' !! "user" = None ->
    location_href w' = "login.html" ->
    session_ended parse w').
  { intros w' Ht Hu Hl. split_and!.
    - unfold LotoAuth.getToken, getItem, result. simpl. by rewrite Ht.
    - destruct (getUser_run w') as [_ Hr]. rewrite Hr, Hu. simpl. by rewrite Hnull.
    - rewrite isPremium_run, Hu. simpl. by rewrite Hnull.
    - exact Hl. }
  split.
  - apply Hend; unfold LotoAuth.logout, LotoAuth.removeToken, LotoAuth.removeUser;
      js_unfold; simpl;
      [by rewrite lookup_delete_ne, lookup_delete_eq | by rewrite lookup_delete_eq | done].
  - intros res Hf Hs.
    apply Hend; unfold final; rewrite fetchWithAuth_run, Hf, Hs; simpl;
      [by rewrite lookup_delete_ne, lookup_delete_eq | by rewrite lookup_delete_eq | done].
Qed.

(** After [requirePremium] got a decodable profile with an OK status,
    the cached check agrees with its verdict: [isPremium()] is truthy
    exactly when [requirePremium] returned [true]. *)
Theorem gate_agrees_with_cache (w : World) (tok : string) (res : Response) (user : JSON) :
  localStorage w !! "access_token" = Some tok -> tok <> "" ->
  fetch E (LotoAuth.me_url E) (me_request tok) = Return res ->
  ok res = true ->
  json res = Return user ->
  parse (JSON_stringify E user) = Return user ->
  entitled (result (isPremium parse) (final (LotoAuth.requirePremium E) w)) = true
  <-> result (LotoAuth.requirePremium E) w = Return true.
Proof.
  intros Htok Hne Hf Hok Hj Hp.
  rewrite isPremium_run.
  rewrite (requirePremium_caches E w tok res user Htok Hne Hf Hok Hj). simpl.
  rewrite Hp. rewrite requirePremium_true_iff. split.
  - intros Hflag. by exists tok, res, user.
  - intros (t & r & u & Ht & _ & Hf' & _ & Hj' & Hflag).
    assert (t = tok) by congruence. subst t.
    assert (r = res) by congruence. subst r.
    assert (u = user) by congruence. by subst u.
Qed.

End Profile.

(* ================================================================== *)
(** * 19. The generator outside its valid configurations, and the mock *)
(* ================================================================== *)

Section GeneratorEdges.

Variable rnd : nat -> Q.

Lemma foldl_set_add_spec (l acc : list Z) :
  NoDup acc ->
  NoDup (foldl (fun s x => set_add x s) acc l) /\
  (forall x, x ∈ foldl (fun s x => set_add x s) acc l <-> x ∈ acc \/ x ∈ l).
Proof.
  revert acc. induction l as [|y l IH]; intros acc Hnd; simpl.
  - split; [done|]. intros x. rewrite elem_of_nil. tauto.
  - destruct (IH (set_add y acc) (NoDup_set_add y acc Hnd)) as [H1 H2].
    split; [done|]. intros x. rewrite H2, elem_of_set_add, elem_of_cons. tauto.
Qed.

Lemma new_Set_spec (l : list Z) :
  NoDup (new_Set l) /\ (forall x, x ∈ new_Set l <-> x ∈ l).
Proof.
  destruct (foldl_set_add_spec l [] (NoDup_nil_2)) as [H1 H2].
  split; [done|]. intros x. unfold new_Set. rewrite H2, elem_of_nil. tauto.
Qed.

Lemma range_capacity (min max : Z) (set : list Z) :
  NoDup set -> Forall (in_range min max) set ->
  Z.of_nat (length set) <= Z.max 0 (max - min + 1).
Proof.
  intros Hnd Hr.
  assert (Hsub : set ⊆+ seqZ min (max - min + 1)).
  { apply NoDup_submseteq; [done|]. intros x Hx.
    eapply Forall_forall in Hr; [|exact Hx]. unfold in_range in Hr.
    apply elem_of_seqZ. lia. }
  apply submseteq_length in Hsub. rewrite length_seqZ in Hsub. lia.
Qed.

Lemma generate_loop_starves (min max total : Z) (fuel : nat) :
  unit_interval rnd -> - 2 ^ 51 <= min -> min <= max -> max <= 2 ^ 51 ->
  max - min + 1 < total ->
  forall (set : list Z) (i : nat),
    NoDup set -> Forall (in_range min max) set ->
    generate_loop rnd min max total fuel set i = None.
Proof.
  intros Hunit Hlo Hmm Hhi Hsmall.
  induction fuel as [|fuel IH]; intros set i Hnd Hr; simpl;
    assert (Hcap := range_capacity min max set Hnd Hr);
    replace (Z.of_nat (length set) <? total) with true by lia; [done|].
  apply IH; [by apply NoDup_set_add|].
  apply Forall_forall. intros y Hy. apply elem_of_set_add in Hy as [->|Hy].
  - destruct (Hunit i) as (? & ? & ?). by apply randInt_range.
  - by eapply Forall_forall in Hr.
Qed.

(** Outside the valid configurations. Take a range that is not empty,
    with bounds of magnitude at most [2^51], and fixed numbers that lie
    in it: when the range holds fewer than [total] values, the loop can
    never fill the set, and the function does not return, however long
    it runs. And for any range: when the distinct fixed numbers already
    number [total] or more, the function returns all of them, sorted,
    without a draw, so the ticket is longer than [total] when there are
    more. *)
Theorem generator_misconfigured (c : GenConfig) :
  let fixed := default [] (cfg_fixedNumbers c) in
  (unit_interval rnd ->
   - 2 ^ 51 <= cfg_min c -> cfg_min c <= cfg_max c -> cfg_max c <= 2 ^ 51 ->
   Forall (in_range (cfg_min c) (cfg_max c)) fixed ->
   cfg_max c - cfg_min c + 1 < cfg_total c ->
   forall fuel, generateUniqueNumbersWithFixed rnd fuel c = None) /\
  (cfg_total c <= Z.of_nat (length (new_Set fixed)) ->
   forall fuel,
     generateUniqueNumbersWithFixed rnd fuel c
       = Some (merge_sort Z.le (new_Set fixed), 0%nat) /\
     length (merge_sort Z.le (new_Set fixed)) = length (new_Set fixed)).
Proof.
  intros fixed. split.
  - intros Hunit Hlo Hmm Hhi Hr Hsmall fuel. unfold generateUniqueNumbersWithFixed.
    fold fixed. destruct (new_Set_spec fixed) as [Hnd Hel].
    rewrite generate_loop_starves; try done.
    apply Forall_forall. intros x Hx. apply Hel in Hx.
    by eapply Forall_forall in Hr.
  - intros Hfull fuel. split.
    + unfold generateUniqueNumbersWithFixed. fold fixed.
      destruct fuel; simpl; by replace (_ <? _) with false by lia.
    + by rewrite merge_sort_Permutation.
Qed.

Lemma set_add_perm (x : Z) (s1 s2 : list Z) :
  s1 ≡ₚ s2 -> set_add x s1 ≡ₚ set_add x s2.
Proof.
  intros Hp. unfold set_add.
  destruct (decide (x ∈ s1)) as [H1|H1], (decide (x ∈ s2)) as [H2|H2].
  - done.
  - by rewrite Hp in H1.
  - by rewrite <- Hp in H2.
  - by rewrite Hp.
Qed.

Lemma generate_loop_perm (min max total : Z) (fuel : nat) :
  forall (s1 s2 : list Z) (i : nat),
    s1 ≡ₚ s2 ->
    match generate_loop rnd min max total fuel s1 i,
          generate_loop rnd min max total fuel s2 i with
    | Some (r1, j1), Some (r2, j2) => r1 ≡ₚ r2 /\ j1 = j2
    | None, None => True
    | _, _ => False
    end.
Proof.
  induction fuel as [|fuel IH]; intros s1 s2 i Hp; simpl;
    rewrite <- (Permutation_length Hp);
    destruct (Z.of_nat (length s1) <? total); try done.
  apply IH. by apply set_add_perm.
Qed.

(** The ticket depends on the fixed numbers as a set only: their order
    and their repetitions do not matter, and neither does the number of
    draws. *)
Theorem generator_fixed_as_set (c : GenConfig) (f1 f2 : option (list Z)) (fuel : nat) :
  (forall x, x ∈ default [] f1 <-> x ∈ default [] f2) ->
  generateUniqueNumbersWithFixed rnd fuel (with_fixed c f1)
  = generateUniqueNumbersWithFixed rnd fuel (with_fixed c f2).
Proof.
  intros Hsame. unfold generateUniqueNumbersWithFixed, with_fixed. simpl.
  destruct (new_Set_spec (default [] f1)) as [Hn1 He1].
  destruct (new_Set_spec (default [] f2)) as [Hn2 He2].
  assert (Hp : new_Set (default [] f1) ≡ₚ new_Set (default [] f2)).
  { apply NoDup_Permutation; [done|done|]. intros x. by rewrite He1, He2. }
  assert (Hl := generate_loop_perm (cfg_min c) (cfg_max c) (cfg_total c) fuel _ _ 0%nat Hp).
  destruct (generate_loop _ _ _ _ _ (new_Set (default [] f1)) _) as [[r1 j1]|],
           (generate_loop _ _ _ _ _ (new_Set (default [] f2)) _) as [[r2 j2]|];
    try done.
  destruct Hl as [Hr ->]. f_equal. f_equal.
  apply (StronglySorted_unique Z.le).
  - apply StronglySorted_merge_sort; apply _.
  - apply StronglySorted_merge_sort; apply _.
  - by rewrite !merge_sort_Permutation.
Qed.

End GeneratorEdges.

Section Mock.

Variable rnd : nat -> Q.
Variable loto_type : string.
Variable c : GenConfig.
Variable round0 : jsnum.
Variable drawDate0 : string.
Variables now iso : nat -> string.

Hypothesis Hvalid : valid_config c.
Hypothesis Hunit : unit_interval rnd.

Lemma unit_interval_shift (start : nat) : unit_interval (fun k => rnd (start + k)%nat).
Proof. intros i. apply Hunit. Qed.

Lemma fair_shift (start : nat) :
  fair rnd (cfg_min c) (cfg_max c) ->
  fair (fun k => rnd (start + k)%nat) (cfg_min c) (cfg_max c).
Proof.
  intros Hfair k v Hv. destruct (Hfair (start + k)%nat v Hv) as (j & Hj & Hr).
  exists (j - start)%nat. split; [lia|]. by replace (start + (j - start))%nat with j by lia.
Qed.

Lemma generate_sound (start fuel : nat) (ticket : list Z) (draws : nat) :
  generateUniqueNumbersWithFixed (fun k => rnd (start + k)%nat) fuel c
    = Some (ticket, draws) ->
  valid_ticket c ticket.
Proof.
  destruct (loop_inv_init c Hvalid) as [Hset Hinv].
  unfold generateUniqueNumbersWithFixed. rewrite Hset.
  destruct (generate_loop _ _ _ _ _ _ _) as [[set i]|] eqn:Hrun; [|done].
  intros [= <- <-].
  destruct (generate_loop_sound _ _ _ _ (unit_interval_shift start)
              (proj1 (proj2 (proj2 (proj2 Hvalid))))
              (proj2 (proj2 (proj2 (proj2 Hvalid)))) _ fuel _ _ _ _ Hinv Hrun).
  by apply sorted_ticket.
Qed.

Lemma generate_returns (start : nat) :
  fair rnd (cfg_min c) (cfg_max c) ->
  exists fuel ticket draws,
    forall fuel', (fuel <= fuel')%nat ->
      generateUniqueNumbersWithFixed (fun k => rnd (start + k)%nat) fuel' c
        = Some (ticket, draws).
Proof.
  intros Hfair. destruct (loop_inv_init c Hvalid) as [Hset Hinv].
  destruct (generate_loop_terminates _ _ _ _ (unit_interval_shift start)
              (proj1 (proj2 (proj2 (proj2 Hvalid))))
              (proj2 (proj2 (proj2 (proj2 Hvalid)))) (fair_shift start Hfair)
              _ _ _ 0%nat Hinv (le_n _)) as (fuel & [set i] & Hrun).
  exists fuel, (merge_sort Z.le set), i. intros fuel' Hle.
  unfold generateUniqueNumbersWithFixed. rewrite Hset.
  by rewrite (generate_loop_mono _ _ _ _ fuel fuel' _ _ _ Hle Hrun).
Qed.

Lemma ticket_converts (l : list Z) :
  forallb convertible (map (fun z => JNum (num_of_Z z)) l) = true.
Proof. by induction l. Qed.

Lemma mock_record_ticket (i : nat) (nums : list Z) :
  valid_ticket c nums ->
  mock_ticket c (mock_record loto_type (default [] (cfg_fixedNumbers c))
                   round0 drawDate0 (now i) (iso i) i nums).
Proof.
  intros Hv. exists nums. split_and!; try done; try by vm_compute.
  unfold Loto7Logic.renderable.
  set (r := mock_record _ _ _ _ _ _ _ _).
  assert (Hn : get_opt (get_prop r "prediction") "numbers" = Some (ticket_of nums))
    by (by vm_compute).
  assert (Hf : get_opt (get_prop r "prediction") "fixed_numbers"
               = Some (ticket_of (default [] (cfg_fixedNumbers c)))) by (by vm_compute).
  assert (Hd : get_opt (get_prop r "draw") "draw_date" = Some (JStr drawDate0))
    by (by vm_compute).
  assert (Hr : get_opt (get_prop r "draw") "round"
               = Some (JNum (falsy_to round0 (Fin 0)))) by (by vm_compute).
  unfold head_renders. rewrite Hn, Hf, Hd, Hr. unfold ticket_of, js_or. cbn [truthy].
  unfold balls_render, Loto7Logic.members_convert, Loto7Logic.iterable.
  rewrite !ticket_converts.
  destruct (negb (String.eqb drawDate0 "")); by destruct (num_truthy _).
Qed.

Lemma mock_loop_sound (fuel todo : nat) :
  forall (i start : nat) (records : list JSON),
    mock_loop rnd fuel loto_type c round0 drawDate0 now iso todo i start = Some records ->
    length records = todo /\ Forall (mock_ticket c) records.
Proof.
  induction todo as [|todo IH]; intros i start records; simpl.
  - by intros [= <-].
  - destruct (generateUniqueNumbersWithFixed _ fuel c) as [[nums draws]|] eqn:Hg; [|done].
    destruct (mock_loop _ _ _ _ _ _ _ _ todo (S i) _) as [rest|] eqn:Hrest; [|done].
    intros [= <-]. destruct (IH _ _ _ Hrest) as [Hlen Hall].
    split; [simpl; by rewrite Hlen|].
    constructor; [|done]. apply mock_record_ticket. by eapply generate_sound.
Qed.

Lemma mock_loop_returns (todo : nat) :
  fair rnd (cfg_min c) (cfg_max c) ->
  forall (i start : nat),
    exists fuel records,
      forall fuel', (fuel <= fuel')%nat ->
        mock_loop rnd fuel' loto_type c round0 drawDate0 now iso todo i start
          = Some records.
Proof.
  intros Hfair. induction todo as [|todo IH]; intros i start.
  - by exists 0%nat, [].
  - destruct (generate_returns start Hfair) as (f1 & nums & draws & Hg).
    destruct (IH (S i) (start + draws)%nat) as (f2 & rest & Hrest).
    exists (Nat.max f1 f2). eexists. intros fuel' Hle. simpl.
    rewrite Hg by lia. rewrite Hrest by lia. reflexivity.
Qed.

End Mock.

(** [mockFetchPredictions(count)] of either logic page (a valid
    configuration, any run of [Math.random()]): whenever it returns, it
    returns exactly [count] records, each carrying a valid ticket (of the
    size of the page, distinct, in range, ascending, with the fixed
    numbers), the fixed numbers, the tag [mock], and in a shape the cards
    can render. It does return when every value of the range keeps
    occurring in the random sequence. *)
Theorem mock_batch (rnd : nat -> Q) (loto_type : string) (c : GenConfig)
    (round0 : jsnum) (drawDate0 : string) (now iso : nat -> string) (count : Z) :
  valid_config c ->
  unit_interval rnd ->
  (forall fuel records,
     mockFetchPredictions rnd fuel loto_type c round0 drawDate0 now iso count
       = Some records ->
     length records = Z.to_nat count /\ Forall (mock_ticket c) records) /\
  (fair rnd (cfg_min c) (cfg_max c) ->
   exists fuel records,
     forall fuel', (fuel <= fuel')%nat ->
       mockFetchPredictions rnd fuel' loto_type c round0 drawDate0 now iso count
         = Some records).
Proof.
  intros Hvalid Hunit. split.
  - intros fuel records. by apply mock_loop_sound.
  - intros Hfair. by apply mock_loop_returns.
Qed.

(* ================================================================== *)
(** * 20. [escapeHtml] and [dedupeLines] *)
(* ================================================================== *)

Section Escape.

Lemma string_app_cons (a : Ascii.ascii) (s1 s2 : string) :
  String a s1 +:+ s2 = String a (s1 +:+ s2).
Proof. reflexivity. Qed.

Lemma string_app_assoc (s1 s2 s3 : string) :
  s1 +:+ (s2 +:+ s3) = (s1 +:+ s2) +:+ s3.
Proof. induction s1 as [|a s1 IH]; [done|]. by rewrite !string_app_cons, IH. Qed.

Lemma replaceAll_app (c : Ascii.ascii) (r s1 s2 : string) :
  replaceAll c r (s1 +:+ s2) = replaceAll c r s1 +:+ replaceAll c r s2.
Proof.
  induction s1 as [|a s1 IH]; [done|].
  change (String a s1 +:+ s2) with (String a (s1 +:+ s2)).
  cbn [replaceAll]. destruct (Ascii.eqb a c).
  - rewrite IH. apply string_app_assoc.
  - rewrite IH. reflexivity.
Qed.

Lemma escapeHtml_app (s1 s2 : string) :
  escapeHtml (s1 +:+ s2) = escapeHtml s1 +:+ escapeHtml s2.
Proof. unfold escapeHtml. by rewrite !replaceAll_app. Qed.

Lemma escapeHtml_one (a : Ascii.ascii) :
  escapeHtml (String a EmptyString) = escape_char a.
Proof.
  unfold escapeHtml, escape_char. simpl.
  destruct (Ascii.eqb a AMP) eqn:H1; [apply Ascii.eqb_eq in H1 as ->; reflexivity|].
  simpl. destruct (Ascii.eqb a LT) eqn:H2; [apply Ascii.eqb_eq in H2 as ->; reflexivity|].
  simpl. destruct (Ascii.eqb a GT) eqn:H3; [apply Ascii.eqb_eq in H3 as ->; reflexivity|].
  simpl. destruct (Ascii.eqb a QUOT) eqn:H4; [apply Ascii.eqb_eq in H4 as ->; reflexivity|].
  simpl. by destruct (Ascii.eqb a APOS) eqn:H5; [apply Ascii.eqb_eq in H5 as ->|].
Qed.

Lemma escapeHtml_cons (a : Ascii.ascii) (s : string) :
  escapeHtml (String a s) = escape_char a +:+ escapeHtml s.
Proof.
  change (String a s) with (String a EmptyString +:+ s).
  by rewrite escapeHtml_app, escapeHtml_one.
Qed.

Lemma chars_app (s1 s2 : string) : chars (s1 +:+ s2) = chars s1 ++ chars s2.
Proof.
  unfold chars. induction s1 as [|a s1 IH]; [done|].
  rewrite string_app_cons. simpl. by rewrite IH.
Qed.

Lemma escape_char_safe (a : Ascii.ascii) :
  Forall (fun b => markup_char b = false) (chars (escape_char a)).
Proof.
  unfold escape_char.
  destruct (Ascii.eqb a AMP) eqn:H1; [by repeat constructor|].
  destruct (Ascii.eqb a LT) eqn:H2; [by repeat constructor|].
  destruct (Ascii.eqb a GT) eqn:H3; [by repeat constructor|].
  destruct (Ascii.eqb a QUOT) eqn:H4; [by repeat constructor|].
  destruct (Ascii.eqb a APOS) eqn:H5; [by repeat constructor|].
  repeat constructor. unfold markup_char. by rewrite H2, H3, H4, H5.
Qed.

Lemma escapeHtml_markup_free (s : string) :
  Forall (fun b => markup_char b = false) (chars (escapeHtml s)).
Proof.
  induction s as [|a s IH]; [constructor|].
  rewrite escapeHtml_cons, chars_app. apply Forall_app. split; [|done].
  apply escape_char_safe.
Qed.

Lemma escape_char_inj (a b : Ascii.ascii) (x y : string) :
  escape_char a +:+ x = escape_char b +:+ y -> a = b /\ x = y.
Proof.
  unfold escape_char.
  destruct (Ascii.eqb a AMP) eqn:A1; [apply Ascii.eqb_eq in A1 as ->|];
  [|destruct (Ascii.eqb a LT) eqn:A2; [apply Ascii.eqb_eq in A2 as ->|];
    [|destruct (Ascii.eqb a GT) eqn:A3; [apply Ascii.eqb_eq in A3 as ->|];
      [|destruct (Ascii.eqb a QUOT) eqn:A4; [apply Ascii.eqb_eq in A4 as ->|];
        [|destruct (Ascii.eqb a APOS) eqn:A5; [apply Ascii.eqb_eq in A5 as ->|]]]]];
  (destruct (Ascii.eqb b AMP) eqn:B1; [apply Ascii.eqb_eq in B1 as ->|];
   [|destruct (Ascii.eqb b LT) eqn:B2; [apply Ascii.eqb_eq in B2 as ->|];
     [|destruct (Ascii.eqb b GT) eqn:B3; [apply Ascii.eqb_eq in B3 as ->|];
       [|destruct (Ascii.eqb b QUOT) eqn:B4; [apply Ascii.eqb_eq in B4 as ->|];
         [|destruct (Ascii.eqb b APOS) eqn:B5; [apply Ascii.eqb_eq in B5 as ->|]]]]]);
  simpl; intros Heq; injection Heq; intros; subst;
    try discriminate; try done.
Qed.

Lemma escape_char_nonempty (a : Ascii.ascii) (x : string) :
  escape_char a +:+ x <> EmptyString.
Proof. unfold escape_char. by repeat case_match. Qed.

Lemma length_escape_char (a : Ascii.ascii) :
  (1 <= String.length (escape_char a))%nat.
Proof. unfold escape_char. repeat case_match; simpl; lia. Qed.

Lemma length_string_app (s1 s2 : string) :
  String.length (s1 +:+ s2) = (String.length s1 + String.length s2)%nat.
Proof.
  induction s1 as [|a s1 IH]; [done|]. rewrite string_app_cons. simpl. by rewrite IH.
Qed.

Lemma escapeHtml_grows (s : string) :
  (String.length s <= String.length (escapeHtml s))%nat.
Proof.
  induction s as [|a s IH]; [done|].
  rewrite escapeHtml_cons, length_string_app. simpl.
  assert (H := length_escape_char a). lia.
Qed.

(** [escapeHtml] is safe and loses nothing. Its output contains none of
    the characters that can open a tag or close an attribute: no angle
    bracket, no double quote, no apostrophe. Two different texts have
    different escapes; a text without any of the five characters is
    returned as it is; and no text gets shorter. *)
Theorem escapeHtml_faithful (s : string) :
  Forall (fun b => markup_char b = false) (chars (escapeHtml s)) /\
  (forall t, escapeHtml s = escapeHtml t -> s = t) /\
  (Forall (fun a => special_char a = false) (chars s) -> escapeHtml s = s) /\
  (String.length s <= String.length (escapeHtml s))%nat.
Proof.
  split_and!.
  - apply escapeHtml_markup_free.
  - induction s as [|a s IH]; intros [|b t] Heq.
    + done.
    + rewrite escapeHtml_cons in Heq. symmetry in Heq.
      by apply escape_char_nonempty in Heq.
    + rewrite escapeHtml_cons in Heq. by apply escape_char_nonempty in Heq.
    + rewrite !escapeHtml_cons in Heq. apply escape_char_inj in Heq as [-> Heq].
      f_equal. by apply IH.
  - induction s as [|a s IH]; intros Hall; [done|].
    apply Forall_cons in Hall as [Ha Hall]. rewrite escapeHtml_cons, IH by done.
    unfold special_char, markup_char in Ha. unfold escape_char.
    repeat (apply orb_false_elim in Ha as [Ha ?]).
    by repeat case_match.
  - apply escapeHtml_grows.
Qed.

End Escape.

Section Dedupe.

Variable E : Env.
Variable trim : string -> string.

Lemma dedupe_loop_spec (lines : list JSON) :
  forall acc out : list string,
    NoDup acc -> Forall (fun k => k <> "") acc ->
    dedupe_loop E trim lines acc acc = Return out ->
    NoDup out /\
    Forall (fun k => k <> "") out /\
    (forall k, k ∈ out <->
               k ∈ acc \/ (k <> "" /\ k ∈ map (line_key E trim) lines)) /\
    exists tail, out = acc ++ tail /\
                 sublist tail (map (line_key E trim) lines).
Proof.
  induction lines as [|line rest IH]; intros acc out Hnd Hne; simpl.
  - intros [= <-]. split_and!; [done|done| |].
    + intros k. rewrite elem_of_nil. tauto.
    + exists []. by rewrite app_nil_r.
  - unfold String_of. destruct (unconvertible line); [done|].
    fold (line_key E trim line).
    destruct (String.eqb (line_key E trim line) "") eqn:Hblank.
    { apply String.eqb_eq in Hblank. intros Hrun.
      destruct (IH acc out Hnd Hne Hrun) as (H1 & H2 & H3 & tail & H4 & H5).
      split_and!; [done|done| |].
      - intros k. rewrite H3, elem_of_cons. split; [tauto|].
        intros [?|[Hk [->|?]]]; [tauto|congruence|tauto].
      - exists tail. split; [done|]. by apply sublist_cons. }
    apply String.eqb_neq in Hblank.
    destruct (bool_decide (line_key E trim line ∈ acc)) eqn:Hseen.
    { apply bool_decide_eq_true in Hseen. intros Hrun.
      destruct (IH acc out Hnd Hne Hrun) as (H1 & H2 & H3 & tail & H4 & H5).
      split_and!; [done|done| |].
      - intros k. rewrite H3, elem_of_cons. split; [tauto|].
        intros [?|[Hk [->|?]]]; tauto.
      - exists tail. split; [done|]. by apply sublist_cons. }
    apply bool_decide_eq_false in Hseen. intros Hrun.
    destruct (IH (acc ++ [line_key E trim line]) out) as (H1 & H2 & H3 & tail & H4 & H5).
    { apply NoDup_app. split_and!; [done| |apply NoDup_singleton].
      intros x Hx Hx'. apply list_elem_of_singleton in Hx' as ->. done. }
    { apply Forall_app. split; [done|]. by constructor. }
    { exact Hrun. }
    split_and!; [done|done| |].
    + intros k. rewrite H3, elem_of_app, list_elem_of_singleton, elem_of_cons.
      split; [|tauto]. intros [[?| ->]|?]; tauto.
    + exists (line_key E trim line :: tail). split.
      * by rewrite H4, <- app_assoc.
      * by apply sublist_skip.
Qed.

(** The loop fails exactly when [String(line)] does for one of the
    lines. *)
Lemma dedupe_loop_outcome (lines : list JSON) :
  forall seen out : list string,
    if existsb unconvertible lines
    then dedupe_loop E trim lines seen out = Throw (TypeError (type_error_message E))
    else exists keys, dedupe_loop E trim lines seen out = Return keys.
Proof.
  induction lines as [|line rest IH]; intros seen out; simpl.
  - by eexists.
  - unfold String_of. destruct (unconvertible line); simpl; [done|].
    destruct (String.eqb _ ""); [apply IH|].
    destruct (bool_decide _); apply IH.
Qed.

Lemma dedupe_loop_fixed (l : list string) :
  forall acc : list string,
    NoDup (acc ++ l) ->
    Forall (fun k => k <> "" /\ trim k = k) l ->
    dedupe_loop E trim (map JStr l) acc acc = Return (acc ++ l).
Proof.
  induction l as [|k l IH]; intros acc Hnd Hall; simpl.
  - by rewrite app_nil_r.
  - apply Forall_cons in Hall as [[Hk Ht] Hall].
    unfold String_of. simpl. rewrite Ht.
    apply String.eqb_neq in Hk. rewrite Hk.
    assert (Hout : k ∉ acc).
    { apply NoDup_app in Hnd as (_ & H & _). intros Hin. apply (H k Hin). left. }
    rewrite bool_decide_eq_false_2 by done.
    rewrite IH; rewrite <- ?app_assoc; done.
Qed.


Lemma fortune_text_outcome (json : JSON) :
  if existsb unconvertible (fortune_lines json)
  then fortune_text E trim json = Throw (TypeError (type_error_message E))
  else exists text, fortune_text E trim json = Return text.
Proof.
  assert (Hout := dedupe_loop_outcome (fortune_lines json) [] []).
  unfold fortune_text, dedupeLines.
  destruct (existsb unconvertible (fortune_lines json)).
  - by rewrite Hout.
  - destruct Hout as (keys & ->). by eexists.
Qed.

(** [renderFortune] writes a paragraph exactly when the lines of the
    description convert to text, and the paragraph it writes is never
    empty and contains no markup character, whatever the answer holds. *)
Theorem fortune_text_shown (json : JSON) :
  (existsb unconvertible (fortune_lines json) = true ->
   fortune_text E trim json = Throw (TypeError (type_error_message E))) /\
  (existsb unconvertible (fortune_lines json) = false ->
   exists text, fortune_text E trim json = Return text) /\
  (forall text, fortune_text E trim json = Return text ->
     text <> "" /\ Forall (fun b => markup_char b = false) (chars text)).
Proof.
  assert (Hout := dedupe_loop_outcome (fortune_lines json) [] []).
  unfold fortune_text, dedupeLines. split_and!.
  - intros Hx. rewrite Hx in Hout. by rewrite Hout.
  - intros Hx. rewrite Hx in Hout. destruct Hout as (keys & ->). by eexists.
  - destruct (dedupe_loop _ _ _ _ _) as [keys|e]; [|done].
    intros text [= <-]. split; [|apply escapeHtml_markup_free].
    set (text := String.concat NEWLINE _).
    assert (Hlen : forall s, s <> "" -> escapeHtml s <> "").
    { intros s Hs He.
      assert (Hl := escapeHtml_grows s). rewrite He in Hl.
      destruct s; [done|]. simpl in Hl. lia. }
    destruct (String.eqb text "") eqn:Ht.
    + by apply Hlen.
    + apply Hlen. by apply String.eqb_neq.
Qed.

End Dedupe.

(* ================================================================== *)
(** * 21. The fortune page *)
(* ================================================================== *)

Section FortunePage.

Variable E : Env.
Variable trim : string -> string.

Lemma fetchFortuneOnce_run (b : string) (count : Z) (rd : jsnum)
    (dd : option string) (w : World) :
  let url := Loto7Fortune.fortune_url E b count rd dd in
  let req := LotoAuth.outgoing (localStorage w !! "access_token") GET in
  Loto7Fortune.fetchFortuneOnce E b count rd dd w =
    match fetch E url req with
    | Return res =>
        if status res =? 401 then
          (Throw (Error "Unauthorized"),
           {| localStorage := delete "user" (delete "access_token" (localStorage w));
              location_href := "login.html";
              dom := dom w; round := round w; drawDate := drawDate w;
              trace := trace w ++ EvFetch url req :: logout_events |})
        else
          (if status res =? 403 then Throw (Error PREMIUM_REQUIRED)
           else if negb (ok res)
                then Throw (Error ("Engine error: " +:+ pretty (status res)))
                else match json res with
                     | Throw e => Throw e
                     | Return data => Loto7Fortune.normalize_fortune data
                     end,
           {| localStorage := localStorage w; location_href := location_href w;
              dom := dom w; round := round w; drawDate := drawDate w;
              trace := trace w ++ [EvFetch url req] |})
    | Throw e =>
        (Throw e,
         {| localStorage := localStorage w; location_href := location_href w;
            dom := dom w; round := round w; drawDate := drawDate w;
            trace := trace w ++ [EvFetch url req] |})
    end.
Proof.
  intros url req.
  assert (Hrun := fetchWithAuth_run E w url GET). cbv zeta in Hrun. fold req in Hrun.
  unfold Loto7Fortune.fetchFortuneOnce, bind. fold url. rewrite Hrun.
  destruct (fetch E url req) as [res|e]; [|done].
  destruct (status res =? 401); [done|].
  destruct (status res =? 403); [done|].
  destruct (negb (ok res)); [done|].
  unfold await. by destruct (json res).
Qed.

Lemma complete_birth_date (y m d : string) :
  y <> "" -> m <> "" -> d <> "" ->
  String.eqb y "" || String.eqb m "" || String.eqb d "" = false.
Proof.
  intros Hy Hm Hd.
  apply String.eqb_neq in Hy, Hm, Hd. by rewrite Hy, Hm, Hd.
Qed.

(** A click with an incomplete birth date sends nothing and changes
    nothing outside the page; the page asks for the birth date, and keeps
    its cards and its button as they were. *)
Theorem fortune_click_incomplete (y m d value : string)
    (ds_round ds_drawDate : option string) (p : World * FortuneDom) :
  y = "" \/ m = "" \/ d = "" ->
  let p' := fortune_on_click E trim y m d value ds_round ds_drawDate p in
  fst p' = fst p /\
  fortuneState_hidden (snd p') = false /\
  fortuneStateText_textContent (snd p') = TEXT_BIRTHDATE /\
  fortuneText_hidden (snd p') = true /\
  fortune_cards (snd p') = fortune_cards (snd p) /\
  fortune_button_disabled (snd p') = fortune_button_disabled (snd p) /\
  fortune_button_textContent (snd p') = fortune_button_textContent (snd p).
Proof.
  intros Hempty p'. subst p'. unfold fortune_on_click.
  assert (String.eqb y "" || String.eqb m "" || String.eqb d "" = true) as ->.
  { destruct Hempty as [-> |[-> | ->]]; simpl; by rewrite ?orb_true_r. }
  done.
Qed.

(** A click with a complete birth date sends exactly one request, to the
    prediction endpoint with the padded birth date and the clamped count,
    and whatever the answer, the button is enabled again and exactly one
    of the message and the fortune text is visible. *)
Theorem fortune_click_settles (y m d value : string)
    (ds_round ds_drawDate : option string) (p : World * FortuneDom) :
  y <> "" -> m <> "" -> d <> "" ->
  let p' := fortune_on_click E trim y m d value ds_round ds_drawDate p in
  let url := Loto7Fortune.fortune_url E (birthDate_of y m d) (requested_count E value)
               (match ds_round with Some s => string_to_number E s | None => NaN end)
               ds_drawDate in
  let req := LotoAuth.outgoing (localStorage (fst p) !! "access_token") GET in
  fortune_button_disabled (snd p') = false /\
  fortuneState_hidden (snd p') = negb (fortuneText_hidden (snd p')) /\
  (exists rest, trace (fst p') = trace (fst p) ++ EvFetch url req :: rest /\
                List.filter is_fetch rest = []).
Proof.
  intros Hy Hm Hd p' url req. subst p'. unfold fortune_on_click.
  rewrite complete_birth_date by done.
  cbv zeta. rewrite fetchFortuneOnce_run. fold url req.
  destruct (fetch E url req) as [res|e].
  2:{ cbn [fst snd]. unfold fortune_catch.
      destruct (is_premium_required e); split_and!; try done; by exists []. }
  destruct (status res =? 401).
  { cbn [fst snd]. unfold fortune_catch.
    destruct (is_premium_required _); split_and!; try done; by exists logout_events. }
  destruct (status res =? 403).
  { cbn [fst snd]. split_and!; try done. by exists []. }
  destruct (negb (ok res)).
  { cbn [fst snd]. unfold fortune_catch.
    destruct (is_premium_required _); split_and!; try done; by exists []. }
  destruct (json res) as [data|e].
  2:{ cbn [fst snd]. unfold fortune_catch.
      destruct (is_premium_required e); split_and!; try done; by exists []. }
  unfold Loto7Fortune.normalize_fortune.
  destruct (isArray _).
  2:{ cbn [fst snd]. split_and!; try done. by exists []. }
  unfold renderFortune. destruct (fortune_text E trim data) as [text|e].
  2:{ cbn [fst snd]. unfold fortune_catch.
      destruct (is_premium_required e); split_and!; try done; by exists []. }
  destruct (js_or _ _) as [| | | |tickets|]; cbn [fst snd]; unfold fortune_catch;
    try (destruct (is_premium_required _); split_and!; try done; by exists []).
  destruct (forallb card_ok tickets); cbn [fst snd];
    try (destruct (is_premium_required _)); split_and!; try done; by exists [].
Qed.

(** A 403 answer ends in the paywall: no cards, the session and the
    location as before. The button is enabled but keeps the label it got
    while loading. *)
Theorem fortune_click_premium (y m d value : string)
    (ds_round ds_drawDate : option string) (p : World * FortuneDom) (res : Response) :
  y <> "" -> m <> "" -> d <> "" ->
  fetch E (Loto7Fortune.fortune_url E (birthDate_of y m d) (requested_count E value)
             (match ds_round with Some s => string_to_number E s | None => NaN end)
             ds_drawDate)
          (LotoAuth.outgoing (localStorage (fst p) !! "access_token") GET) = Return res ->
  status res = 403 ->
  let p' := fortune_on_click E trim y m d value ds_round ds_drawDate p in
  fortuneText_innerHTML (snd p') = FortunePremiumWall /\
  fortuneText_hidden (snd p') = false /\
  fortuneState_hidden (snd p') = true /\
  fortune_cards (snd p') = [] /\
  fortune_button_disabled (snd p') = false /\
  fortune_button_textContent (snd p') = TEXT_DIVINING /\
  localStorage (fst p') = localStorage (fst p) /\
  location_href (fst p') = location_href (fst p).
Proof.
  intros Hy Hm Hd Hfetch H403 p'. subst p'. unfold fortune_on_click.
  rewrite complete_birth_date by done.
  cbv zeta. rewrite fetchFortuneOnce_run, Hfetch, H403. by cbn.
Qed.

(** A 401 answer ends the session and shows the generic failure message,
    not the paywall; no card is shown. *)
Theorem fortune_click_unauthorized (y m d value : string)
    (ds_round ds_drawDate : option string) (p : World * FortuneDom) (res : Response) :
  y <> "" -> m <> "" -> d <> "" ->
  fetch E (Loto7Fortune.fortune_url E (birthDate_of y m d) (requested_count E value)
             (match ds_round with Some s => string_to_number E s | None => NaN end)
             ds_drawDate)
          (LotoAuth.outgoing (localStorage (fst p) !! "access_token") GET) = Return res ->
  status res = 401 ->
  let p' := fortune_on_click E trim y m d value ds_round ds_drawDate p in
  localStorage (fst p') !! "access_token" = None /\
  localStorage (fst p') !! "user" = None /\
  location_href (fst p') = "login.html" /\
  fortuneStateText_textContent (snd p') = TEXT_RETRY_LATER /\
  fortuneState_hidden (snd p') = false /\
  fortuneText_innerHTML (snd p') = FortuneEmpty /\
  fortune_cards (snd p') = [].
Proof.
  intros Hy Hm Hd Hfetch H401 p'. subst p'. unfold fortune_on_click.
  rewrite complete_birth_date by done.
  cbv zeta. rewrite fetchFortuneOnce_run, Hfetch, H401. cbn.
  split_and!; try done.
  - rewrite lookup_delete_ne by done. apply lookup_delete_eq.
  - apply lookup_delete_eq.
Qed.

(** A successful answer whose description lines convert to text and
    whose tickets are arrays of convertible members (or falsy) is
    displayed whole: one card per ticket of the answer, however many were
    asked for, under the fortune text; the button is enabled and
    relabelled. *)
Theorem fortune_click_success (y m d value : string)
    (ds_round ds_drawDate : option string) (p : World * FortuneDom)
    (res : Response) (data : JSON) (tickets : list JSON) :
  y <> "" -> m <> "" -> d <> "" ->
  fetch E (Loto7Fortune.fortune_url E (birthDate_of y m d) (requested_count E value)
             (match ds_round with Some s => string_to_number E s | None => NaN end)
             ds_drawDate)
          (LotoAuth.outgoing (localStorage (fst p) !! "access_token") GET) = Return res ->
  ok res = true ->
  json res = Return data ->
  get_opt (get_prop data "prediction") "tickets" = Some (JArr tickets) ->
  existsb unconvertible (fortune_lines data) = false ->
  forallb card_ok tickets = true ->
  let p' := fortune_on_click E trim y m d value ds_round ds_drawDate p in
  fortune_cards (snd p') = tickets /\
  (exists text, fortune_text E trim data = Return text /\
                fortuneText_innerHTML (snd p') = FortuneParagraph text) /\
  fortuneText_hidden (snd p') = false /\
  fortuneState_hidden (snd p') = true /\
  fortune_button_disabled (snd p') = false /\
  fortune_button_textContent (snd p') = TEXT_AGAIN /\
  localStorage (fst p') = localStorage (fst p) /\
  location_href (fst p') = location_href (fst p).
Proof.
  intros Hy Hm Hd Hfetch Hok Hjson Htickets Hlines Hcards p'. subst p'.
  unfold fortune_on_click.
  rewrite complete_birth_date by done.
  cbv zeta. rewrite fetchFortuneOnce_run, Hfetch.
  assert (H401 : (status res =? 401) = false).
  { unfold ok in Hok. apply andb_true_iff in Hok as [_ Hle]. lia. }
  assert (H403 : (status res =? 403) = false).
  { unfold ok in Hok. apply andb_true_iff in Hok as [_ Hle]. lia. }
  rewrite H401, H403, Hok, Hjson. cbn [negb].
  unfold Loto7Fortune.normalize_fortune. rewrite Htickets. cbn [isArray].
  assert (Htext := fortune_text_outcome E trim data). rewrite Hlines in Htext.
  destruct Htext as (text & Htext).
  unfold renderFortune. rewrite Htext.
  rewrite ?Htickets. cbn [js_or truthy].
  rewrite Hcards. cbn. split_and!; try done. by exists text.
Qed.

(** A successful answer that cannot be rendered ends in the failure
    message, with no card at all and the button enabled under its
    loading label. When a description line does not convert to text the
    fortune card keeps its background as it was; when the lines convert
    and a ticket is truthy and not an array, or has a member that does
    not convert, the fortune text, already written, is taken back and the
    background put on the fortune card stays. *)
Theorem fortune_click_bad_ticket (y m d value : string)
    (ds_round ds_drawDate : option string) (p : World * FortuneDom)
    (res : Response) (data : JSON) (tickets : list JSON) :
  y <> "" -> m <> "" -> d <> "" ->
  fetch E (Loto7Fortune.fortune_url E (birthDate_of y m d) (requested_count E value)
             (match ds_round with Some s => string_to_number E s | None => NaN end)
             ds_drawDate)
          (LotoAuth.outgoing (localStorage (fst p) !! "access_token") GET) = Return res ->
  ok res = true ->
  json res = Return data ->
  get_opt (get_prop data "prediction") "tickets" = Some (JArr tickets) ->
  existsb unconvertible (fortune_lines data) = true \/
    forallb card_ok tickets = false ->
  type_error_message E <> PREMIUM_REQUIRED ->
  let p' := fortune_on_click E trim y m d value ds_round ds_drawDate p in
  fortune_cards (snd p') = [] /\
  fortuneText_innerHTML (snd p') = FortuneEmpty /\
  fortuneText_hidden (snd p') = true /\
  fortuneState_hidden (snd p') = false /\
  fortuneStateText_textContent (snd p') = TEXT_RETRY_LATER /\
  fortune_button_disabled (snd p') = false /\
  fortune_button_textContent (snd p') = TEXT_DIVINING /\
  fortuneCard_bg (snd p') =
    (if existsb unconvertible (fortune_lines data) then fortuneCard_bg (snd p)
     else (fun _ => true) <$> fortuneCard_bg (snd p)).
Proof.
  intros Hy Hm Hd Hfetch Hok Hjson Htickets Hbad Hmsg p'. subst p'.
  unfold fortune_on_click.
  rewrite complete_birth_date by done.
  cbv zeta. rewrite fetchFortuneOnce_run, Hfetch.
  assert (H401 : (status res =? 401) = false).
  { unfold ok in Hok. apply andb_true_iff in Hok as [_ Hle]. lia. }
  assert (H403 : (status res =? 403) = false).
  { unfold ok in Hok. apply andb_true_iff in Hok as [_ Hle]. lia. }
  rewrite H401, H403, Hok, Hjson. cbn [negb].
  unfold Loto7Fortune.normalize_fortune. rewrite Htickets. cbn [isArray].
  assert (Htext := fortune_text_outcome E trim data).
  apply String.eqb_neq in Hmsg.
  unfold renderFortune.
  destruct (existsb unconvertible (fortune_lines data)).
  - rewrite Htext. unfold fortune_catch, is_premium_required. cbn [message].
    rewrite Hmsg. by cbn.
  - destruct Htext as (text & ->). destruct Hbad as [|Hcards]; [done|].
    rewrite ?Htickets. cbn [js_or truthy].
    rewrite Hcards. unfold fortune_catch, is_premium_required. cbn [message].
    rewrite Hmsg. cbn. by destruct (fortuneCard_bg (snd p)).
Qed.

(** [fetchLatestDraw] of the fortune page rejects an answer that is not
    ok, with the status in the message, after one plain request: no
    header is added, and the session and the location are not touched,
    also when the status is 401. *)
Theorem fortune_fetchLatestDraw_rejects (lotoType : string) (w : World) (res : Response) :
  fetch E (draw_url E lotoType) GET = Return res ->
  ok res = false ->
  result (fortune_fetchLatestDraw E lotoType) w =
    Throw (Error ("draw/latest error: " +:+ pretty (status res))) /\
  emitted (fortune_fetchLatestDraw E lotoType) w = [EvFetch (draw_url E lotoType) GET] /\
  localStorage (final (fortune_fetchLatestDraw E lotoType) w) = localStorage w /\
  location_href (final (fortune_fetchLatestDraw E lotoType) w) = location_href w.
Proof.
  intros Hfetch Hok.
  unfold emitted, result, final, fortune_fetchLatestDraw, do_fetch, bind, log, await.
  cbn. rewrite Hfetch, Hok. cbn. split_and!; try done.
  by rewrite drop_app_length.
Qed.

End FortunePage.

(* ================================================================== *)
(** * 22. The selects: issue count and birth date *)
(* ================================================================== *)

Section Selects.

Variable E : Env.

Lemma numeral_nonempty (i : Z) : 1 <= i <= 100 -> pretty i <> "".
Proof.
  intros Hi.
  assert (Hall : forallb (fun i : Z => negb (String.eqb (pretty i) "")) (seqZ 1 100) = true)
    by (vm_compute; reflexivity).
  rewrite forallb_forall in Hall.
  assert (Hin : In i (seqZ 1 100)).
  { apply list_elem_of_In, elem_of_seqZ. lia. }
  apply Hall in Hin. apply negb_true_iff in Hin. by apply String.eqb_neq.
Qed.

Lemma numeral_length (lo n len : Z) (i : Z) :
  forallb (fun i : Z => Z.of_nat (String.length (pretty i)) =? len) (seqZ lo n) = true ->
  lo <= i < lo + n ->
  Z.of_nat (String.length (pretty i)) = len.
Proof.
  intros Hall Hi. rewrite forallb_forall in Hall.
  assert (Hin : In i (seqZ lo n)).
  { apply list_elem_of_In, elem_of_seqZ. lia. }
  apply Hall in Hin. lia.
Qed.

Lemma requested_count_numeral (i : Z) :
  reads_numerals E 100 -> 1 <= i <= 100 -> requested_count E (pretty i) = i.
Proof.
  intros Hnum Hi. unfold requested_count, js_or. cbn [truthy].
  pose proof (numeral_nonempty i Hi) as Hne.
  apply String.eqb_neq in Hne. rewrite Hne. cbn [negb number_of].
  rewrite Hnum by done. unfold clampInt. cbn [isFinite negb].
  rewrite trunc_inject_Z. lia.
Qed.

Lemma elem_of_issue_options (max : Z) (v : string) :
  v ∈ option_values (issue_options max) <-> exists i, 1 <= i <= max /\ v = pretty i.
Proof.
  unfold option_values, issue_options. rewrite <- list_fmap_compose.
  rewrite list_elem_of_fmap. split.
  - intros (i & -> & Hi). apply elem_of_seqZ in Hi. exists i. split; [lia|done].
  - intros (i & Hi & ->). exists i. split; [done|]. apply elem_of_seqZ. lia.
Qed.



Lemma length_padStart2 (s : string) :
  String.length s = 1%nat \/ String.length s = 2%nat ->
  String.length (padStart2 s) = 2%nat.
Proof.
  unfold padStart2. intros [H|H]; rewrite H; [|done].
  destruct s as [|a [|b s]]; done.
Qed.

Lemma elem_of_birth_values (label suffix : string) (first n : Z) (v : string) :
  v ∈ birth_values label suffix first n ->
  v = "" \/ exists i, first <= i < first + n /\ v = pretty i.
Proof.
  unfold birth_values, option_values, birth_options. rewrite fmap_cons, elem_of_cons.
  intros [->|Hv]; [by left|right].
  rewrite <- list_fmap_compose in Hv. apply list_elem_of_fmap in Hv as (i & -> & Hi).
  apply elem_of_seqZ in Hi. exists i. split; [lia|done].
Qed.

(** The birth date the click handler builds from the options of
    [initBirthSelects] has ten characters, a four-digit year, a month and
    a day padded to two digits, for every choice that avoids the three
    placeholders, up to the year 9999. *)
Theorem birth_date_format (currentYear : Z) (y m d : string) :
  currentYear <= 9999 ->
  y ∈ year_values currentYear -> m ∈ month_values -> d ∈ day_values ->
  y <> "" -> m <> "" -> d <> "" ->
  String.length (birthDate_of y m d) = 10%nat /\
  exists yi mi di, 1930 <= yi <= currentYear /\ 1 <= mi <= 12 /\ 1 <= di <= 31 /\
    birthDate_of y m d =
      pretty yi +:+ "-" +:+ padStart2 (pretty mi) +:+ "-" +:+ padStart2 (pretty di).
Proof.
  intros Hyear Hy Hm Hd Hy0 Hm0 Hd0.
  apply elem_of_birth_values in Hy as [?|(yi & Hyi & ->)]; [done|].
  apply elem_of_birth_values in Hm as [?|(mi & Hmi & ->)]; [done|].
  apply elem_of_birth_values in Hd as [?|(di & Hdi & ->)]; [done|].
  assert (Hly : Z.of_nat (String.length (pretty yi)) = 4).
  { apply (numeral_length 1000 9000); [by vm_compute|lia]. }
  assert (Hlm : String.length (padStart2 (pretty mi)) = 2%nat).
  { apply length_padStart2.
    destruct (decide (mi < 10)).
    - left. apply Nat2Z.inj. apply (numeral_length 1 9); [by vm_compute|lia].
    - right. apply Nat2Z.inj. apply (numeral_length 10 90); [by vm_compute|lia]. }
  assert (Hld : String.length (padStart2 (pretty di)) = 2%nat).
  { apply length_padStart2.
    destruct (decide (di < 10)).
    - left. apply Nat2Z.inj. apply (numeral_length 1 9); [by vm_compute|lia].
    - right. apply Nat2Z.inj. apply (numeral_length 10 90); [by vm_compute|lia]. }
  split.
  - unfold birthDate_of. rewrite !length_string_app, Hlm, Hld. simpl. lia.
  - exists yi, mi, di. split_and!; try lia. done.
Qed.

End Selects.

(* ================================================================== *)
(** * 23. The page load of the loto7 logic page *)
(* ================================================================== *)

Section PageLoad.

Variable E : Env.

(** The load of the loto7 logic page always comes to an end, after one
    plain request to the draw endpoint and without touching the session.
    It ends in one of three ways: the page shows the failure message and
    keeps the round and the date it had; or the round of the answer
    converts and its date does not, and then the round is already set
    when the page shows the failure message, while the date is kept; or
    both are set from the answer and the cards are left alone. *)
Theorem loto7_on_load_outcomes (w : World) :
  let c := Loto7Logic.on_load E in
  result c w = Return tt /\
  emitted c w = [EvFetch (draw_url E Loto7Logic.LOTO_TYPE) GET] /\
  localStorage (final c w) = localStorage w /\
  location_href (final c w) = location_href w /\
  ((error_shown TEXT_DRAW_FAILED (final c w) /\
    round (final c w) = round w /\ drawDate (final c w) = drawDate w)
   \/
   (exists res d,
      fetch E (draw_url E Loto7Logic.LOTO_TYPE) GET = Return res /\
      ok res = true /\ json res = Return d /\ d <> JNull /\
      unconvertible (js_or (get_prop d "round") (JNum (Fin 0))) = false /\
      unconvertible (js_or (get_prop d "draw_date") (JStr "")) = true /\
      error_shown TEXT_DRAW_FAILED (final c w) /\
      round (final c w) = number_of E (js_or (get_prop d "round") (JNum (Fin 0))) /\
      drawDate (final c w) = drawDate w)
   \/
   (exists res d,
      fetch E (draw_url E Loto7Logic.LOTO_TYPE) GET = Return res /\
      ok res = true /\ json res = Return d /\ d <> JNull /\
      draw_converts d /\
      round (final c w) = number_of E (js_or (get_prop d "round") (JNum (Fin 0))) /\
      drawDate (final c w) = text_of E (js_or (get_prop d "draw_date") (JStr "")) /\
      predictionCards_innerHTML (dom (final c w)) = predictionCards_innerHTML (dom w))).
Proof.
  intros c. subst c.
  unfold Loto7Logic.on_load, Loto7Logic.fetchLatestDraw, showError, setButtonLoading.
  js_unfold. cbn -[draw_url GET].
  destruct (fetch E (draw_url E Loto7Logic.LOTO_TYPE) GET) as [res|e] eqn:Hfetch;
    cbn -[draw_url GET].
  2:{ rewrite drop_app_length. split_and!; try done. by left. }
  destruct (ok res) eqn:Hok; cbn -[draw_url GET].
  2:{ rewrite drop_app_length. split_and!; try done. by left. }
  destruct (json res) as [d|e] eqn:Hjson; cbn -[draw_url GET].
  2:{ rewrite drop_app_length. split_and!; try done. by left. }
  assert (Hcase : d = JNull \/ d <> JNull) by (destruct d; auto).
  destruct Hcase as [->|Hd].
  { cbn -[draw_url GET]. rewrite drop_app_length. split_and!; try done. by left. }
  rewrite ?(prop_strict_nonnull E d) by done. unfold ret. cbn -[draw_url GET].
  unfold Number, String_of.
  destruct (unconvertible (js_or (get_prop d "round") (JNum (Fin 0)))) eqn:Hr;
    cbn -[draw_url GET].
  { rewrite drop_app_length. split_and!; try done. by left. }
  rewrite ?(prop_strict_nonnull E d) by done. unfold ret. cbn -[draw_url GET].
  destruct (unconvertible (js_or (get_prop d "draw_date") (JStr ""))) eqn:Hdd;
    cbn -[draw_url GET]; rewrite drop_app_length; split_and!; try done.
  - right. left. exists res, d. by split_and!.
  - right. right. exists res, d. by split_and!.
Qed.


End PageLoad.

(* ================================================================== *)
(** * 24. The properties of sections 17 to 23 on sample hosts *)
(* ================================================================== *)

Lemma host_reads_numerals (net : Url -> RequestInit -> Outcome Response) :
  reads_numerals (host_env net) 100.
Proof.
  intros i Hi. cbn [string_to_number host_env].
  assert (Hall : forallb (fun i : Z =>
                   match decimal_go (pretty i) 0 with
                   | Some n => n =? i
                   | None => false
                   end) (seqZ 1 100) = true) by (vm_compute; reflexivity).
  rewrite forallb_forall in Hall.
  assert (Hin : In i (seqZ 1 100)).
  { apply list_elem_of_In, elem_of_seqZ. lia. }
  apply Hall in Hin. unfold decimal.
  destruct (decimal_go (pretty i) 0) as [n|]; [|done].
  apply Z.eqb_eq in Hin. by subst n.
Qed.

Lemma trim_start_head (s : string) :
  match trim_start s with
  | EmptyString => True
  | String a _ => Ascii.eqb a SPACE = false
  end.
Proof.
  induction s as [|a s IH]; [done|]. simpl.
  destruct (Ascii.eqb a SPACE) eqn:Ha; [done|]. by rewrite Ha.
Qed.

Lemma trim_end_idem (s : string) : trim_end (trim_end s) = trim_end s.
Proof.
  induction s as [|a s IH]; [done|]. simpl.
  destruct (Ascii.eqb a SPACE && String.eqb (trim_end s) "") eqn:Hc; [done|].
  simpl. by rewrite IH, Hc.
Qed.

Lemma sample_trim_idem (s : string) : sample_trim (sample_trim s) = sample_trim s.
Proof.
  unfold sample_trim. assert (H := trim_start_head s).
  destruct (trim_start s) as [|a t]; [done|].
  assert (Hkeep : trim_end (String a t) = String a (trim_end t)).
  { simpl. by rewrite H. }
  rewrite Hkeep. simpl. rewrite H. simpl.
  rewrite H. simpl. by rewrite trim_end_idem.
Qed.

Lemma loto7_click_unauthorized_witness :
  let w' := final (Loto7Logic.on_click (host_env (always 401 JNull)) "3") logged_in in
  error_shown TEXT_RETRY_LATER w' /\
  localStorage w' !! "access_token" = None /\
  localStorage w' !! "user" = None /\
  location_href w' = "login.html".
Proof.
  exact (loto7_click_unauthorized (host_env (always 401 JNull)) "3" logged_in
           {| status := 401; json := Return JNull |} eq_refl eq_refl).
Defined.

Lemma loto7_click_engine_failure_witness :
  let w' := final (Loto7Logic.on_click (host_env (always 500 JNull)) "3") logged_in in
  error_shown TEXT_RETRY_LATER w' /\
  localStorage w' = localStorage logged_in /\
  location_href w' = location_href logged_in.
Proof.
  apply (loto7_click_engine_failure (host_env (always 500 JNull)) "3" logged_in
           {| status := 500; json := Return JNull |} eq_refl).
  - discriminate.
  - discriminate.
  - left. reflexivity.
Defined.

Lemma loto7_click_success_witness :
  let w' := final (Loto7Logic.on_click (host_env (always 200 logic_answer)) "1") logged_in in
  predictionCards_innerHTML (dom w')
    = Loto7Logic.render_cards (Loto7Logic.showPredictions_list logic_answer 1) /\
  issueButton_textContent (dom w') = TEXT_REISSUE /\
  settled w' /\
  localStorage w' = localStorage logged_in /\
  location_href w' = location_href logged_in.
Proof.
  assert (Hcount : requested_count (host_env (always 200 logic_answer)) "1" = 1)
    by (vm_compute; reflexivity).
  destruct (loto7_click_success (host_env (always 200 logic_answer)) "1" logged_in
              {| status := 200; json := Return logic_answer |} logic_answer
              eq_refl eq_refl eq_refl) as [H _].
  rewrite Hcount in H. apply (H logic_answer).
  - vm_compute. reflexivity.
  - vm_compute. reflexivity.
Defined.

Lemma loto6_click_without_draw_witness :
  let c := Loto6Logic.on_click (host_env offline) "3" in
  emitted c logged_in = [EvFetch (draw_url (host_env offline) Loto6Logic.LOTO_TYPE) GET] /\
  settled (final c logged_in) /\
  error_shown TEXT_RETRY_LATER (final c logged_in).
Proof.
  destruct (loto6_click_without_draw (host_env offline) "3" logged_in
              (HostError "Failed to fetch") (or_introl eq_refl))
    as (H1 & _ & _ & H2 & H3).
  split_and!; [exact H1 | exact H2 | exact (H3 eq_refl)].
Defined.

Lemma loto6_click_display_witness :
  let w' := final (Loto6Logic.on_click (host_env draw_up) "2") logged_in in
  predictionCards_innerHTML (dom w')
    = HtmlTicketCards logic_answer (loto6_tickets logic_answer) /\
  issueButton_textContent (dom w') = TEXT_ISSUE /\
  settled w'.
Proof.
  assert (Hn : latest_draw <> JNull) by discriminate.
  assert (Hfetch :
    fetch (host_env draw_up)
      (prediction_url (host_env draw_up) Loto6Logic.LOTO_TYPE
         (number_of (host_env draw_up)
            (js_or (get_prop latest_draw "round") (JNum (Fin 0))))
         (text_of (host_env draw_up)
            (js_or (get_prop latest_draw "draw_date") (JStr "")))
         (requested_count (host_env draw_up) "2"))
      (LotoAuth.outgoing (localStorage logged_in !! "access_token") GET)
    = Return {| status := 200; json := Return logic_answer |})
    by (vm_compute; reflexivity).
  destruct (loto6_click_display (host_env draw_up) "2" logged_in
              {| status := 200; json := Return latest_draw |}
              {| status := 200; json := Return logic_answer |}
              latest_draw logic_answer
              (number_of (host_env draw_up)
                 (js_or (get_prop latest_draw "round") (JNum (Fin 0))))
              (text_of (host_env draw_up)
                 (js_or (get_prop latest_draw "draw_date") (JStr "")))
              eq_refl eq_refl Hn eq_refl eq_refl Hfetch eq_refl eq_refl)
    as (H & _).
  apply (H logic_answer).
  - vm_compute. reflexivity.
  - repeat constructor.
Defined.

Lemma requirePremium_redirects_witness :
  List.filter is_fetch
    (emitted (LotoAuth.requirePremium (host_env (always 200 premium_profile))) logged_in)
    = [EvFetch (LotoAuth.me_url (host_env (always 200 premium_profile))) (me_request "tok")] /\
  emitted (LotoAuth.requirePremium (host_env (always 200 premium_profile))) (world_with ∅)
    = [EvNavigate "login.html"].
Proof.
  assert (Hne : "tok" <> "") by discriminate.
  split.
  - destruct (requirePremium_redirects (host_env (always 200 premium_profile)) logged_in)
      as (_ & _ & _ & H & _).
    exact (H "tok" eq_refl Hne).
  - destruct (requirePremium_redirects (host_env (always 200 premium_profile))
                (world_with ∅)) as (_ & _ & H & _).
    exact (H eq_refl).
Defined.

Lemma profile_round_trip_witness :
  result (getUser sample_parse)
    (final (LotoAuth.setUser (host_env offline) premium_profile) logged_in)
    = Return premium_profile /\
  result (getUser sample_parse) (world_with {[ "user" := "{is_premium" ]}) = Return JNull.
Proof.
  split.
  - destruct (profile_round_trip (host_env offline) sample_parse logged_in premium_profile)
      as (H & _).
    apply H. vm_compute. reflexivity.
  - destruct (profile_round_trip (host_env offline) sample_parse
                (world_with {[ "user" := "{is_premium" ]}) JNull) as (_ & H & _).
    apply (H "{is_premium" (HostError "SyntaxError")); vm_compute; reflexivity.
Defined.

Lemma session_end_witness :
  session_ended sample_parse (final LotoAuth.logout logged_in) /\
  session_ended sample_parse
    (final (LotoAuth.fetchWithAuth (host_env (always 401 JNull))
              (LotoAuth.me_url (host_env (always 401 JNull))) GET) logged_in).
Proof.
  destruct (session_end (host_env (always 401 JNull)) sample_parse logged_in
              (LotoAuth.me_url (host_env (always 401 JNull))) GET eq_refl) as (H1 & H2).
  split; [exact H1|].
  exact (H2 {| status := 401; json := Return JNull |} eq_refl eq_refl).
Defined.

Lemma gate_agrees_with_cache_witness :
  entitled (result (isPremium sample_parse)
              (final (LotoAuth.requirePremium (host_env (always 200 premium_profile)))
                 logged_in)) = true.
Proof.
  assert (Hne : "tok" <> "") by discriminate.
  apply (gate_agrees_with_cache (host_env (always 200 premium_profile)) sample_parse
           logged_in "tok" {| status := 200; json := Return premium_profile |}
           premium_profile eq_refl Hne eq_refl eq_refl eq_refl).
  - vm_compute. reflexivity.
  - vm_compute. reflexivity.
Defined.

Lemma generator_misconfigured_witness :
  (forall fuel, generateUniqueNumbersWithFixed round_robin fuel narrow_config = None) /\
  (forall fuel, generateUniqueNumbersWithFixed round_robin fuel crowded_config
                  = Some ([5; 11; 22], 0%nat)).
Proof.
  split.
  - destruct (generator_misconfigured round_robin narrow_config) as (H & _).
    apply H.
    + exact round_robin_unit.
    + simpl. lia.
    + simpl. lia.
    + simpl. lia.
    + constructor.
    + simpl. lia.
  - destruct (generator_misconfigured round_robin crowded_config) as (_ & H).
    intros fuel. destruct (H ltac:(simpl; lia) fuel) as (Hgen & _). exact Hgen.
Defined.

Lemma generator_fixed_as_set_witness :
  generateUniqueNumbersWithFixed round_robin 10 (with_fixed loto6_config (Some [22; 11]))
  = generateUniqueNumbersWithFixed round_robin 10
      (with_fixed loto6_config (Some [11; 22; 11])).
Proof.
  apply (generator_fixed_as_set round_robin loto6_config (Some [22; 11])
           (Some [11; 22; 11]) 10%nat).
  intros x. simpl. rewrite !elem_of_cons, elem_of_nil. tauto.
Defined.

Lemma mock_batch_witness :
  exists fuel records,
    mockFetchPredictions round_robin fuel "loto6" loto6_config (num_of_Z 600) "2025-01-10"
      (fun i => pretty i) (fun _ => "2025-01-10T00:00:00.000Z") 3 = Some records /\
    length records = 3%nat /\
    Forall (mock_ticket loto6_config) records.
Proof.
  destruct (mock_batch round_robin "loto6" loto6_config (num_of_Z 600) "2025-01-10"
              (fun i => pretty i) (fun _ => "2025-01-10T00:00:00.000Z") 3
              loto6_config_valid round_robin_unit) as (Hsound & Hret).
  destruct (Hret round_robin_fair) as (fuel & records & Hrun).
  exists fuel, records.
  assert (Hgen := Hrun fuel (Nat.le_refl fuel)).
  destruct (Hsound fuel records Hgen) as (Hlen & Hall).
  split_and!; [exact Hgen | exact Hlen | exact Hall].
Defined.

Lemma escapeHtml_faithful_witness :
  escapeHtml "loto7" = "loto7" /\
  (forall t, escapeHtml "a<b>&c" = escapeHtml t -> "a<b>&c" = t).
Proof.
  split.
  - destruct (escapeHtml_faithful "loto7") as (_ & _ & H & _).
    apply H. repeat constructor.
  - destruct (escapeHtml_faithful "a<b>&c") as (_ & H & _). exact H.
Defined.


Lemma fortune_text_shown_witness :
  exists text,
    fortune_text (host_env offline) sample_trim fortune_answer = Return text /\
    text <> "".
Proof.
  destruct (fortune_text_shown (host_env offline) sample_trim fortune_answer)
    as (_ & Hret & Hshown).
  destruct (Hret eq_refl) as (text & Htext).
  exists text. split; [exact Htext|].
  destruct (Hshown text Htext) as [Hne _]. exact Hne.
Defined.

Lemma fortune_click_incomplete_witness :
  let p := (logged_in, fortune_blank) in
  let p' := fortune_on_click (host_env (always 200 fortune_answer)) sample_trim
              "1990" "" "5" "3" None None p in
  fst p' = logged_in /\
  fortuneStateText_textContent (snd p') = TEXT_BIRTHDATE.
Proof.
  destruct (fortune_click_incomplete (host_env (always 200 fortune_answer)) sample_trim
              "1990" "" "5" "3" None None (logged_in, fortune_blank)
              (or_intror (or_introl eq_refl))) as (H1 & _ & H2 & _).
  split; [exact H1 | exact H2].
Defined.

Lemma fortune_click_settles_witness :
  let p' := fortune_on_click (host_env offline) sample_trim
              "1990" "1" "5" "3" (Some "600") (Some "2025-01-10")
              (logged_in, fortune_blank) in
  fortune_button_disabled (snd p') = false /\
  fortuneState_hidden (snd p') = negb (fortuneText_hidden (snd p')).
Proof.
  assert (Hy : "1990" <> "") by discriminate.
  assert (Hm : "1" <> "") by discriminate.
  assert (Hd : "5" <> "") by discriminate.
  destruct (fortune_click_settles (host_env offline) sample_trim
              "1990" "1" "5" "3" (Some "600") (Some "2025-01-10")
              (logged_in, fortune_blank) Hy Hm Hd) as (H1 & H2 & _).
  split; [exact H1 | exact H2].
Defined.

Lemma fortune_click_premium_witness :
  let p' := fortune_on_click (host_env (always 403 JNull)) sample_trim
              "1990" "1" "5" "3" (Some "600") (Some "2025-01-10")
              (logged_in, fortune_blank) in
  fortuneText_innerHTML (snd p') = FortunePremiumWall /\
  fortune_button_textContent (snd p') = TEXT_DIVINING /\
  localStorage (fst p') = localStorage logged_in.
Proof.
  assert (Hy : "1990" <> "") by discriminate.
  assert (Hm : "1" <> "") by discriminate.
  assert (Hd : "5" <> "") by discriminate.
  destruct (fortune_click_premium (host_env (always 403 JNull)) sample_trim
              "1990" "1" "5" "3" (Some "600") (Some "2025-01-10")
              (logged_in, fortune_blank) {| status := 403; json := Return JNull |}
              Hy Hm Hd eq_refl eq_refl) as (H1 & _ & _ & _ & _ & H2 & H3 & _).
  split_and!; [exact H1 | exact H2 | exact H3].
Defined.

Lemma fortune_click_unauthorized_witness :
  let p' := fortune_on_click (host_env (always 401 JNull)) sample_trim
              "1990" "1" "5" "3" (Some "600") (Some "2025-01-10")
              (logged_in, fortune_blank) in
  localStorage (fst p') !! "access_token" = None /\
  location_href (fst p') = "login.html" /\
  fortuneStateText_textContent (snd p') = TEXT_RETRY_LATER.
Proof.
  assert (Hy : "1990" <> "") by discriminate.
  assert (Hm : "1" <> "") by discriminate.
  assert (Hd : "5" <> "") by discriminate.
  destruct (fortune_click_unauthorized (host_env (always 401 JNull)) sample_trim
              "1990" "1" "5" "3" (Some "600") (Some "2025-01-10")
              (logged_in, fortune_blank) {| status := 401; json := Return JNull |}
              Hy Hm Hd eq_refl eq_refl) as (H1 & _ & H2 & H3 & _).
  split_and!; [exact H1 | exact H2 | exact H3].
Defined.

Lemma fortune_click_success_witness :
  let p' := fortune_on_click (host_env (always 200 fortune_answer)) sample_trim
              "1990" "1" "5" "1" (Some "600") (Some "2025-01-10")
              (logged_in, fortune_blank) in
  fortune_cards (snd p') = fortune_tickets /\
  (exists text,
     fortune_text (host_env (always 200 fortune_answer)) sample_trim fortune_answer
       = Return text /\
     fortuneText_innerHTML (snd p') = FortuneParagraph text) /\
  fortune_button_textContent (snd p') = TEXT_AGAIN.
Proof.
  assert (Hy : "1990" <> "") by discriminate.
  assert (Hm : "1" <> "") by discriminate.
  assert (Hd : "5" <> "") by discriminate.
  assert (Ht : get_opt (get_prop fortune_answer "prediction") "tickets"
               = Some (JArr fortune_tickets)) by (vm_compute; reflexivity).
  destruct (fortune_click_success (host_env (always 200 fortune_answer)) sample_trim
              "1990" "1" "5" "1" (Some "600") (Some "2025-01-10")
              (logged_in, fortune_blank)
              {| status := 200; json := Return fortune_answer |} fortune_answer
              fortune_tickets Hy Hm Hd eq_refl eq_refl eq_refl Ht eq_refl eq_refl)
    as (H1 & H2 & _ & _ & _ & H3 & _).
  split_and!; [exact H1 | exact H2 | exact H3].
Defined.

Lemma fortune_click_bad_ticket_witness :
  let p' := fortune_on_click (host_env (always 200 fortune_bad_answer)) sample_trim
              "1990" "1" "5" "1" (Some "600") (Some "2025-01-10")
              (logged_in, fortune_blank) in
  fortune_cards (snd p') = [] /\
  fortuneText_innerHTML (snd p') = FortuneEmpty /\
  fortuneStateText_textContent (snd p') = TEXT_RETRY_LATER /\
  fortuneCard_bg (snd p') = Some true.
Proof.
  assert (Hy : "1990" <> "") by discriminate.
  assert (Hm : "1" <> "") by discriminate.
  assert (Hd : "5" <> "") by discriminate.
  assert (He : "TypeError" <> PREMIUM_REQUIRED) by discriminate.
  assert (Ht : get_opt (get_prop fortune_bad_answer "prediction") "tickets"
               = Some (JArr [JStr "1,2,3"])) by (vm_compute; reflexivity).
  destruct (fortune_click_bad_ticket (host_env (always 200 fortune_bad_answer)) sample_trim
              "1990" "1" "5" "1" (Some "600") (Some "2025-01-10")
              (logged_in, fortune_blank)
              {| status := 200; json := Return fortune_bad_answer |} fortune_bad_answer
              [JStr "1,2,3"] Hy Hm Hd eq_refl eq_refl eq_refl Ht (or_intror eq_refl) He)
    as (H1 & H2 & _ & _ & H3 & _ & _ & H4).
  split_and!; [exact H1 | exact H2 | exact H3 | exact H4].
Defined.

Lemma fortune_fetchLatestDraw_rejects_witness :
  result (fortune_fetchLatestDraw (host_env (always 404 (JObj error_body))) "loto7") logged_in
    = Throw (Error "draw/latest error: 404") /\
  localStorage (final (fortune_fetchLatestDraw (host_env (always 404 (JObj error_body)))
                         "loto7") logged_in) = localStorage logged_in.
Proof.
  destruct (fortune_fetchLatestDraw_rejects (host_env (always 404 (JObj error_body)))
              "loto7" logged_in {| status := 404; json := Return (JObj error_body) |}
              eq_refl eq_refl) as (H1 & _ & H2 & _).
  split; [exact H1 | exact H2].
Defined.



Lemma birth_date_format_witness :
  String.length (birthDate_of "1990" "1" "5") = 10%nat.
Proof.
  assert (Hy : "1990" ∈ year_values 2026) by (apply (bool_decide_unpack _); by vm_compute).
  assert (Hm : "1" ∈ month_values) by (apply (bool_decide_unpack _); by vm_compute).
  assert (Hd : "5" ∈ day_values) by (apply (bool_decide_unpack _); by vm_compute).
  destruct (birth_date_format 2026 "1990" "1" "5" ltac:(lia) Hy Hm Hd
              ltac:(discriminate) ltac:(discriminate) ltac:(discriminate)) as (H & _).
  exact H.
Defined.

